(** * bitmap-to-gcode: the result cache, the vector post-processor and the
      job pipeline, embedded from [srv/server.go] and the cache source file.

    Strings are Go strings (byte sequences, [string] of [ascii]); [float64]
    values are IEEE 754 binary64 numbers, written with the computational
    specification of the Rocq core library ([spec_float], precision 53,
    maximal exponent 1024), so every operation rounds as the hardware does;
    the SQLite index is a finite map from the primary key to the row; the
    file system is a finite map from a path to the file's bytes. *)

From Stdlib Require Import ZArith NArith QArith Lia Lqa Bool.
From Stdlib Require Import Strings.String Strings.Ascii.
From Stdlib Require Import Floats.SpecFloat.
From stdpp Require Import gmap strings list fin_maps.

Open Scope string_scope.
Open Scope Z_scope.

(* ===================================================================== *)
(** * Text helpers *)
(* ===================================================================== *)

Module Text.

(** The double quote and the line feed, written by their codes. *)
Definition dquote : ascii := "034"%char.
Definition DQ : string := String dquote EmptyString.
Definition NL : string := String "010"%char EmptyString.

Definition code (c : ascii) : N := N_of_ascii c.

Definition in_range (lo hi : ascii) (c : ascii) : bool :=
  (code lo <=? code c)%N && (code c <=? code hi)%N.

Definition is_digit (c : ascii) : bool := in_range "0" "9" c.

(** [0-9a-fA-F] *)
Definition is_hex (c : ascii) : bool :=
  is_digit c || in_range "a" "f" c || in_range "A" "F" c.

(** RE2's [\s]: tab, line feed, form feed, carriage return, space. *)
Definition is_space (c : ascii) : bool :=
  match code c with
  | 9%N | 10%N | 12%N | 13%N | 32%N => true
  | _ => false
  end.

Definition is_not (x : ascii) (c : ascii) : bool := negb (Ascii.eqb c x).

Definition digit_char (d : N) : ascii := ascii_of_N (48 + d).

(** Decimal digits of a natural number, most significant first; the fuel
    is the number of binary digits, which bounds the number of decimal
    ones. *)
Fixpoint dec_go (fuel : nat) (n : N) (acc : string) : string :=
  match fuel with
  | O => acc
  | S fuel' =>
      let acc' := String (digit_char (n mod 10)) acc in
      if (n / 10 =? 0)%N then acc' else dec_go fuel' (n / 10)%N acc'
  end.

Definition dec_of_N (n : N) : string := dec_go (S (N.size_nat n)) n EmptyString.

(** [%d] of a Go integer. *)
Definition dec_of_Z (z : Z) : string :=
  match z with
  | Zneg p => "-" +:+ dec_of_N (Npos p)
  | _ => dec_of_N (Z.to_N z)
  end.

Fixpoint zeros (n : nat) : string :=
  match n with O => EmptyString | S n' => String "0" (zeros n') end.

(** Left-pad with zeros to [w] characters. *)
Definition pad_left (w : nat) (s : string) : string :=
  zeros (w - String.length s) +:+ s.

(** Go's [s[:n]]: [None] stands for the run-time panic on a short string. *)
Definition slice_to (n : nat) (s : string) : option string :=
  if (n <=? String.length s)%nat then Some (substring 0 n s) else None.

(** Go's [s[i:j]] for [i <= j <= len(s)]. *)
Definition slice (i j : nat) (s : string) : string := substring i (j - i) s.

Fixpoint contains (needle hay : string) : bool :=
  String.prefix needle hay ||
  match hay with
  | EmptyString => false
  | String _ hay' => contains needle hay'
  end.

Fixpoint concat_all (l : list string) : string :=
  match l with
  | [] => EmptyString
  | s :: l' => s +:+ concat_all l'
  end.

Fixpoint string_rev_acc (s acc : string) : string :=
  match s with
  | EmptyString => acc
  | String c s' => string_rev_acc s' (String c acc)
  end.

(** Split at every [sep]; the result is never empty. *)
Fixpoint split_on (sep : ascii) (s : string) : list string :=
  match s with
  | EmptyString => [EmptyString]
  | String c s' =>
      if Ascii.eqb c sep then EmptyString :: split_on sep s'
      else match split_on sep s' with
           | [] => [String c EmptyString]
           | x :: xs => String c x :: xs
           end
  end.

Fixpoint join_with (sep : string) (l : list string) : string :=
  match l with
  | [] => EmptyString
  | [x] => x
  | x :: l' => x +:+ sep +:+ join_with sep l'
  end.

End Text.

(* ===================================================================== *)
(** * float64 *)
(* ===================================================================== *)

Module F64.

Definition prec : Z := 53.
Definition emax : Z := 1024.

Definition float64 : Type := spec_float.

Definition mul : float64 -> float64 -> float64 := SFmul prec emax.
Definition div : float64 -> float64 -> float64 := SFdiv prec emax.
Definition ltb : float64 -> float64 -> bool := SFltb.
Definition leb : float64 -> float64 -> bool := SFleb.
Definition eqb : float64 -> float64 -> bool := SFeqb.

Definition zero : float64 := S754_zero false.
Definition pinf : float64 := S754_infinity false.

(** The binary64 number nearest to [n / d] (ties to even), [+Inf] when it
    is out of range: the quotient of the two integers is rounded once. *)
Definition of_ratio (n : N) (d : positive) : float64 :=
  match n with
  | N0 => zero
  | Npos p => div (S754_finite false p 0) (S754_finite false d 0)
  end.

(** Digits and at most one dot, as [strconv]'s [readFloat] reads them:
    the mantissa digits as one integer and the number of digits after the
    dot. [None] is a syntax error. *)
Fixpoint read_decimal (s : string) (sawdot sawdigits : bool) (mant : N) (frac : nat)
  : option (N * nat) :=
  match s with
  | EmptyString => if sawdigits then Some (mant, frac) else None
  | String c s' =>
      if Text.is_digit c then
        read_decimal s' sawdot true (10 * mant + (Text.code c - 48))%N
                     (if sawdot then S frac else frac)
      else if Ascii.eqb c "." then
        if sawdot then None else read_decimal s' true sawdigits mant frac
      else None
  end.

(** [strconv.ParseFloat(s, 64)] on the strings that [([0-9.]+)] captures:
    no sign, exponent, hexadecimal or special form can occur in them. The
    result is the value and whether the error is nil. A syntax error gives
    0; a value out of range gives [+Inf] and a range error. *)
Definition ParseFloat (s : string) : float64 * bool :=
  match read_decimal s false false 0%N 0 with
  | None => (zero, false)
  | Some (mant, frac) =>
      let v := of_ratio mant (Z.to_pos (10 ^ Z.of_nat frac)) in
      (v, match v with S754_infinity _ => false | _ => true end)
  end.

(** A decimal constant of the source text, converted as the Go compiler
    converts an untyped constant to float64. *)
Definition const (s : string) : float64 := fst (ParseFloat s).

(** [num / den] rounded to the nearest integer, ties to even. *)
Definition round_half_even (num den : Z) : Z :=
  let q := num / den in
  let r := num mod den in
  match 2 * r ?= den with
  | Lt => q
  | Gt => q + 1
  | Eq => if Z.even q then q else q + 1
  end.

(** The digits of [q / 10^p] with [p] decimals. *)
Definition fixed (p : nat) (q : Z) : string :=
  let scale := 10 ^ Z.of_nat p in
  let int_part := Text.dec_of_Z (q / scale) in
  match p with
  | O => int_part
  | S _ => int_part +:+ "." +:+ Text.pad_left p (Text.dec_of_Z (q mod scale))
  end.

(** [fmt.Sprintf("%.<p>f", x)]: the exact value of [x] rounded to [p]
    decimals, ties to even; [+Inf], [-Inf] and [NaN] are printed so. *)
Definition FormatFloat (p : nat) (x : float64) : string :=
  let sign (s : bool) := if s then "-" else EmptyString in
  match x with
  | S754_nan => "NaN"
  | S754_infinity false => "+Inf"
  | S754_infinity true => "-Inf"
  | S754_zero s => sign s +:+ fixed p 0
  | S754_finite s m e =>
      let scale := 10 ^ Z.of_nat p in
      let q := if (0 <=? e)%Z
               then Zpos m * 2 ^ e * scale
               else round_half_even (Zpos m * scale) (2 ^ (- e)) in
      sign s +:+ fixed p q
  end.

End F64.

(* ===================================================================== *)
(** * Arithmetic interface of [scaleToFit] *)
(* ===================================================================== *)

(** [scaleToFit] uses only multiplication, division and the two ordered
    comparisons. The interface lets the same function body be read with
    binary64 arithmetic, as the program runs it, and with exact rational
    arithmetic, against which the rounding of the former is measured. *)
Class Arith (F : Type) := {
  a_zero : F;
  a_mul : F -> F -> F;
  a_div : F -> F -> F;
  a_leb : F -> F -> bool;
  a_ltb : F -> F -> bool
}.

#[export] Instance float64_arith : Arith F64.float64 := {|
  a_zero := F64.zero;
  a_mul := F64.mul;
  a_div := F64.div;
  a_leb := F64.leb;
  a_ltb := F64.ltb
|}.

#[export] Instance Q_arith : Arith Q := {|
  a_zero := 0%Q;
  a_mul := Qmult;
  a_div := Qdiv;
  a_leb := Qle_bool;
  a_ltb := fun a b => negb (Qle_bool b a)
|}.

(** [scaleToFit] calculates dimensions that fit within [maxW] x [maxH] while
    maintaining aspect ratio. *)
Definition scaleToFit {F : Type} `{Arith F} (srcW srcH maxW maxH : F) : F * F :=
  if a_leb srcW a_zero || a_leb srcH a_zero then (maxW, maxH)
  else
    let scaleW := a_div maxW srcW in
    let scaleH := a_div maxH srcH in
    let scale := if a_ltb scaleH scaleW then scaleH else scaleW in
    (a_mul srcW scale, a_mul srcH scale).

(* ===================================================================== *)
(** * Regular expressions *)
(* ===================================================================== *)

(** The three patterns of the program use literals, character classes,
    greedy repetition of a class, concatenation and one capturing group.
    The matcher is the backtracking reading of Go's leftmost-first
    semantics: a greedy repetition tries the longest run first and gives
    characters back one at a time. The patterns only name ASCII characters,
    so matching bytes and matching UTF-8 runes select the same text. *)
Module Regexp.

Inductive regex : Type :=
| RLit (lit : string)
| RSet (cls : ascii -> bool)
| RStar (cls : ascii -> bool)
| RSeq (r1 r2 : regex)
| RGroup (r : regex).

(** [cls+] and [cls{n}] *)
Definition RPlus (cls : ascii -> bool) : regex := RSeq (RSet cls) (RStar cls).

Fixpoint RRep (n : nat) (cls : ascii -> bool) : regex :=
  match n with
  | O => RLit EmptyString
  | S n' => RSeq (RSet cls) (RRep n' cls)
  end.

Fixpoint seq (l : list regex) : regex :=
  match l with
  | [] => RLit EmptyString
  | [r] => r
  | r :: l' => RSeq r (seq l')
  end.

Fixpoint strip_prefix (p s : string) : option string :=
  match p with
  | EmptyString => Some s
  | String a p' =>
      match s with
      | EmptyString => None
      | String b s' => if Ascii.eqb a b then strip_prefix p' s' else None
      end
  end.

(** The text consumed between the input [s] and its suffix [s']. *)
Definition consumed (s s' : string) : string :=
  substring 0 (String.length s - String.length s') s.

Section Matcher.
Context {A : Type}.

(** What remains to be matched: it receives the rest of the input and
    the groups captured so far. *)
Definition cont : Type := string -> list string -> option A.

Fixpoint star (cls : ascii -> bool) (k : cont) (caps : list string) (s : string)
  : option A :=
  match s with
  | EmptyString => k s caps
  | String c s' =>
      if cls c then
        match star cls k caps s' with
        | Some a => Some a
        | None => k s caps
        end
      else k s caps
  end.

Fixpoint rmatch (r : regex) (k : cont) (s : string) (caps : list string)
  : option A :=
  match r with
  | RLit lit =>
      match strip_prefix lit s with
      | Some s' => k s' caps
      | None => None
      end
  | RSet cls =>
      match s with
      | String c s' => if cls c then k s' caps else None
      | EmptyString => None
      end
  | RStar cls => star cls k caps s
  | RSeq r1 r2 => rmatch r1 (rmatch r2 k) s caps
  | RGroup r1 =>
      rmatch r1 (fun s' caps' => k s' (caps' ++ [consumed s s'])%list) s caps
  end.
End Matcher.

(** A match anchored at the start of [s]: the matched text, the captured
    groups and the rest of the input. *)
Definition match_at (r : regex) (s : string) : option (string * list string * string) :=
  rmatch r (fun s' caps => Some (consumed s s', caps, s')) s [].

(** [Regexp.FindSubmatch]: the leftmost match, as the matched text
    followed by the groups; [None] is Go's nil. *)
Fixpoint FindSubmatch (r : regex) (s : string) : option (list string) :=
  match match_at r s with
  | Some (m, caps, _) => Some (m :: caps)
  | None =>
      match s with
      | EmptyString => None
      | String _ s' => FindSubmatch r s'
      end
  end.

(** [Regexp.ReplaceAllFunc]: every successive leftmost match is
    replaced by [f] of the matched text, the text between matches is
    copied. [skip] counts the characters of the current match that are
    still to be passed over. *)
Fixpoint replace_from (r : regex) (f : string -> string) (skip : nat) (s : string)
  : string :=
  match s with
  | EmptyString =>
      match skip, match_at r s with
      | O, Some (m, _, _) => f m
      | _, _ => EmptyString
      end
  | String c s' =>
      match skip with
      | S n => replace_from r f n s'
      | O =>
          match match_at r s with
          | Some (m, _, _) =>
              match String.length m with
              | O => f m +:+ String c (replace_from r f O s')
              | S n => f m +:+ replace_from r f n s'
              end
          | None => String c (replace_from r f O s')
          end
      end
  end.

Definition ReplaceAllFunc (r : regex) (s : string) (f : string -> string) : string :=
  replace_from r f O s.

End Regexp.

(* ===================================================================== *)
(** * Vector post-processor ([srv/server.go]) *)
(* ===================================================================== *)

Module Conv.

(** Digit value as [strconv.ParseUint] computes it: letters are lowered
    first, a value not below the base is a syntax error. *)
Definition hex_digit_val (c : ascii) : option N :=
  let n := Text.code c in
  if Text.is_digit c then Some (n - 48)%N
  else if Text.in_range "a" "f" c then Some (n - 97 + 10)%N
  else if Text.in_range "A" "F" c then Some (n - 65 + 10)%N
  else None.

Fixpoint parse_uint16 (s : string) (acc : N) : option N :=
  match s with
  | EmptyString => Some acc
  | String c s' =>
      match hex_digit_val c with
      | Some d => parse_uint16 s' (16 * acc + d)%N
      | None => None
      end
  end.

(** [strconv.ParseInt(s, 16, 64)]: the value and whether the error is
    nil. A syntax error gives 0, a value out of range the nearest bound. *)
Definition ParseInt16 (s : string) : Z * bool :=
  let '(neg, body) :=
    match s with
    | String "+" b => (false, b)
    | String "-" b => (true, b)
    | _ => (false, s)
    end in
  match body with
  | EmptyString => (0, false)
  | _ =>
      match parse_uint16 body 0%N with
      | None => (0, false)
      | Some n =>
          let z := Z.of_N n in
          if neg then
            if z <=? 2 ^ 63 then (- z, true) else (- 2 ^ 63, false)
          else
            if z <? 2 ^ 63 then (z, true) else (2 ^ 63 - 1, false)
      end
  end.

End Conv.

(** [isNearWhite] checks if a hex color is white or near-white (high RGB
    values). *)
Definition isNearWhite (hex : string) : bool :=
  if negb (String.length hex =? 6)%nat then false
  else
    let r := fst (Conv.ParseInt16 (Text.slice 0 2 hex)) in
    let g := fst (Conv.ParseInt16 (Text.slice 2 4 hex)) in
    let b := fst (Conv.ParseInt16 (Text.slice 4 6 hex)) in
    let threshold := 240 in
    (threshold <? r) && (threshold <? g) && (threshold <? b).

(** The pattern of [filterWhitePaths], with [\x22] written for the double
    quote: [<path[^>]*style=\x22[^\x22]*stroke:#([0-9a-fA-F]{6})[^\x22]*\x22[^>]*/>] *)
Definition pathRegex : Regexp.regex :=
  Regexp.seq
    [ Regexp.RLit "<path";
      Regexp.RStar (Text.is_not ">");
      Regexp.RLit ("style=" +:+ Text.DQ);
      Regexp.RStar (Text.is_not Text.dquote);
      Regexp.RLit "stroke:#";
      Regexp.RGroup (Regexp.RRep 6 Text.is_hex);
      Regexp.RStar (Text.is_not Text.dquote);
      Regexp.RLit Text.DQ;
      Regexp.RStar (Text.is_not ">");
      Regexp.RLit "/>" ].

(** [stroke:#([0-9a-fA-F]{6})] *)
Definition colorRegex : Regexp.regex :=
  Regexp.seq [ Regexp.RLit "stroke:#"; Regexp.RGroup (Regexp.RRep 6 Text.is_hex) ].

(** The function passed to [ReplaceAllFunc] in [filterWhitePaths]. *)
Definition filterWhitePaths_func (m : string) : string :=
  match Regexp.FindSubmatch colorRegex m with
  | None => m
  | Some colorMatch =>
      let hexColor := nth 1 colorMatch EmptyString in
      if isNearWhite hexColor then EmptyString else m
  end.

(** The new contents that [filterWhitePaths] writes back for the contents
    [data] it has read. *)
Definition filterWhitePaths_data (data : string) : string :=
  Regexp.ReplaceAllFunc pathRegex data filterWhitePaths_func.

Definition is_digit_or_dot (c : ascii) : bool := Text.is_digit c || Ascii.eqb c ".".

(** [<svg[^>]*\swidth=\x22([0-9.]+)] and the same for [height] *)
Definition dimRe (attr : string) : Regexp.regex :=
  Regexp.seq
    [ Regexp.RLit "<svg";
      Regexp.RStar (Text.is_not ">");
      Regexp.RSet Text.is_space;
      Regexp.RLit (attr +:+ "=" +:+ Text.DQ);
      Regexp.RGroup (Regexp.RPlus is_digit_or_dot) ].

Definition widthRe : Regexp.regex := dimRe "width".
Definition heightRe : Regexp.regex := dimRe "height".

Definition f64_100 : F64.float64 := Eval vm_compute in F64.const "100".

(** [getSVGDimensions] extracts width and height from an SVG file; [file]
    is what [os.ReadFile] returns, [None] for an error. *)
Definition getSVGDimensions (file : option string) : F64.float64 * F64.float64 :=
  match file with
  | None => (f64_100, f64_100)
  | Some data =>
      let width :=
        match Regexp.FindSubmatch widthRe data with
        | Some m => fst (F64.ParseFloat (nth 1 m EmptyString))
        | None => F64.zero
        end in
      let height :=
        match Regexp.FindSubmatch heightRe data with
        | Some m => fst (F64.ParseFloat (nth 1 m EmptyString))
        | None => F64.zero
        end in
      let width := if F64.eqb width F64.zero then f64_100 else width in
      let height := if F64.eqb height F64.zero then f64_100 else height in
      (width, height)
  end.

(* ===================================================================== *)
(** * SHA-256 and hexadecimal encoding ([crypto/sha256], [encoding/hex]) *)
(* ===================================================================== *)

Module Sha256.
Local Open Scope N_scope.

Definition mask32 : N := 0xffffffff.
Definition add32 (x y : N) : N := N.land (x + y) mask32.
Definition rotr (n x : N) : N :=
  N.land (N.lor (N.shiftr x n) (N.shiftl x (32 - n))) mask32.
Definition not32 (x : N) : N := N.lxor x mask32.

Definition Ch (x y z : N) : N := N.lxor (N.land x y) (N.land (not32 x) z).
Definition Maj (x y z : N) : N :=
  N.lxor (N.lxor (N.land x y) (N.land x z)) (N.land y z).
Definition Sigma0 (x : N) : N := N.lxor (N.lxor (rotr 2 x) (rotr 13 x)) (rotr 22 x).
Definition Sigma1 (x : N) : N := N.lxor (N.lxor (rotr 6 x) (rotr 11 x)) (rotr 25 x).
Definition sigma0 (x : N) : N := N.lxor (N.lxor (rotr 7 x) (rotr 18 x)) (N.shiftr x 3).
Definition sigma1 (x : N) : N := N.lxor (N.lxor (rotr 17 x) (rotr 19 x)) (N.shiftr x 10).

(** The round constants are the first 32 bits of the fractional parts of
    the cube roots of the first 64 primes, the initial chaining value those
    of the square roots of the first 8 primes (FIPS 180-4); the tables of
    [crypto/sha256] hold these numbers. *)
Definition is_prime (p : nat) : bool :=
  forallb (fun d => negb (p mod d =? 0)%nat) (seq 2 (p - 2)).

Definition primes : list N := map N.of_nat (filter is_prime (seq 2 310)).

(** The integer cube root, by bisection between [lo] and [hi]. *)
Fixpoint cbrt_go (fuel : nat) (lo hi n : N) : N :=
  match fuel with
  | O => lo
  | S fuel' =>
      if hi - lo <=? 1 then lo
      else
        let mid := (lo + hi) / 2 in
        if mid * mid * mid <=? n then cbrt_go fuel' mid hi n else cbrt_go fuel' lo mid n
  end.

Definition frac_cbrt (p : N) : N := cbrt_go 64 0 (2 ^ 40) (p * 2 ^ 96) mod 2 ^ 32.
Definition frac_sqrt (p : N) : N := N.sqrt (p * 2 ^ 64) mod 2 ^ 32.

Definition K : list N := Eval vm_compute in map frac_cbrt primes.

(** The eight working variables, also the chaining value. *)
Record state : Type := mkState { sa : N; sb : N; sc : N; sd : N; se : N; sf : N; sg : N; sh : N }.

Definition init : state :=
  Eval vm_compute in
    match map frac_sqrt (firstn 8 primes) with
    | [a; b; c; d; e; f; g; h] => mkState a b c d e f g h
    | _ => mkState 0 0 0 0 0 0 0 0
    end.

Definition nthw (i : nat) (ws : list N) : N := nth i ws 0.

(** One round: [ws] holds the sixteen most recent schedule words, the
    current one first. *)
Definition round (acc : state * list N) (k : N) : state * list N :=
  let '(st, ws) := acc in
  let w := nthw 0 ws in
  let t1 := add32 (add32 (add32 (add32 (sh st) (Sigma1 (se st))) (Ch (se st) (sf st) (sg st))) k) w in
  let t2 := add32 (Sigma0 (sa st)) (Maj (sa st) (sb st) (sc st)) in
  let next := add32 (add32 (add32 (sigma1 (nthw 14 ws)) (nthw 9 ws)) (sigma0 (nthw 1 ws))) w in
  (mkState (add32 t1 t2) (sa st) (sb st) (sc st) (add32 (sd st) t1) (se st) (sf st) (sg st),
   (tl ws ++ [next])%list).

Definition compress (st : state) (block : list N) : state :=
  let st' := fst (fold_left round K (st, block)) in
  mkState (add32 (sa st) (sa st')) (add32 (sb st) (sb st')) (add32 (sc st) (sc st'))
          (add32 (sd st) (sd st')) (add32 (se st) (se st')) (add32 (sf st) (sf st'))
          (add32 (sg st) (sg st')) (add32 (sh st) (sh st')).

(** Big-endian 32-bit words of a byte sequence. *)
Fixpoint words (bytes : list N) : list N :=
  match bytes with
  | a :: b :: c :: d :: rest =>
      (N.shiftl a 24 + N.shiftl b 16 + N.shiftl c 8 + d) :: words rest
  | _ => []
  end.

Fixpoint blocks (fuel : nat) (ws : list N) (st : state) : state :=
  match fuel with
  | O => st
  | S fuel' =>
      match ws with
      | [] => st
      | _ => blocks fuel' (skipn 16 ws) (compress st (firstn 16 ws))
      end
  end.

Definition be_bytes (n : nat) (x : N) : list N :=
  map (fun i => N.land (N.shiftr x (8 * N.of_nat i)) 0xff) (rev (seq 0 n)).

Definition bytes_of_string (s : string) : list N :=
  map Text.code (list_ascii_of_string s).

Definition pad (msg : list N) : list N :=
  let len := N.of_nat (length msg) in
  let nzero := N.to_nat ((119 - len mod 64) mod 64) in
  (msg ++ [0x80] ++ repeat 0 nzero ++ be_bytes 8 (8 * len))%list.

(** [sha256.Sum256]: the 32 bytes of the digest. *)
Definition Sum256 (s : string) : list N :=
  let ws := words (pad (bytes_of_string s)) in
  let st := blocks (length ws) ws init in
  concat (map (be_bytes 4) [sa st; sb st; sc st; sd st; se st; sf st; sg st; sh st]).

Definition hex_digit (d : N) : ascii :=
  if d <? 10 then ascii_of_N (48 + d) else ascii_of_N (87 + d).

(** [hex.EncodeToString] *)
Fixpoint EncodeToString (bytes : list N) : string :=
  match bytes with
  | [] => EmptyString
  | b :: rest => String (hex_digit (b / 16)) (String (hex_digit (b mod 16)) (EncodeToString rest))
  end.

End Sha256.

(* ===================================================================== *)
(** * Paths ([path/filepath], Unix) *)
(* ===================================================================== *)

Module Filepath.

(** The components that [Clean] keeps: an empty component and [.] are
    dropped, [..] removes the component before it, or stays when there is
    none to remove and the path is not rooted. [out] holds the kept
    components, last first. *)
Fixpoint clean_go (rooted : bool) (comps : list string) (out : list string) : list string :=
  match comps with
  | [] => rev out
  | c :: rest =>
      if String.eqb c EmptyString || String.eqb c "." then clean_go rooted rest out
      else if String.eqb c ".." then
        match out with
        | top :: out' =>
            if String.eqb top ".." then clean_go rooted rest (c :: out)
            else clean_go rooted rest out'
        | [] => if rooted then clean_go rooted rest out else clean_go rooted rest [c]
        end
      else clean_go rooted rest (c :: out)
  end.

Definition Clean (path : string) : string :=
  match path with
  | EmptyString => "."
  | String c _ =>
      let rooted := Ascii.eqb c "/" in
      let body := Text.join_with "/" (clean_go rooted (Text.split_on "/" path) []) in
      if rooted then "/" +:+ body
      else match body with EmptyString => "." | _ => body end
  end.

(** [filepath.Join] of two elements. *)
Definition Join (a b : string) : string :=
  match a, b with
  | EmptyString, EmptyString => EmptyString
  | EmptyString, _ => Clean b
  | _, _ => Clean (a +:+ "/" +:+ b)
  end.

Fixpoint strip_trailing_slashes_rev (r : string) : string :=
  match r with
  | String "/" r' => strip_trailing_slashes_rev r'
  | _ => r
  end.

Fixpoint take_until_slash (r : string) : string :=
  match r with
  | EmptyString => EmptyString
  | String c r' => if Ascii.eqb c "/" then EmptyString else String c (take_until_slash r')
  end.

(** [filepath.Base] *)
Definition Base (path : string) : string :=
  match path with
  | EmptyString => "."
  | _ =>
      let r := strip_trailing_slashes_rev (Text.string_rev_acc path EmptyString) in
      match r with
      | EmptyString => "/"
      | _ => Text.string_rev_acc (take_until_slash r) EmptyString
      end
  end.

(** The extension is searched from the end of the path, up to the last
    slash; [acc] is the suffix read so far. *)
Fixpoint ext_rev (r : string) (acc : string) : string :=
  match r with
  | EmptyString => EmptyString
  | String c r' =>
      if Ascii.eqb c "/" then EmptyString
      else if Ascii.eqb c "." then String c acc
      else ext_rev r' (String c acc)
  end.

(** [filepath.Ext] *)
Definition Ext (path : string) : string :=
  ext_rev (Text.string_rev_acc path EmptyString) EmptyString.

End Filepath.

(** [hashString] computes SHA256 hash of a string (first 16 chars). *)
Definition hashString (s : string) : string :=
  substring 0 16 (Sha256.EncodeToString (Sha256.Sum256 s)).

(** [MakeCacheKey] creates a cache key from input hash and prompt. *)
Definition MakeCacheKey (inputHash prompt : string) : string :=
  inputHash +:+ ":" +:+ hashString prompt.

(** [DefaultAIPrompt] is the default prompt for AI image transformation. *)
Definition DefaultAIPrompt : string :=
  "Reduce this image to a two color line-art image suitable for use in a " +:+
  "child's coloring book. The lines should be black and the background " +:+
  "white. The image will be reproduced by an X-Y plotter, so the final " +:+
  "image should have only lines (no solid/filled areas).".

(* ===================================================================== *)
(** * Results, the file system and the index *)
(* ===================================================================== *)

(** What a Go call gives back: a value with a nil error, an error (its
    text), or a run-time panic. *)
Inductive res (A : Type) : Type :=
| Done (a : A)
| Fail (err : string)
| Panics.
Arguments Done {A} a.
Arguments Fail {A} err.
Arguments Panics {A}.

(** A row of the current [ai_image_cache] table, a field per column; the
    primary key [cache_key] is the key of the map that holds the row. *)
Record CacheRow : Type := mkCacheRow {
  col_input_hash : string;
  col_prompt : string;
  col_output_filename : string;
  col_mime_type : string;
  col_created_at : string
}.

(** A row of the legacy table, whose primary key is [input_hash] and which
    has no prompt column. *)
Record LegacyRow : Type := mkLegacyRow {
  legacy_output_filename : string;
  legacy_mime_type : string;
  legacy_created_at : string
}.

Inductive Table : Type :=
| CurrentSchema (rows : gmap string CacheRow)
| LegacySchema (rows : gmap string LegacyRow).

(** The SQLite database file: the two tables the program names. *)
Record Database : Type := mkDatabase {
  ai_image_cache : option Table;
  ai_image_cache_old : option Table
}.

(** What survives a restart of the process: the files and the index. *)
Record Disk : Type := mkDisk {
  files : gmap string string;
  index : Database
}.

Definition set_files (d : Disk) (f : gmap string string) : Disk :=
  mkDisk f (index d).
Definition set_index (d : Disk) (db : Database) : Disk :=
  mkDisk (files d) db.
Definition set_rows (d : Disk) (rows : gmap string CacheRow) : Disk :=
  set_index d (mkDatabase (Some (CurrentSchema rows)) (ai_image_cache_old (index d))).

(** The text of the error of [os.Open], [os.ReadFile] and [os.Stat] on a
    path that does not exist. *)
Definition not_exist_error (op path : string) : string :=
  op +:+ " " +:+ path +:+ ": no such file or directory".

(** The statements the program sends to SQLite. They fail only for a
    reason that lies in the state of the database; a storage failure is
    injected by the caller where the program reacts to one. *)
Module Sql.

(** [CREATE TABLE IF NOT EXISTS ai_image_cache (...)] *)
Definition create_if_not_exists (db : Database) : Database + string :=
  match ai_image_cache db with
  | Some _ => inl db
  | None => inl (mkDatabase (Some (CurrentSchema ∅)) (ai_image_cache_old db))
  end.

(** [SELECT COUNT( * ) FROM pragma_table_info('ai_image_cache')
    WHERE name = 'input_hash' AND pk = 1] *)
Definition count_legacy_pk (db : Database) : Z :=
  match ai_image_cache db with
  | Some (LegacySchema _) => 1
  | _ => 0
  end.

(** [ALTER TABLE ai_image_cache RENAME TO ai_image_cache_old] *)
Definition rename_to_old (db : Database) : Database + string :=
  match ai_image_cache db, ai_image_cache_old db with
  | None, _ => inr "no such table: ai_image_cache"
  | Some _, Some _ =>
      inr "there is already another table or index with this name: ai_image_cache_old"
  | Some t, None => inl (mkDatabase None (Some t))
  end.

(** [CREATE TABLE ai_image_cache (...)] *)
Definition create (db : Database) : Database + string :=
  match ai_image_cache db with
  | Some _ => inr "table ai_image_cache already exists"
  | None => inl (mkDatabase (Some (CurrentSchema ∅)) (ai_image_cache_old db))
  end.

(** A plain [INSERT] of one row: a row with the same primary key is a
    constraint failure. *)
Definition insert_row (rows : gmap string CacheRow) (key : string) (row : CacheRow)
  : gmap string CacheRow + string :=
  match rows !! key with
  | Some _ => inr "UNIQUE constraint failed: ai_image_cache.cache_key"
  | None => inl (<[key := row]> rows)
  end.

Fixpoint insert_rows (rows : gmap string CacheRow) (new : list (string * CacheRow))
  : gmap string CacheRow + string :=
  match new with
  | [] => inl rows
  | (key, row) :: rest =>
      match insert_row rows key row with
      | inl rows' => insert_rows rows' rest
      | inr e => inr e
      end
  end.

(** The row that the [SELECT] of the migration computes from a legacy
    row: [input_hash || ':' || ?1, input_hash, ?2, output_filename,
    mime_type, created_at]. *)
Definition migrated_row (key_suffix prompt_arg : string) (old : string * LegacyRow)
  : string * CacheRow :=
  (fst old +:+ ":" +:+ key_suffix,
   mkCacheRow (fst old) prompt_arg (legacy_output_filename (snd old))
              (legacy_mime_type (snd old)) (legacy_created_at (snd old))).

(** [INSERT INTO ai_image_cache (...) SELECT ... FROM ai_image_cache_old] *)
Definition insert_select (key_suffix prompt_arg : string) (db : Database)
  : Database + string :=
  match ai_image_cache db, ai_image_cache_old db with
  | Some (CurrentSchema rows), Some (LegacySchema old) =>
      match insert_rows rows (map (migrated_row key_suffix prompt_arg) (map_to_list old)) with
      | inl rows' => inl (mkDatabase (Some (CurrentSchema rows')) (ai_image_cache_old db))
      | inr e => inr e
      end
  | None, _ => inr "no such table: ai_image_cache"
  | _, None => inr "no such table: ai_image_cache_old"
  | _, _ => inr "table has no column named cache_key"
  end.

(** [DROP TABLE ai_image_cache_old] *)
Definition drop_old (db : Database) : Database + string :=
  match ai_image_cache_old db with
  | None => inr "no such table: ai_image_cache_old"
  | Some _ => inl (mkDatabase (ai_image_cache db) None)
  end.

End Sql.

(* ===================================================================== *)
(** * The result cache *)
(* ===================================================================== *)

(** [migrateOldSchema] migrates from old schema (input_hash as primary key)
    to new schema (cache_key). The result is the database as the function
    leaves it and the error it returns, if any. *)
Definition migrateOldSchema (db : Database) : Database * option string :=
  let count := Sql.count_legacy_pk db in
  if count =? 0 then (db, None)
  else
    match Sql.rename_to_old db with
    | inr e => (db, Some ("rename old table: " +:+ e))
    | inl db1 =>
        match Sql.create db1 with
        | inr e => (db1, Some ("create new table: " +:+ e))
        | inl db2 =>
            match Sql.insert_select (hashString DefaultAIPrompt) DefaultAIPrompt db2 with
            | inr e => (db2, Some ("migrate data: " +:+ e))
            | inl db3 =>
                match Sql.drop_old db3 with
                | inr e => (db3, Some ("drop old table: " +:+ e))
                | inl db4 => (db4, None)
                end
            end
        end
    end.

(** [AIImageCache] manages cached AI-generated images; the database handle
    is the [index] of the disk the operations are given. *)
Record AIImageCache : Type := mkAIImageCache {
  cacheDir : string
}.

(** [NewAIImageCache] creates a new cache with SQLite storage. [dbPath]
    names the database file, which is the [index] of the disk. *)
Definition NewAIImageCache (d : Disk) (dbPath cacheDir : string)
  : Disk * res AIImageCache :=
  match Sql.create_if_not_exists (index d) with
  | inr e => (d, Fail ("create table: " +:+ e))
  | inl db1 =>
      match migrateOldSchema db1 with
      | (db2, Some e) => (set_index d db2, Fail ("migrate schema: " +:+ e))
      | (db2, None) => (set_index d db2, Done (mkAIImageCache cacheDir))
      end
  end.

(** [CachedResult] represents a cached AI transformation result. *)
Record CachedResult : Type := mkCachedResult {
  Filename : string;
  MimeType : string;
  FullPath : string;
  Prompt : string
}.

(** [Lookup] checks if we have a cached result for the given input hash
    and prompt. [query_err] is a storage error of the query, when one
    occurs; [Done None] is the pair of nils. The result of the [DELETE] is
    not looked at by the program; the statement is taken to run. *)
Definition Lookup (c : AIImageCache) (query_err : option string) (d : Disk)
    (inputHash prompt : string) : Disk * res (option CachedResult) :=
  let cacheKey := MakeCacheKey inputHash prompt in
  match query_err with
  | Some e => (d, Fail e)
  | None =>
      match ai_image_cache (index d) with
      | None => (d, Fail "no such table: ai_image_cache")
      | Some (LegacySchema _) => (d, Fail "no such column: prompt")
      | Some (CurrentSchema rows) =>
          match rows !! cacheKey with
          | None => (d, Done None)
          | Some row =>
              let filename := col_output_filename row in
              let fullPath := Filepath.Join (cacheDir c) filename in
              match files d !! fullPath with
              | None => (set_rows d (delete cacheKey rows), Done None)
              | Some _ =>
                  (d, Done (Some (mkCachedResult filename (col_mime_type row) fullPath
                                                 (col_prompt row))))
              end
          end
      end
  end.

(** The clock readings a [Store] uses: [time.Now().UnixNano()] and the
    text SQLite gives [CURRENT_TIMESTAMP]. *)
Record Clock : Type := mkClock {
  unixNano : Z;
  current_timestamp : string
}.

(** The extension [Store] determines from the MIME type. *)
Definition cache_ext (mimeType : string) : string :=
  if String.eqb mimeType "image/jpeg" then ".jpg"
  else if String.eqb mimeType "image/webp" then ".webp"
  else if String.eqb mimeType "image/gif" then ".gif"
  else ".png".

(** [fmt.Sprintf("%s_%d%s", inputHash[:16], time.Now().UnixNano(), ext)] *)
Definition cache_filename (hashPrefix : string) (nanos : Z) (ext : string) : string :=
  hashPrefix +:+ "_" +:+ Text.dec_of_Z nanos +:+ ext.

(** The row of the current index stored under [key], if any. *)
Definition index_row (d : Disk) (key : string) : option CacheRow :=
  match ai_image_cache (index d) with
  | Some (CurrentSchema rows) => rows !! key
  | _ => None
  end.

(** [Store] saves a new cached result. [write_err] and [insert_err] are the
    errors of [os.WriteFile] and of the [INSERT OR REPLACE], when they
    fail. The result of [os.Remove] is not looked at by the program; the
    call is taken to remove the file. *)
Definition Store (c : AIImageCache) (clock : Clock) (write_err insert_err : option string)
    (d : Disk) (inputHash prompt imageData mimeType : string)
  : Disk * res CachedResult :=
  let cacheKey := MakeCacheKey inputHash prompt in
  let ext := cache_ext mimeType in
  match Text.slice_to 16 inputHash with
  | None => (d, Panics)
  | Some hashPrefix =>
      let filename := cache_filename hashPrefix (unixNano clock) ext in
      let fullPath := Filepath.Join (cacheDir c) filename in
      match write_err with
      | Some e => (d, Fail ("write cache file: " +:+ e))
      | None =>
          let d1 := set_files d (<[fullPath := imageData]> (files d)) in
          let failed (e : string) : Disk * res CachedResult :=
            (set_files d1 (delete fullPath (files d1)), Fail ("insert cache record: " +:+ e)) in
          match insert_err with
          | Some e => failed e
          | None =>
              match ai_image_cache (index d1) with
              | None => failed "no such table: ai_image_cache"
              | Some (LegacySchema _) =>
                  failed "table ai_image_cache has no column named cache_key"
              | Some (CurrentSchema rows) =>
                  let row := mkCacheRow inputHash prompt filename mimeType
                                        (current_timestamp clock) in
                  (set_rows d1 (<[cacheKey := row]> rows),
                   Done (mkCachedResult filename mimeType fullPath prompt))
              end
          end
      end
  end.

(** [HashFile] computes SHA256 hash of a file. On the disk of the model a
    file that exists is opened and read to its end, so the error of
    [os.Open] on a missing file is the only failure: the other errors of
    [os.Open] and the error of [io.Copy] have no counterpart here. *)
Definition HashFile (d : Disk) (path : string) : res string :=
  match files d !! path with
  | None => Fail (not_exist_error "open" path)
  | Some data => Done (Sha256.EncodeToString (Sha256.Sum256 data))
  end.

(* ===================================================================== *)
(** * The job pipeline ([srv/server.go]) *)
(* ===================================================================== *)

Record Job : Type := mkJob {
  ID : string;
  Status : string;              (* "processing", "done", "error" *)
  Log : string;
  GCodePath : string;
  OriginalName : string;
  CreatedAt : Z;
  MaxWidth : F64.float64;
  MaxHeight : F64.float64;
  ToolOn : string;
  ToolOff : string;
  UseAI : bool;
  AIImageFilename : string;     (* Filename of AI-generated image in cache *)
  AIImageCached : bool          (* Whether the AI image was served from cache *)
}.

(** [job.Log.WriteString(s)] *)
Definition log_write (j : Job) (s : string) : Job :=
  mkJob (ID j) (Status j) (Log j +:+ s) (GCodePath j) (OriginalName j) (CreatedAt j)
        (MaxWidth j) (MaxHeight j) (ToolOn j) (ToolOff j) (UseAI j)
        (AIImageFilename j) (AIImageCached j).

Definition set_Status (j : Job) (s : string) : Job :=
  mkJob (ID j) s (Log j) (GCodePath j) (OriginalName j) (CreatedAt j)
        (MaxWidth j) (MaxHeight j) (ToolOn j) (ToolOff j) (UseAI j)
        (AIImageFilename j) (AIImageCached j).

Definition set_GCodePath (j : Job) (p : string) : Job :=
  mkJob (ID j) (Status j) (Log j) p (OriginalName j) (CreatedAt j)
        (MaxWidth j) (MaxHeight j) (ToolOn j) (ToolOff j) (UseAI j)
        (AIImageFilename j) (AIImageCached j).

Definition set_AIImage (j : Job) (filename : string) (cached : bool) : Job :=
  mkJob (ID j) (Status j) (Log j) (GCodePath j) (OriginalName j) (CreatedAt j)
        (MaxWidth j) (MaxHeight j) (ToolOn j) (ToolOff j) (UseAI j)
        filename cached.

(** The part of [Server] that [processJob] reads. *)
Record Server : Type := mkServer {
  AICache : AIImageCache
}.

(** ** The collaborators *)

(** The request that [callGeminiAPI] sends. The body is kept by its
    fields: the JSON document carries the prompt, the media type and the
    base64 text of the image. *)
Record HttpRequest : Type := mkHttpRequest {
  req_method : string;
  req_url : string;
  req_content_type : string;
  req_prompt : string;
  req_mime_type : string;
  req_image : string
}.

(** [inlineData] of a part of the response: the media type and what
    [base64.StdEncoding.DecodeString] gives for the data, the decoded bytes
    or the text of the error. *)
Record InlineData : Type := mkInlineData {
  inline_mimeType : string;
  inline_data : string + string
}.

Record Part : Type := mkPart {
  part_text : string;
  part_inlineData : option InlineData
}.

(** What the image-transform service does with the request. A response is
    given by its status code and by what the two calls of [json.Unmarshal]
    read in its body: [error.message] ([None] when the body does not
    decode), and the parts of the candidates (or the text of the decoding
    error). *)
Inductive HttpOutcome : Type :=
| TransportError (cause : string)
| BodyReadError (cause : string)
| Response (status : Z) (errMessage : option string) (candidates : list (list Part) + string).

(** What an external process does: its two output streams, the error of
    [cmd.Run] if any, and the file it leaves at its output path if any. *)
Record ProcOutcome : Type := mkProcOutcome {
  proc_stdout : string;
  proc_stderr : string;
  proc_err : option string;
  proc_output : option string
}.

(** Everything outside the program that one run of [processJob] meets,
    in the order of the calls. *)
Record Oracle : Type := mkOracle {
  lookup_query_err : option string;
  mime_TypeByExtension : string -> string;
  http : HttpOutcome;
  clock : Clock;
  store_write_err : option string;
  store_insert_err : option string;
  job_write_err : option string;
  autotrace : ProcOutcome;
  filter_write_err : option string;
  svg2gcode : ProcOutcome
}.

(** The disk and the record of what the run has asked of its collaborators:
    the HTTP requests sent and the commands run, oldest first. *)
Record World : Type := mkWorld {
  disk : Disk;
  http_calls : list HttpRequest;
  commands : list (list string)
}.

Definition set_disk (w : World) (d : Disk) : World :=
  mkWorld d (http_calls w) (commands w).

Definition write_file (w : World) (path data : string) : World :=
  set_disk w (set_files (disk w) (<[path := data]> (files (disk w)))).

(** ** [net/url], [strconv.Quote], [strings.ToLower] *)

Module Net.

Definition backslash : ascii := "092"%char.

Definition hex2 (n : N) : string :=
  String (Sha256.hex_digit (n / 16)) (String (Sha256.hex_digit (n mod 16)) EmptyString).

(** One byte as [strconv.Quote] writes it, for ASCII text. A byte above
    127 is copied, as Go copies the bytes of a printable rune; the escapes
    that Go writes for the other runes and for bytes that are not UTF-8
    have no counterpart here. *)
Definition quote_byte (c : ascii) : string :=
  let n := Text.code c in
  let esc (x : ascii) := String backslash (String x EmptyString) in
  if Ascii.eqb c Text.dquote then esc Text.dquote
  else if Ascii.eqb c backslash then esc backslash
  else match n with
       | 7%N => esc "a"%char | 8%N => esc "b"%char | 12%N => esc "f"%char
       | 10%N => esc "n"%char | 13%N => esc "r"%char | 9%N => esc "t"%char
       | 11%N => esc "v"%char
       | _ => if (n <? 32)%N || (n =? 127)%N
              then String backslash (String "x"%char (hex2 n))
              else String c EmptyString
       end.

Fixpoint quote_body (s : string) : string :=
  match s with
  | EmptyString => EmptyString
  | String c s' => quote_byte c +:+ quote_body s'
  end.

(** [strconv.Quote], the [%q] verb. *)
Definition Quote (s : string) : string := Text.DQ +:+ quote_body s +:+ Text.DQ.

Fixpoint has_ctl (s : string) : bool :=
  match s with
  | EmptyString => false
  | String c s' => (Text.code c <? 32)%N || (Text.code c =? 127)%N || has_ctl s'
  end.

(** The first malformed percent escape of a fragment, at most three
    characters of it. *)
Fixpoint escape_error (s : string) : option string :=
  match s with
  | EmptyString => None
  | String c s' =>
      if Ascii.eqb c "%" then
        match s' with
        | String a (String b _) =>
            if Text.is_hex a && Text.is_hex b then escape_error s'
            else Some (String c (String a (String b EmptyString)))
        | _ => Some s
        end
      else escape_error s'
  end.

(** [strings.Cut(s, "#")] *)
Fixpoint cut_hash (s : string) : string * string :=
  match s with
  | EmptyString => (EmptyString, EmptyString)
  | String c s' =>
      if Ascii.eqb c "#" then (EmptyString, s')
      else let '(a, b) := cut_hash s' in (String c a, b)
  end.

(** The error of [url.Parse], as the URL named in the error and the
    reason, for a URL whose scheme, host and path are those of the
    literal prefix in [callGeminiAPI]: a control character before the
    fragment, or a malformed percent escape in the fragment. *)
Definition parse_error (rawURL : string) : option (string * string) :=
  let '(u, frag) := cut_hash rawURL in
  if has_ctl u then Some (u, "net/url: invalid control character in URL")
  else match escape_error frag with
       | Some bad => Some (rawURL, "invalid URL escape " +:+ Quote bad)
       | None => None
       end.

(** The text of a [url.Error]: the operation, the quoted URL, the cause. *)
Definition url_Error (op url cause : string) : string :=
  op +:+ " " +:+ Quote url +:+ ": " +:+ cause.

Definition lower (c : ascii) : ascii :=
  if Text.in_range "A" "Z" c then ascii_of_N (Text.code c + 32) else c.

(** [strings.ToLower] on ASCII letters. *)
Fixpoint ToLower (s : string) : string :=
  match s with
  | EmptyString => EmptyString
  | String c s' => String (lower c) (ToLower s')
  end.

End Net.

Definition gemini_endpoint : string :=
  "https://generativelanguage.googleapis.com/v1beta/models/gemini-2.0-flash-exp:generateContent?key=".

(** The first part that has inline data, over the candidates in order. *)
Definition first_inline (candidates : list (list Part)) : option InlineData :=
  head (omap part_inlineData (concat candidates)).

(** [callGeminiAPI] calls the Gemini API to transform an image to line art.
    Returns the raw image data and mime type. *)
Definition callGeminiAPI (s : Server) (o : Oracle) (w : World)
    (inputPath apiKey prompt : string) : World * res (string * string) :=
  match files (disk w) !! inputPath with
  | None => (w, Fail ("read input image: " +:+ not_exist_error "open" inputPath))
  | Some inputData =>
      let ext := Net.ToLower (Filepath.Ext inputPath) in
      let inputMimeType := mime_TypeByExtension o ext in
      let inputMimeType :=
        if String.eqb inputMimeType EmptyString then
          if String.eqb ext ".png" then "image/png"
          else if String.eqb ext ".jpg" || String.eqb ext ".jpeg" then "image/jpeg"
          else if String.eqb ext ".webp" then "image/webp"
          else if String.eqb ext ".gif" then "image/gif"
          else if String.eqb ext ".bmp" then "image/bmp"
          else "image/png"
        else inputMimeType in
      let url := gemini_endpoint +:+ apiKey in
      match Net.parse_error url with
      | Some (u, cause) => (w, Fail ("create request: " +:+ Net.url_Error "parse" u cause))
      | None =>
          let req := mkHttpRequest "POST" url "application/json" prompt inputMimeType inputData in
          let w := mkWorld (disk w) (http_calls w ++ [req]) (commands w) in
          match http o with
          | TransportError cause =>
              (w, Fail ("API request failed: " +:+ Net.url_Error "Post" url cause))
          | BodyReadError cause => (w, Fail ("read response: " +:+ cause))
          | Response status errMessage candidates =>
              if negb (status =? 200) then
                match errMessage with
                | Some (String c m) => (w, Fail ("API error: " +:+ String c m))
                | _ => (w, Fail ("API error (status " +:+ Text.dec_of_Z status +:+ ")"))
                end
              else
                match candidates with
                | inr e => (w, Fail ("parse response: " +:+ e))
                | inl cands =>
                    match first_inline cands with
                    | None => (w, Fail "no image in API response")
                    | Some inline =>
                        match inline_data inline with
                        | inr e => (w, Fail ("decode image: " +:+ e))
                        | inl imgData => (w, Done (imgData, inline_mimeType inline))
                        end
                    end
                end
          end
      end
  end.

(** ** [processJob] *)

(** How a run of [processJob] ends: it returns, with the world and the job
    as it leaves them, or it panics. *)
Inductive Outcome : Type :=
| Finished (w : World) (job : Job)
| Crashed (w : World) (job : Job).

(** How the AI stage ends: the pipeline goes on with a working image, or
    [processJob] returns, or it panics. *)
Inductive StageResult : Type :=
| Continue (w : World) (job : Job) (inputPath : string)
| Stop (w : World) (job : Job)
| Crash (w : World) (job : Job).

Definition f64_25_4 : F64.float64 := Eval vm_compute in F64.const "25.4".

(** The captured output of a command, as it is appended to the log. *)
Definition log_streams (job : Job) (p : ProcOutcome) : Job :=
  let job :=
    match proc_stdout p with
    | EmptyString => job
    | out => log_write (log_write (log_write job ("stdout:" +:+ Text.NL)) out) Text.NL
    end in
  match proc_stderr p with
  | EmptyString => job
  | err => log_write (log_write (log_write job ("stderr:" +:+ Text.NL)) err) Text.NL
  end.

(** [cmd.Run()]: the command is recorded, the file it produces is written. *)
Definition run_command (w : World) (argv : list string) (p : ProcOutcome) (outPath : string)
  : World :=
  let w := mkWorld (disk w) (http_calls w) (commands w ++ [argv]) in
  match proc_output p with
  | Some data => write_file w outPath data
  | None => w
  end.

(** [filterWhitePaths] removes paths with white or near-white stroke colors
    from an SVG file. *)
Definition filterWhitePaths (w : World) (write_err : option string) (svgPath : string)
  : World * option string :=
  match files (disk w) !! svgPath with
  | None => (w, Some (not_exist_error "open" svgPath))
  | Some data =>
      let filtered := filterWhitePaths_data data in
      match write_err with
      | Some e => (w, Some e)
      | None => (write_file w svgPath filtered, None)
      end
  end.

(** The resolution computed in the scale stage: [svgWidth / scaledWidth * 25.4]. *)
Definition dpi_of (svgWidth scaledWidth : F64.float64) : F64.float64 :=
  F64.mul (F64.div svgWidth scaledWidth) f64_25_4.

Definition autotrace_argv (svgPath inputPath : string) : list string :=
  ["autotrace"; "-centerline"; "-color-count"; "2"; "-output-file"; svgPath; inputPath].

Definition svg2gcode_argv (job : Job) (dpiArg svgPath gcodePath : string) : list string :=
  ["svg2gcode"; "--on"; ToolOn job; "--off"; ToolOff job; "--dpi"; dpiArg; svgPath; "-o"; gcodePath].

(** The AI stage, the body of [if job.UseAI]. *)
Definition ai_stage (s : Server) (o : Oracle) (w : World) (job : Job)
    (jobDir inputPath apiKey aiPrompt : string) : StageResult :=
  let job := log_write job ("=== Running AI Image Transformation ===" +:+ Text.NL) in
  match HashFile (disk w) inputPath with
  | Panics => Crash w job
  | Fail err =>
      let job := log_write job ("Error hashing input file: " +:+ err +:+ Text.NL) in
      Stop w (set_Status job "error")
  | Done inputHash =>
      match Text.slice_to 16 inputHash with
      | None => Crash w job
      | Some hashPrefix =>
          let job := log_write job ("Input image hash: " +:+ hashPrefix +:+ Text.NL) in
          let '(d, looked) := Lookup (AICache s) (lookup_query_err o) (disk w) inputHash aiPrompt in
          let w := set_disk w d in
          match looked with
          | Panics => Crash w job
          | _ =>
              let job :=
                match looked with
                | Fail err => log_write job ("Cache lookup error: " +:+ err +:+ Text.NL)
                | _ => job
                end in
              let cached := match looked with Done c => c | _ => None end in
              let finish (w : World) (job : Job) (aiImagePath : string) : StageResult :=
                Continue w (log_write job Text.NL) aiImagePath in
              match cached with
              | Some c =>
                  let job := log_write job ("Cache HIT - using cached result: " +:+ Filename c +:+ Text.NL) in
                  finish w (set_AIImage job (Filename c) true) (FullPath c)
              | None =>
                  let job := log_write job ("Cache MISS - calling Gemini API..." +:+ Text.NL) in
                  if String.eqb apiKey EmptyString then
                    let job := log_write job ("Error: AI transformation enabled but no API key provided" +:+ Text.NL) in
                    Stop w (set_Status job "error")
                  else
                    let '(w, called) := callGeminiAPI s o w inputPath apiKey aiPrompt in
                    match called with
                    | Panics => Crash w job
                    | Fail err =>
                        let job := log_write job ("AI transformation error: " +:+ err +:+ Text.NL) in
                        Stop w (set_Status job "error")
                    | Done (imageData, mimeType) =>
                        let complete (w : World) (job : Job) (aiImagePath : string) : StageResult :=
                          finish w (log_write job ("AI transformation complete, saved as: "
                                                   +:+ Filepath.Base aiImagePath +:+ Text.NL))
                                 aiImagePath in
                        let '(d, stored) :=
                          Store (AICache s) (clock o) (store_write_err o) (store_insert_err o)
                                (disk w) inputHash aiPrompt imageData mimeType in
                        let w := set_disk w d in
                        match stored with
                        | Panics => Crash w job
                        | Fail err =>
                            let job := log_write job ("Warning: failed to cache result: " +:+ err +:+ Text.NL) in
                            let ext := if String.eqb mimeType "image/jpeg" then ".jpg" else ".png" in
                            let aiImagePath := Filepath.Join jobDir ("ai_generated" +:+ ext) in
                            match job_write_err o with
                            | Some err =>
                                let job := log_write job ("Error saving AI image: " +:+ err +:+ Text.NL) in
                                Stop w (set_Status job "error")
                            | None => complete (write_file w aiImagePath imageData) job aiImagePath
                            end
                        | Done result =>
                            complete w (set_AIImage job (Filename result) (AIImageCached job))
                                     (FullPath result)
                        end
                    end
              end
          end
      end
  end.

(** The trace, filter, scale and generate stages: [processJob] from
    "Run autotrace with centerline option" to its end. *)
Definition convert_stages (o : Oracle) (w : World) (job : Job)
    (svgPath gcodePath inputPath : string) : World * Job :=
  let job := log_write job ("=== Running autotrace ===" +:+ Text.NL) in
  let job := log_write job ("Command: autotrace -centerline -color-count 2 -output-file "
                            +:+ svgPath +:+ " " +:+ inputPath +:+ Text.NL +:+ Text.NL) in
  let w := run_command w (autotrace_argv svgPath inputPath) (autotrace o) svgPath in
  let job := log_streams job (autotrace o) in
  match proc_err (autotrace o) with
  | Some err =>
      let job := log_write job (Text.NL +:+ "Error: " +:+ err +:+ Text.NL) in
      (w, set_Status job "error")
  | None =>
      let job := log_write job ("autotrace completed successfully" +:+ Text.NL +:+ Text.NL) in
      let job := log_write job ("=== Filtering white paths from SVG ===" +:+ Text.NL) in
      let '(w, filter_err) := filterWhitePaths w (filter_write_err o) svgPath in
      let job :=
        match filter_err with
        | Some err => log_write job ("Warning: failed to filter white paths: " +:+ err +:+ Text.NL)
        | None => log_write job ("White paths removed" +:+ Text.NL +:+ Text.NL)
        end in
      let '(svgWidth, svgHeight) := getSVGDimensions (files (disk w) !! svgPath) in
      let job := log_write job ("SVG dimensions: " +:+ F64.FormatFloat 2 svgWidth +:+ " x "
                                +:+ F64.FormatFloat 2 svgHeight +:+ " pixels" +:+ Text.NL) in
      let job := log_write job ("Max output dimensions: " +:+ F64.FormatFloat 2 (MaxWidth job) +:+ " x "
                                +:+ F64.FormatFloat 2 (MaxHeight job) +:+ " mm" +:+ Text.NL) in
      let '(scaledWidth, scaledHeight) := scaleToFit svgWidth svgHeight (MaxWidth job) (MaxHeight job) in
      let job := log_write job ("Target output dimensions: " +:+ F64.FormatFloat 2 scaledWidth +:+ " x "
                                +:+ F64.FormatFloat 2 scaledHeight +:+ " mm" +:+ Text.NL) in
      let dpi := dpi_of svgWidth scaledWidth in
      let job := log_write job ("Calculated DPI: " +:+ F64.FormatFloat 2 dpi +:+ Text.NL +:+ Text.NL) in
      let dpiArg := F64.FormatFloat 4 dpi in
      let job := log_write job ("=== Running svg2gcode ===" +:+ Text.NL) in
      let job := log_write job ("Command: svg2gcode --on '" +:+ ToolOn job +:+ "' --off '" +:+ ToolOff job
                                +:+ "' --dpi " +:+ dpiArg +:+ " " +:+ svgPath +:+ " -o " +:+ gcodePath
                                +:+ Text.NL +:+ Text.NL) in
      let w := run_command w (svg2gcode_argv job dpiArg svgPath gcodePath) (svg2gcode o) gcodePath in
      let job := log_streams job (svg2gcode o) in
      match proc_err (svg2gcode o) with
      | Some err =>
          let job := log_write job (Text.NL +:+ "Error: " +:+ err +:+ Text.NL) in
          (w, set_Status job "error")
      | None =>
          let job := log_write job ("svg2gcode completed successfully" +:+ Text.NL) in
          (w, set_Status (set_GCodePath job gcodePath) "done")
      end
  end.

Definition processJob (s : Server) (o : Oracle) (w : World) (job : Job)
    (jobDir inputPath apiKey aiPrompt : string) : Outcome :=
  let svgPath := Filepath.Join jobDir "output.svg" in
  let gcodePath := Filepath.Join jobDir "output.gcode" in
  let finish (r : World * Job) : Outcome := Finished (fst r) (snd r) in
  if UseAI job then
    match ai_stage s o w job jobDir inputPath apiKey aiPrompt with
    | Crash w job => Crashed w job
    | Stop w job => Finished w job
    | Continue w job inputPath => finish (convert_stages o w job svgPath gcodePath inputPath)
    end
  else finish (convert_stages o w job svgPath gcodePath inputPath).

(* ===================================================================== *)
(** * Notions used in the statements *)
(* ===================================================================== *)

(** A float64 that is [+0], positive and finite, or [+Inf]. *)
Inductive nonneg : F64.float64 -> Prop :=
| nonneg_zero : nonneg (S754_zero false)
| nonneg_finite m e : nonneg (S754_finite false m e)
| nonneg_inf : nonneg (S754_infinity false).

(** The texts a pattern matches. *)
Inductive in_lang : Regexp.regex -> string -> Prop :=
| L_lit lit : in_lang (Regexp.RLit lit) lit
| L_set cls c : cls c = true -> in_lang (Regexp.RSet cls) (String c EmptyString)
| L_star_nil cls : in_lang (Regexp.RStar cls) EmptyString
| L_star_cons cls c u :
    cls c = true -> in_lang (Regexp.RStar cls) u -> in_lang (Regexp.RStar cls) (String c u)
| L_seq r1 r2 u1 u2 :
    in_lang r1 u1 -> in_lang r2 u2 -> in_lang (Regexp.RSeq r1 r2) (u1 +:+ u2)
| L_group r u : in_lang r u -> in_lang (Regexp.RGroup r) u.

(** Six hexadecimal digits. *)
Definition hex6 (h : string) : Prop :=
  exists c1 c2 c3 c4 c5 c6,
    h = String c1 (String c2 (String c3 (String c4 (String c5 (String c6 EmptyString))))) /\
    Text.is_hex c1 = true /\ Text.is_hex c2 = true /\ Text.is_hex c3 = true /\
    Text.is_hex c4 = true /\ Text.is_hex c5 = true /\ Text.is_hex c6 = true.

(** The text has a parseable stroke color somewhere: [stroke:#] and six
    hexadecimal digits. *)
Definition has_stroke_color (s : string) : Prop :=
  exists a h rest, s = a +:+ "stroke:#" +:+ h +:+ rest /\ hex6 h.

(** A hexadecimal digit, in upper or lower case, a color channel written
    with two of them, and a color written with three channels. *)
Definition hex_digit_of (upper : bool) (d : N) : ascii :=
  if (d <? 10)%N then ascii_of_N (48 + d)
  else ascii_of_N ((if upper then 55 else 87) + d).

Definition hex_channel (upper : bool) (n : N) : string :=
  String (hex_digit_of upper (n / 16)) (String (hex_digit_of upper (n mod 16)) EmptyString).

Definition hex_color (upper : bool) (r g b : N) : string :=
  hex_channel upper r +:+ hex_channel upper g +:+ hex_channel upper b.

(** [ParseInt16] reads the channel [n] back from its two digits, which are
    hexadecimal digits. *)
Definition channel_ok (upper : bool) (n : N) : bool :=
  match Conv.ParseInt16 (hex_channel upper n) with
  | (z, ok) => (z =? Z.of_N n) && ok
  end
  && forallb Text.is_hex (list_ascii_of_string (hex_channel upper n)).

(** The key the migration gives the legacy row of [h], and the table it
    builds from the legacy rows. *)
Definition migrate_key (h : string) : string := h +:+ ":" +:+ hashString DefaultAIPrompt.

Definition migrated (legacy : gmap string LegacyRow) : gmap string CacheRow :=
  list_to_map (map (Sql.migrated_row (hashString DefaultAIPrompt) DefaultAIPrompt)
                   (map_to_list legacy)).

(** The log of a job that stopped for want of a credential. *)
Definition missing_credential_log (job : Job) (inputHash : string) (lookup_err : option string)
  : string :=
  Log job
  +:+ ("=== Running AI Image Transformation ===" +:+ Text.NL)
  +:+ ("Input image hash: " +:+ substring 0 16 inputHash +:+ Text.NL)
  +:+ match lookup_err with
      | Some e => "Cache lookup error: " +:+ e +:+ Text.NL
      | None => EmptyString
      end
  +:+ ("Cache MISS - calling Gemini API..." +:+ Text.NL)
  +:+ ("Error: AI transformation enabled but no API key provided" +:+ Text.NL).

Definition log_of (r : Outcome) : string :=
  match r with Finished _ job | Crashed _ job => Log job end.

(** Every character of [s] is in the class. *)
Fixpoint all_chars (cls : ascii -> bool) (s : string) : bool :=
  match s with
  | EmptyString => true
  | String c s' => cls c && all_chars cls s'
  end.

(** A greedy repetition of the class stops in front of [s]. *)
Definition stops (cls : ascii -> bool) (s : string) : bool :=
  match s with
  | EmptyString => true
  | String c _ => negb (cls c)
  end.

(** The continuation tried at the positions inside [u], the last first, with
    [s] behind: what a greedy repetition over [u] falls back to. *)
Fixpoint back {A : Type} (k : @Regexp.cont A) (caps : list string) (u s : string) : option A :=
  match u with
  | EmptyString => None
  | String c u' =>
      match back k caps u' s with
      | Some a => Some a
      | None => k (String c u' +:+ s) caps
      end
  end.

(** The continuation fails wherever the text starts with a character of
    the class [bad]. *)
Definition fails_on {A : Type} (bad : ascii -> bool) (k : @Regexp.cont A)
    (caps : list string) : Prop :=
  forall c t, bad c = true -> k (String c t) caps = None.

Definition not_s (c : ascii) : bool := negb (Ascii.eqb "s" c).

(** The characters allowed in the path data of a stroked path: any but
    [>] and [s]. *)
Definition data_char (c : ascii) : bool := Text.is_not ">" c && not_s c.

(* ===================================================================== *)
(** * Concrete runs *)
(* ===================================================================== *)

Module Scenario.

Definition q : string := Text.DQ.

(** A stroked path as the tracer writes it. *)
Definition stroked_path (color d : string) : string :=
  "<path style=" +:+ q +:+ "stroke:#" +:+ color +:+ "; fill:none;" +:+ q
  +:+ " d=" +:+ q +:+ d +:+ q +:+ "/>".

Definition svg_document (width height : string) (paths : list string) : string :=
  "<?xml version=" +:+ q +:+ "1.0" +:+ q +:+ " standalone=" +:+ q +:+ "yes" +:+ q +:+ "?>" +:+ Text.NL
  +:+ "<svg width=" +:+ q +:+ width +:+ q +:+ " height=" +:+ q +:+ height +:+ q +:+ ">" +:+ Text.NL
  +:+ Text.concat_all (map (fun p => p +:+ Text.NL) paths)
  +:+ "</svg>" +:+ Text.NL.

Definition white_path : string := stroked_path "fefefe" "M0 0L832 0L832 832L0 832z".
Definition black_path : string := stroked_path "000000" "M10 10L400 420".

(** The document of the end-to-end scenario: 832 by 832, one near-white
    and one black path. *)
Definition traced_document : string := svg_document "832" "832" [white_path; black_path].

(** A document that declares a height of 1 followed by 400 zeros. *)
Definition tall_document : string :=
  svg_document "832" ("1" +:+ Text.zeros 400) [black_path].

Definition server : Server := mkServer (mkAIImageCache "/data/ai_cache").
Definition jobDir : string := "/data/uploads/1700000000000000000".
Definition inputPath : string := "/data/uploads/1700000000000000000/input.png".

Definition empty_index : Database := mkDatabase (Some (CurrentSchema ∅)) None.
Definition disk0 : Disk := mkDisk {[ inputPath := "PNG image bytes" ]} empty_index.
Definition world0 : World := mkWorld disk0 [] [].

Definition job0 (useAI : bool) : Job :=
  mkJob "1700000000000000000" "processing" EmptyString EmptyString "drawing.png"
        1700000000000000000 (F64.const "50") (F64.const "50") "S4 M0" "S4 M100"
        useAI EmptyString false.

Definition quiet (output : string) : ProcOutcome :=
  mkProcOutcome EmptyString EmptyString None (Some output).

Definition clock0 : Clock := mkClock 1700000000123456789 "2023-11-14 22:13:20".

(** The oracle of a run whose tracer writes [document] and whose service
    answers [h]. *)
Definition oracle_for (document : string) (h : HttpOutcome) : Oracle :=
  mkOracle None (fun _ => EmptyString) h clock0 None None None
           (quiet document) None (quiet ("G0 X0 Y0" +:+ Text.NL)).

(** The network is down. *)
Definition offline : HttpOutcome :=
  TransportError "dial tcp: lookup generativelanguage.googleapis.com: no such host".

(** The service answers with an image. *)
Definition answers : HttpOutcome :=
  Response 200 None
    (inl [[mkPart "Here is the line art." None;
           mkPart EmptyString (Some (mkInlineData "image/png" (inl "PNG line art")))]]).

(** An AI-enabled job on a cache miss, with the network down. *)
Definition run_with_key (apiKey : string) : Outcome :=
  processJob server (oracle_for traced_document offline) world0 (job0 true) jobDir inputPath
             apiKey DefaultAIPrompt.

(** The end-to-end scenario: AI disabled, 50 mm by 50 mm. *)
Definition run_plain (document : string) : Outcome :=
  processJob server (oracle_for document offline) world0 (job0 false) jobDir inputPath
             EmptyString DefaultAIPrompt.

(** The [--dpi] argument of the last command of a run. *)
Definition dpi_argument (r : Outcome) : string :=
  match r with
  | Finished w _ | Crashed w _ => nth 6 (default [] (last (commands w))) EmptyString
  end.

(** A disk whose index has one row, for the key of [(fingerprint, prompt)],
    and whose blob is present or not. *)
Definition fingerprint : string :=
  "c9b4b9d43e8145260f3acb5d4d4fd4c0a1b2c3d4e5f60718293a4b5c6d7e8f90".

Definition stale_row : CacheRow :=
  mkCacheRow fingerprint DefaultAIPrompt "c9b4b9d43e814526_1700000000123456789.png"
             "image/png" "2023-11-14 22:13:20".

Definition stale_disk : Disk :=
  mkDisk ∅ (mkDatabase (Some (CurrentSchema
              {[ MakeCacheKey fingerprint DefaultAIPrompt := stale_row ]})) None).

Definition legacy_rows : gmap string LegacyRow :=
  {[ fingerprint := mkLegacyRow "c9b4b9d43e814526_1690000000000000000.png" "image/png"
                                "2023-07-22 04:26:40" ]}.

End Scenario.

(** A stroked path, given by its color and its path data, as it is written
    and as the filter leaves it. *)
Definition written (p : string * string) : string :=
  Scenario.stroked_path (fst p) (snd p).

Definition filtered (p : string * string) : string :=
  if isNearWhite (fst p) then EmptyString else written p.

(** A color of six hexadecimal digits and path data without [>] and [s]. *)
Definition well_formed (p : string * string) : Prop :=
  hex6 (fst p) /\ all_chars data_char (snd p) = true.


(* ===================================================================== *)
(** * Notions used in the further properties *)
(* ===================================================================== *)

(** A digit of lower-case hexadecimal, as [hex.EncodeToString] writes. *)
Definition lower_hex (c : ascii) : bool := Text.is_digit c || Text.in_range "a" "f" c.

(** The two hexadecimal digits of a channel above 240: [f] or [F], then a
    digit other than [0]. *)
Definition is_f (c : ascii) : bool := Ascii.eqb c "f" || Ascii.eqb c "F".
Definition hex_from_1 (c : ascii) : bool := Text.is_hex c && negb (Ascii.eqb c "0").

(** The texts [f1f1f1] to [ffffff], in either case of the letters. *)
Definition near_white_text (s : string) : bool :=
  match s with
  | String r1 (String r2 (String g1 (String g2 (String b1 (String b2 EmptyString))))) =>
      is_f r1 && hex_from_1 r2 && is_f g1 && hex_from_1 g2 && is_f b1 && hex_from_1 b2
  | _ => false
  end.

(** The 256 bytes. *)
Definition all_bytes : list ascii := map ascii_of_nat (seq 0 256).

Definition not_space (c : ascii) : bool := negb (Text.is_space c).

(** What [getSVGDimensions] makes of the text of an attribute: the parsed
    number, or 100 when it is zero or unparsable. *)
Definition declared (x : string) : F64.float64 :=
  let v := fst (F64.ParseFloat x) in
  if F64.eqb v F64.zero then f64_100 else v.

(** A non-empty text of digits and dots. *)
Definition number_text (x : string) : bool :=
  match x with
  | EmptyString => false
  | _ => all_chars is_digit_or_dot x
  end.


(** The settings of a job that the pipeline does not write before its last step. *)
Definition same_settings (job job' : Job) : Prop :=
  ID job' = ID job /\ GCodePath job' = GCodePath job /\ OriginalName job' = OriginalName job /\
  MaxWidth job' = MaxWidth job /\ MaxHeight job' = MaxHeight job /\
  ToolOn job' = ToolOn job /\ ToolOff job' = ToolOff job /\ UseAI job' = UseAI job.


(** What a run may have asked of the service: nothing, or one request, a
    POST of the prompt and of the bytes of the input file to the endpoint
    with the credential. *)
Definition at_most_one_request (w w' : World) (inputPath apiKey aiPrompt : string) : Prop :=
  http_calls w' = http_calls w \/
  exists data mime : string,
    files (disk w) !! inputPath = Some data /\ apiKey <> EmptyString /\
    http_calls w'
    = (http_calls w ++ [mkHttpRequest "POST" (gemini_endpoint +:+ apiKey) "application/json"
                                      aiPrompt mime data])%list.

(** The oracle of a run whose service answers with an image and whose
    cache index cannot be written, or can. *)
Definition oracle_answering (insert_err : option string) : Oracle :=
  mkOracle None (fun _ => EmptyString) Scenario.answers Scenario.clock0 None insert_err None
           (Scenario.quiet Scenario.traced_document) None
           (Scenario.quiet ("G0 X0 Y0" +:+ Text.NL)).

(** A character of a plain file name: neither a slash nor a dot. *)
Definition plain_char (c : ascii) : bool := Text.is_not "/" c && Text.is_not "." c.

(** A path element that [filepath.Clean] keeps as it is: not empty, not
    [.] or [..], without a slash. *)
Definition plain_element (e : string) : bool :=
  negb (String.eqb e EmptyString) && negb (String.eqb e ".") && negb (String.eqb e "..")
  && all_chars (Text.is_not "/") e.

(** Two worlds that differ at most in the requests sent. *)
Definition same_but_requests (w1 w2 : World) : Prop :=
  disk w1 = disk w2 /\ commands w1 = commands w2.

(* ===================================================================== *)
(** * The HTTP handlers ([srv/server.go]) *)
(* ===================================================================== *)

Module Str.

(** [strings.HasSuffix] *)
Definition HasSuffix (s suffix : string) : bool :=
  (String.length suffix <=? String.length s)%nat &&
  String.eqb (substring (String.length s - String.length suffix) (String.length suffix) s) suffix.

(** [strings.TrimSuffix] *)
Definition TrimSuffix (s suffix : string) : string :=
  if HasSuffix s suffix then substring 0 (String.length s - String.length suffix) s else s.

End Str.

(** [Server] with the fields that the handlers read; [jobs] is the map
    that the mutex guards. A job of the map is the one that its run of
    [processJob] writes to: the map holds a pointer. *)
Record Site : Type := mkSite {
  Hostname : string;
  TemplatesDir : string;
  StaticDir : string;
  UploadsDir : string;
  site_server : Server;
  jobs : gmap string Job
}.

(** The data that [HandleJobStatus] gives to the template [job.html]. *)
Record JobPage : Type := mkJobPage {
  page_Job : Job;
  page_Log : string;
  page_Hostname : string;
  page_SVGContent : string;
  page_AIImageURL : string
}.

(** What a handler asks of [net/http] for its response: [http.Error],
    [http.Redirect], the headers it sets followed by [http.ServeFile], or
    the headers it sets followed by [renderTemplate]. *)
Inductive Reply : Type :=
| HttpError (msg : string) (code : Z)
| HttpRedirect (url : string) (code : Z)
| HttpServeFile (header : list (string * string)) (name : string)
| RenderTemplate (header : list (string * string)) (name : string) (data : JobPage).

(** [HandleJobStatus]; [jobID] is [r.PathValue("id")]. *)
Definition HandleJobStatus (st : Site) (d : Disk) (jobID : string) : Reply :=
  match jobs st !! jobID with
  | None => HttpError "Job not found" 404
  | Some job =>
      let jobDir := Filepath.Join (UploadsDir st) jobID in
      let svgContent :=
        if String.eqb (Status job) "done" || String.eqb (Status job) "error" then
          match files d !! Filepath.Join jobDir "output.svg" with
          | Some data => data
          | None => EmptyString
          end
        else EmptyString in
      let aiImageURL :=
        if negb (String.eqb (AIImageFilename job) EmptyString)
        then "/ai-cache/" +:+ AIImageFilename job
        else EmptyString in
      RenderTemplate [("Content-Type", "text/html; charset=utf-8")] "job.html"
                     (mkJobPage job (Log job) (Hostname st) svgContent aiImageURL)
  end.

(** The file name that [HandleDownload] offers for an upload called
    [originalName]. *)
Definition downloadName (originalName : string) : string :=
  Str.TrimSuffix originalName (Filepath.Ext originalName) +:+ ".gcode".

(** [HandleDownload]; [jobID] is [r.PathValue("id")]. *)
Definition HandleDownload (st : Site) (jobID : string) : Reply :=
  match jobs st !! jobID with
  | None => HttpError "File not available" 404
  | Some job =>
      if negb (String.eqb (Status job) "done") || String.eqb (GCodePath job) EmptyString
      then HttpError "File not available" 404
      else
        HttpServeFile
          [("Content-Disposition", "attachment; filename=" +:+ Net.Quote (downloadName (OriginalName job)));
           ("Content-Type", "application/octet-stream")]
          (GCodePath job)
  end.

(** The upload request as [HandleUpload] reads it: what [r.FormFile("image")]
    returns, the file name of the header and the bytes of the file, or the
    text of the error; and [r.FormValue], which is empty for a field that
    is absent. *)
Record UploadRequest : Type := mkUploadRequest {
  FormFile_image : (string * string) + string;
  FormValue : string -> string
}.

(** What [HandleUpload] meets outside the program: the two readings of the
    clock, for the job ID and for [CreatedAt], and the errors of
    [os.MkdirAll], [os.Create] and [io.Copy]; a failing copy comes with the
    bytes written before it failed. *)
Record UploadOracle : Type := mkUploadOracle {
  id_UnixNano : Z;
  MkdirAll_err : option string;
  Create_err : option string;
  Copy_err : option (string * string);
  created_at : Z
}.

(** The call [go s.processJob(job, jobDir, inputPath, apiKey, aiPrompt)]. *)
Record Spawn : Type := mkSpawn {
  go_job : Job;
  go_jobDir : string;
  go_inputPath : string;
  go_apiKey : string;
  go_aiPrompt : string
}.

(** What a call of [HandleUpload] leaves: the response, the server and the
    disk, and the run it started, if any. *)
Record Handled : Type := mkHandled {
  reply : Reply;
  site_after : Site;
  disk_after : Disk;
  spawned : option Spawn
}.

Definition f64_200 : F64.float64 := Eval vm_compute in F64.const "200".

Definition register (st : Site) (jobID : string) (job : Job) : Site :=
  mkSite (Hostname st) (TemplatesDir st) (StaticDir st) (UploadsDir st) (site_server st)
         (<[jobID := job]> (jobs st)).

Section Upload.

(** [strconv.ParseFloat(s, 64)] on the text of a form field: the number
    and whether the error is nil. The handler is defined for every such
    function; [F64.ParseFloat] is the one of the texts of digits and
    dots. *)
Variable ParseFloat : string -> F64.float64 * bool.

(** The option [maxWidth] or [maxHeight]: 200 unless the field is present
    and parses, without an error, to a number above 0. *)
Definition form_dimension (raw : string) : F64.float64 :=
  if String.eqb raw EmptyString then f64_200
  else
    let '(v, ok) := ParseFloat raw in
    if ok && F64.ltb F64.zero v then v else f64_200.

(** [HandleUpload] *)
Definition HandleUpload (st : Site) (d : Disk) (o : UploadOracle) (r : UploadRequest)
  : Handled :=
  match FormFile_image r with
  | inr err => mkHandled (HttpError ("Failed to read uploaded file: " +:+ err) 400) st d None
  | inl (filename, content) =>
      let maxWidth := form_dimension (FormValue r "maxWidth") in
      let maxHeight := form_dimension (FormValue r "maxHeight") in
      let toolOn := FormValue r "toolOn" in
      let toolOn := if String.eqb toolOn EmptyString then "S4 M0" else toolOn in
      let toolOff := FormValue r "toolOff" in
      let toolOff := if String.eqb toolOff EmptyString then "S4 M100" else toolOff in
      let useAI := String.eqb (FormValue r "useAI") "on" || String.eqb (FormValue r "useAI") "true" in
      let apiKey := FormValue r "apiKey" in
      let aiPrompt := FormValue r "aiPrompt" in
      let aiPrompt := if String.eqb aiPrompt EmptyString then DefaultAIPrompt else aiPrompt in
      let jobID := Text.dec_of_Z (id_UnixNano o) in
      let jobDir := Filepath.Join (UploadsDir st) jobID in
      match MkdirAll_err o with
      | Some err =>
          mkHandled (HttpError ("Failed to create job directory: " +:+ err) 500) st d None
      | None =>
          let ext := Filepath.Ext filename in
          let inputPath := Filepath.Join jobDir ("input" +:+ ext) in
          match Create_err o with
          | Some err => mkHandled (HttpError ("Failed to save file: " +:+ err) 500) st d None
          | None =>
              match Copy_err o with
              | Some (err, written) =>
                  mkHandled (HttpError ("Failed to save file: " +:+ err) 500) st
                            (set_files d (<[inputPath := written]> (files d))) None
              | None =>
                  let d := set_files d (<[inputPath := content]> (files d)) in
                  let job := mkJob jobID "processing" EmptyString EmptyString filename
                                   (created_at o) maxWidth maxHeight toolOn toolOff useAI
                                   EmptyString false in
                  mkHandled (HttpRedirect ("/job/" +:+ jobID) 303) (register st jobID job) d
                            (Some (mkSpawn job jobDir inputPath apiKey aiPrompt))
              end
          end
      end
  end.

End Upload.

(** The job and the world that a run of [processJob] leaves. *)
Definition job_of (r : Outcome) : Job :=
  match r with Finished _ job | Crashed _ job => job end.

Definition world_of (r : Outcome) : World :=
  match r with Finished w _ | Crashed w _ => w end.

(** The run that [HandleUpload] started, on the disk it left. *)
Definition run_spawned (st : Site) (o : Oracle) (d : Disk) (sp : Spawn) : Outcome :=
  processJob (site_server st) o (mkWorld d [] []) (go_job sp) (go_jobDir sp) (go_inputPath sp)
             (go_apiKey sp) (go_aiPrompt sp).

(** An upload: a server with no job yet, the clock and a form with a file
    called [filename] and the given maximum width and height. *)
Definition site0 : Site :=
  mkSite "localhost:8000" "/data/srv/templates" "/data/srv/static" "/data/uploads"
         Scenario.server ∅.

Definition upload_oracle0 : UploadOracle :=
  mkUploadOracle 1700000000000000000 None None None 1700000000000000001.

Definition upload_of (filename maxWidth maxHeight : string) : UploadRequest :=
  mkUploadRequest (inl (filename, "PNG image bytes"))
    (fun field => if String.eqb field "maxWidth" then maxWidth
                  else if String.eqb field "maxHeight" then maxHeight
                  else EmptyString).

(* ===================================================================== *)
(** * Further scenarios *)
(* ===================================================================== *)

(** The float64 value NaN. *)
Definition f64_NaN : F64.float64 := S754_nan.

(** A cached result for the input of the scenario under the default
    prompt, and a world whose cache holds it. *)
Definition cached_result : CachedResult :=
  mkCachedResult "5f3e7a2b9c1d4e60_1700000000123456789.png" "image/png"
                 "/data/ai_cache/5f3e7a2b9c1d4e60_1700000000123456789.png" DefaultAIPrompt.

Definition cached_world : World :=
  mkWorld (mkDisk {[ Scenario.inputPath := "PNG image bytes";
                     FullPath cached_result := "PNG line art" ]}
             (mkDatabase (Some (CurrentSchema
                {[ MakeCacheKey (Sha256.EncodeToString (Sha256.Sum256 "PNG image bytes"))
                                DefaultAIPrompt
                   := mkCacheRow (Sha256.EncodeToString (Sha256.Sum256 "PNG image bytes"))
                        DefaultAIPrompt (Filename cached_result) "image/png"
                        "2023-11-14 22:13:20" ]})) None)) [] [].

(** Path elements that are not in the form in which the tracer writes
    them: a black path labelled with the text of a white stroke, a white
    path with a closing tag, a white path with a space after [stroke:],
    and a path with a named stroke color and a further attribute. *)
Definition labelled_black_path : string :=
  "<path id=" +:+ Text.DQ +:+ "stroke:#ffffff" +:+ Text.DQ
  +:+ " style=" +:+ Text.DQ +:+ "stroke:#000000; fill:none;" +:+ Text.DQ
  +:+ " d=" +:+ Text.DQ +:+ "M1 1L8 8" +:+ Text.DQ +:+ "/>".

Definition open_white_path : string :=
  "<path style=" +:+ Text.DQ +:+ "stroke:#ffffff; fill:none;" +:+ Text.DQ
  +:+ " d=" +:+ Text.DQ +:+ "M0 0L9 9" +:+ Text.DQ +:+ "></path>".

Definition spaced_white_path : string :=
  "<path style=" +:+ Text.DQ +:+ "stroke: #ffffff; fill:none;" +:+ Text.DQ
  +:+ " d=" +:+ Text.DQ +:+ "M0 0L9 9" +:+ Text.DQ +:+ "/>".

Definition red_path : string :=
  "<path style=" +:+ Text.DQ +:+ "stroke:red; fill:none;" +:+ Text.DQ
  +:+ " data-style=" +:+ Text.DQ +:+ "stroke:#ffffff" +:+ Text.DQ
  +:+ " d=" +:+ Text.DQ +:+ "M2 2L7 7" +:+ Text.DQ +:+ "/>".

(** A world whose only file is a drawing. *)
Definition world_with_drawing (svgPath document : string) : World :=
  mkWorld (mkDisk {[ svgPath := document ]} Scenario.empty_index) [] [].

(** A document that declares a width of 1 followed by 400 zeros. *)
Definition wide_document : string :=
  Scenario.svg_document ("1" +:+ Text.zeros 400) "832" [Scenario.black_path].

(** A byte of ASCII. *)
Definition ascii_byte (c : ascii) : bool := (Text.code c <? 128)%N.

(** A byte that [%q] copies: printable ASCII other than the double quote
    and the backslash. *)
Definition copied_byte (c : ascii) : bool :=
  (32 <=? Text.code c)%N && (Text.code c <? 127)%N
  && Text.is_not Text.dquote c && Text.is_not Net.backslash c.

(* ===================================================================== *)
(** * Facts about strings *)
(* ===================================================================== *)

Open Scope list_scope.

Section StringFacts.

Lemma app_cons (c : ascii) (a b : string) : String c a +:+ b = String c (a +:+ b).
Proof. reflexivity. Qed.

Lemma app_nil_l (a : string) : EmptyString +:+ a = a.
Proof. reflexivity. Qed.

Lemma app_assoc' (a b c : string) : (a +:+ b) +:+ c = a +:+ b +:+ c.
Proof.
  induction a as [|x a IH]; [reflexivity|]. rewrite !app_cons. now rewrite IH.
Qed.

Lemma string_length_app (a b : string) :
  String.length (a +:+ b) = (String.length a + String.length b)%nat.
Proof.
  induction a as [|c a IH]; [reflexivity|].
  rewrite app_cons. cbn [String.length]. now rewrite IH.
Qed.

Lemma app_inj_r (t a b : string) : a +:+ t = b +:+ t -> a = b.
Proof.
  revert b. induction a as [|c a IH]; intros [|c' b] E.
  - reflexivity.
  - apply (f_equal String.length) in E. rewrite !string_length_app in E. cbn in E. lia.
  - apply (f_equal String.length) in E. rewrite !string_length_app in E. cbn in E. lia.
  - rewrite !app_cons in E. injection E as -> E. f_equal. apply IH, E.
Qed.

End StringFacts.

(* ===================================================================== *)
(** * [scaleToFit] in exact arithmetic *)
(* ===================================================================== *)

Section ScaleToFitExact.
Local Open Scope Q_scope.

Lemma Qle_bool_false (a b : Q) : b < a -> Qle_bool a b = false.
Proof.
  intros Hlt. destruct (Qle_bool a b) eqn:E; [|reflexivity].
  apply Qle_bool_iff in E. exfalso. apply (Qlt_not_le _ _ Hlt E).
Qed.


Lemma scaleToFit_Q_positive (srcW srcH maxW maxH : Q) :
  0 < srcW -> 0 < srcH ->
  scaleToFit srcW srcH maxW maxH =
    let scale := if negb (Qle_bool (maxW / srcW) (maxH / srcH))
                 then maxH / srcH else maxW / srcW in
    (srcW * scale, srcH * scale).
Proof.
  intros HW HH. unfold scaleToFit. cbn [a_leb a_zero a_ltb a_mul a_div Q_arith].
  rewrite (Qle_bool_false _ _ HW), (Qle_bool_false _ _ HH). reflexivity.
Qed.


Lemma scaleToFit_Q_nonzero (srcW srcH maxW maxH : Q) :
  0 < srcW -> 0 < srcH -> 0 < maxW -> 0 < maxH ->
  0 < fst (scaleToFit srcW srcH maxW maxH) /\ 0 < snd (scaleToFit srcW srcH maxW maxH).
Proof.
  intros HW HH HmW HmH. rewrite scaleToFit_Q_positive by assumption.
  assert (PW : 0 < maxW / srcW) by (apply Qlt_shift_div_l; [assumption | ring_simplify; assumption]).
  assert (PH : 0 < maxH / srcH) by (apply Qlt_shift_div_l; [assumption | ring_simplify; assumption]).
  assert (M : forall a b : Q, 0 < a -> 0 < b -> 0 < a * b).
  { intros a b Ha Hb. rewrite <- (Qmult_0_r a). apply Qmult_lt_l; assumption. }
  cbv zeta. destruct (negb _); cbn [fst snd]; split; apply M; assumption.
Qed.

End ScaleToFitExact.


Lemma scaleToFit_scaled {F : Type} `{Arith F} (srcW srcH maxW maxH : F) :
  a_leb srcW a_zero = false -> a_leb srcH a_zero = false ->
  scaleToFit srcW srcH maxW maxH =
    let scale := if a_ltb (a_div maxH srcH) (a_div maxW srcW)
                 then a_div maxH srcH else a_div maxW srcW in
    (a_mul srcW scale, a_mul srcH scale).
Proof. intros E1 E2. unfold scaleToFit. now rewrite E1, E2. Qed.

(* ===================================================================== *)
(** * float64: what [ParseFloat] returns is never negative and never NaN *)
(* ===================================================================== *)

Section Float64Facts.

Lemma shr_1_nonneg (mrs : shr_record) : 0 <= shr_m mrs -> 0 <= shr_m (shr_1 mrs).
Proof.
  destruct mrs as [m r s]; cbn [shr_m]; intros Hm.
  destruct m as [|p|p]; [cbn; lia | | lia].
  destruct p; cbn; lia.
Qed.

Lemma iter_shr_1_nonneg (p : positive) (mrs : shr_record) :
  0 <= shr_m mrs -> 0 <= shr_m (SpecFloat.iter_pos shr_1 p mrs).
Proof.
  revert mrs. induction p as [p IH|p IH|]; intros mrs Hm; cbn [SpecFloat.iter_pos].
  - apply IH, IH, shr_1_nonneg, Hm.
  - apply IH, IH, Hm.
  - apply shr_1_nonneg, Hm.
Qed.

Lemma shr_fexp_nonneg (m e : Z) (l : location) :
  0 <= m -> 0 <= shr_m (fst (shr_fexp F64.prec F64.emax m e l)).
Proof.
  intros Hm. unfold shr_fexp, shr.
  assert (H0 : 0 <= shr_m (shr_record_of_loc m l)).
  { destruct l as [|[]]; exact Hm. }
  destruct (_ - e) as [|p|p]; cbn [fst]; [exact H0 | | exact H0].
  apply iter_shr_1_nonneg, H0.
Qed.

Lemma round_nearest_even_nonneg (m : Z) (l : location) :
  0 <= m -> 0 <= round_nearest_even m l.
Proof.
  intros Hm. destruct l as [|[]]; cbn; try lia. destruct (Z.even m); lia.
Qed.

Lemma binary_round_aux_nonneg (mx ex : Z) (lx : location) :
  0 <= mx -> nonneg (binary_round_aux F64.prec F64.emax false mx ex lx).
Proof.
  intros Hm. unfold binary_round_aux.
  pose proof (shr_fexp_nonneg mx ex lx Hm) as H1.
  destruct (shr_fexp F64.prec F64.emax mx ex lx) as [mrs' e'].
  cbn [fst] in H1.
  pose proof (shr_fexp_nonneg _ e' loc_Exact
                (round_nearest_even_nonneg _ (loc_of_shr_record mrs') H1)) as H2.
  destruct (shr_fexp F64.prec F64.emax _ e' loc_Exact) as [mrs'' e''].
  cbn [fst] in H2.
  destruct (shr_m mrs'') as [|m|m]; [constructor | | lia].
  destruct (e'' <=? _); constructor.
Qed.

Lemma of_ratio_nonneg (n : N) (d : positive) : nonneg (F64.of_ratio n d).
Proof.
  destruct n as [|p]; [constructor|].
  unfold F64.of_ratio, F64.div, SFdiv. cbn [xorb].
  destruct (SFdiv_core_binary F64.prec F64.emax (Z.pos p) 0 (Z.pos d) 0) as [[mz ez] lz] eqn:E.
  apply binary_round_aux_nonneg.
  unfold SFdiv_core_binary in E.
  match type of E with
  | (let '(q, r) := Z.div_eucl ?a ?b in _) = _ =>
      pose proof (Z.div_eucl_eq a b) as Hd;
      assert (Ha : 0 <= a);
      [ | pose proof (Z_div_mod a b) as Hb; destruct (Z.div_eucl a b) as [q r] ]
  end.
  - cbv zeta. destruct (0 - 0 - _) as [|s|s]; try lia.
    rewrite Z.shiftl_mul_pow2 by lia. apply Z.mul_nonneg_nonneg; lia.
  - inversion E; subst. specialize (Hb ltac:(lia)). destruct Hb as [Hb1 Hb2]. nia.
Qed.

Lemma ParseFloat_nonneg (s : string) : nonneg (fst (F64.ParseFloat s)).
Proof.
  unfold F64.ParseFloat. destruct (F64.read_decimal s false false 0%N 0%nat) as [[mant frac]|].
  - cbn [fst]. apply of_ratio_nonneg.
  - constructor.
Qed.

Lemma nonneg_positive (x : F64.float64) :
  nonneg x -> F64.eqb x F64.zero = false -> F64.ltb F64.zero x = true.
Proof. intros [] E; cbn in *; congruence. Qed.

Lemma positive_not_leb (x : F64.float64) :
  F64.ltb F64.zero x = true -> F64.leb x F64.zero = false.
Proof.
  unfold F64.ltb, F64.leb, SFltb, SFleb, F64.zero.
  destruct x as [[]|[]| |[] m e]; cbn; congruence.
Qed.

End Float64Facts.

Lemma getSVGDimensions_positive (file : option string) :
  F64.ltb F64.zero (fst (getSVGDimensions file)) = true /\
  F64.ltb F64.zero (snd (getSVGDimensions file)) = true.
Proof.
  assert (D : forall x, nonneg x ->
            F64.ltb F64.zero (if F64.eqb x F64.zero then f64_100 else x) = true).
  { intros x Hx. destruct (F64.eqb x F64.zero) eqn:E; [reflexivity|].
    apply nonneg_positive; assumption. }
  destruct file as [data|]; [|split; reflexivity].
  unfold getSVGDimensions. cbn [fst snd].
  split; apply D.
  - destruct (Regexp.FindSubmatch widthRe data); [apply ParseFloat_nonneg | constructor].
  - destruct (Regexp.FindSubmatch heightRe data); [apply ParseFloat_nonneg | constructor].
Qed.

(* ===================================================================== *)
(** * float64: the signs of quotients and products in [scaleToFit] *)
(* ===================================================================== *)

Section Float64Signs.

Lemma div_core_nonneg (mx my : positive) (ex ey : Z) :
  0 <= fst (fst (SFdiv_core_binary F64.prec F64.emax (Z.pos mx) ex (Z.pos my) ey)).
Proof.
  unfold SFdiv_core_binary. cbv zeta.
  match goal with
  | |- context [Z.div_eucl ?a ?b] =>
      assert (Ha : 0 <= a);
      [ | pose proof (Z_div_mod a b) as Hb; destruct (Z.div_eucl a b) as [q r] ]
  end.
  - match goal with |- 0 <= match ?sh with _ => _ end => destruct sh as [|p|p] end; try lia.
    rewrite Z.shiftl_mul_pow2 by lia. apply Z.mul_nonneg_nonneg; lia.
  - cbn [fst]. specialize (Hb ltac:(lia)). destruct Hb as [Hb1 Hb2]. nia.
Qed.

(** The quotient of two values that are not negative is not negative,
    unless it is the quotient of two zeros or of two infinities. *)
Lemma div_nonneg (x y : F64.float64) :
  nonneg x -> nonneg y ->
  nonneg (F64.div x y) \/ F64.div x y = f64_NaN.
Proof.
  intros [| mx ex |] [| my ey |]; cbn; try (left; constructor); try (right; reflexivity).
  left. unfold F64.div, SFdiv. cbn [xorb].
  pose proof (div_core_nonneg mx my ex ey) as H.
  destruct (SFdiv_core_binary F64.prec F64.emax (Z.pos mx) ex (Z.pos my) ey) as [[mz ez] lz].
  apply binary_round_aux_nonneg, H.
Qed.

Lemma div_finite_nonneg (x y : F64.float64) :
  nonneg x -> nonneg y -> F64.ltb F64.zero y = true -> F64.ltb y F64.pinf = true ->
  nonneg (F64.div x y).
Proof.
  intros [| mx ex |] [| my ey |] P Fi; try discriminate; try constructor.
  unfold F64.div, SFdiv. cbn [xorb].
  pose proof (div_core_nonneg mx my ex ey) as H.
  destruct (SFdiv_core_binary F64.prec F64.emax (Z.pos mx) ex (Z.pos my) ey) as [[mz ez] lz].
  apply binary_round_aux_nonneg, H.
Qed.

Lemma mul_finite_nonneg (x y : F64.float64) :
  F64.ltb F64.zero x = true -> F64.ltb x F64.pinf = true -> nonneg y ->
  nonneg (F64.mul x y).
Proof.
  intros P Fi Hy. destruct x as [[]|[]| |[] mx ex]; try discriminate.
  destruct Hy as [| my ey |]; try constructor.
  unfold F64.mul, SFmul. cbn [xorb]. apply binary_round_aux_nonneg. lia.
Qed.

Lemma mul_nonneg_finite (x y : F64.float64) :
  nonneg x -> F64.ltb F64.zero y = true -> F64.ltb y F64.pinf = true ->
  nonneg (F64.mul x y).
Proof.
  intros Hx P Fi. destruct y as [[]|[]| |[] my ey]; try discriminate.
  destruct Hx as [| mx ex |]; try constructor.
  unfold F64.mul, SFmul. cbn [xorb]. apply binary_round_aux_nonneg. lia.
Qed.

Lemma positive_nonneg (x : F64.float64) : F64.ltb F64.zero x = true -> nonneg x.
Proof. destruct x as [[]|[]| |[] m e]; try discriminate; constructor. Qed.

Lemma nonneg_not_below (y : F64.float64) :
  nonneg y \/ y = f64_NaN -> F64.ltb y F64.zero = false.
Proof. intros [[]| ->]; reflexivity. Qed.

Lemma ltb_nan_l (y : F64.float64) : F64.ltb f64_NaN y = false.
Proof. reflexivity. Qed.

Lemma div_positive_by_nonneg (x y : F64.float64) :
  F64.ltb F64.zero x = true -> F64.ltb x F64.pinf = true -> nonneg y ->
  nonneg (F64.div x y).
Proof.
  intros P Fi Hy. destruct x as [[]|[]| |[] mx ex]; try discriminate.
  destruct Hy as [| my ey |]; try constructor.
  unfold F64.div, SFdiv. cbn [xorb].
  pose proof (div_core_nonneg mx my ex ey) as H.
  destruct (SFdiv_core_binary F64.prec F64.emax (Z.pos mx) ex (Z.pos my) ey) as [[mz ez] lz].
  apply binary_round_aux_nonneg, H.
Qed.

(** The scale that [scaleToFit] chooses, for maxima above zero and a source
    width that is above zero and finite: it is not negative and not NaN. *)
Lemma scale_nonneg (srcW srcH maxW maxH : F64.float64) :
  F64.ltb F64.zero srcW = true -> F64.ltb srcW F64.pinf = true ->
  F64.ltb F64.zero srcH = true ->
  F64.ltb F64.zero maxW = true -> F64.ltb F64.zero maxH = true ->
  nonneg (if F64.ltb (F64.div maxH srcH) (F64.div maxW srcW)
          then F64.div maxH srcH else F64.div maxW srcW).
Proof.
  intros PW FW PH PmW PmH.
  pose proof (div_finite_nonneg maxW srcW (positive_nonneg _ PmW) (positive_nonneg _ PW) PW FW) as SW.
  destruct (div_nonneg maxH srcH (positive_nonneg _ PmH) (positive_nonneg _ PH)) as [SH|SH].
  - destruct (F64.ltb (F64.div maxH srcH) (F64.div maxW srcW)); assumption.
  - rewrite SH, ltb_nan_l. exact SW.
Qed.

Lemma scaleToFit_divisor_nonneg (srcW srcH maxW maxH : F64.float64) :
  F64.ltb F64.zero srcW = true -> F64.ltb srcW F64.pinf = true ->
  F64.ltb F64.zero srcH = true ->
  F64.ltb F64.zero maxW = true -> F64.ltb F64.zero maxH = true ->
  nonneg (fst (scaleToFit srcW srcH maxW maxH)) /\
  nonneg (dpi_of srcW (fst (scaleToFit srcW srcH maxW maxH))).
Proof.
  intros PW FW PH PmW PmH.
  rewrite (@scaleToFit_scaled _ float64_arith srcW srcH maxW maxH)
    by (apply positive_not_leb; assumption).
  cbn [a_ltb a_div a_mul float64_arith fst]. cbv zeta. cbn [fst].
  pose proof (scale_nonneg srcW srcH maxW maxH PW FW PH PmW PmH) as S.
  assert (D : nonneg (F64.mul srcW
                (if F64.ltb (F64.div maxH srcH) (F64.div maxW srcW)
                 then F64.div maxH srcH else F64.div maxW srcW)))
    by (apply mul_finite_nonneg; assumption).
  split; [exact D|].
  unfold dpi_of. apply mul_nonneg_finite; [|reflexivity|reflexivity].
  apply div_positive_by_nonneg; assumption.
Qed.


(** A declared width too large for float64. *)
Lemma scaleToFit_divisor_nan (srcH maxW maxH : F64.float64) :
  F64.ltb F64.zero srcH = true ->
  F64.ltb F64.zero maxW = true -> F64.ltb F64.zero maxH = true ->
  fst (scaleToFit F64.pinf srcH maxW maxH) = f64_NaN /\
  dpi_of F64.pinf (fst (scaleToFit F64.pinf srcH maxW maxH)) = f64_NaN.
Proof.
  intros PH PmW PmH.
  rewrite (@scaleToFit_scaled _ float64_arith F64.pinf srcH maxW maxH)
    by (try reflexivity; apply positive_not_leb; assumption).
  cbn [a_ltb a_div a_mul float64_arith fst]. cbv zeta. cbn [fst].
  assert (B : F64.ltb (F64.div maxH srcH) (F64.div maxW F64.pinf) = false).
  { pose proof (div_nonneg maxH srcH (positive_nonneg _ PmH) (positive_nonneg _ PH)) as SH.
    destruct maxW as [[]|[]| |[] m e]; try discriminate.
    - cbn. destruct SH as [[]| ->]; reflexivity.
    - change (F64.div (S754_finite false m e) F64.pinf) with F64.zero.
      apply nonneg_not_below, SH. }
  rewrite B.
  destruct maxW as [[]|[]| |[] m e]; try discriminate; split; reflexivity.
Qed.

(** A declared height too large for float64, under a finite maximum height. *)
Lemma scaleToFit_divisor_zero (srcW maxW maxH : F64.float64) :
  F64.ltb F64.zero srcW = true -> F64.ltb srcW F64.pinf = true ->
  F64.ltb F64.zero maxW = true ->
  F64.ltb F64.zero maxH = true -> F64.ltb maxH F64.pinf = true ->
  fst (scaleToFit srcW F64.pinf maxW maxH) = F64.zero /\
  dpi_of srcW (fst (scaleToFit srcW F64.pinf maxW maxH)) = F64.pinf.
Proof.
  intros PW FW PmW PmH FmH.
  rewrite (@scaleToFit_scaled _ float64_arith srcW F64.pinf maxW maxH)
    by (try reflexivity; apply positive_not_leb; assumption).
  cbn [a_ltb a_div a_mul float64_arith fst]. cbv zeta. cbn [fst].
  assert (Z : F64.div maxH F64.pinf = F64.zero)
    by (destruct maxH as [[]|[]| |[] m e]; try discriminate; reflexivity).
  rewrite Z.
  pose proof (div_finite_nonneg maxW srcW (positive_nonneg _ PmW) (positive_nonneg _ PW) PW FW) as SW.
  assert (S : (if F64.ltb F64.zero (F64.div maxW srcW) then F64.zero else F64.div maxW srcW)
              = F64.zero).
  { destruct SW; reflexivity. }
  rewrite S.
  destruct srcW as [[]|[]| |[] m e]; try discriminate. split; reflexivity.
Qed.

Lemma dpi_of_zero_divisor (srcW : F64.float64) :
  F64.ltb F64.zero srcW = true -> dpi_of srcW F64.zero = F64.pinf.
Proof. destruct srcW as [[]|[]| |[] m e]; try discriminate; reflexivity. Qed.

End Float64Signs.

(* ===================================================================== *)
(** * The library functions, checked on known values *)
(* ===================================================================== *)

Section KnownValues.

(** The test vectors of FIPS 180-4 for the empty message, for [abc] and
    for the two-block message. *)
Example sha256_empty :
  Sha256.EncodeToString (Sha256.Sum256 EmptyString)
  = "e3b0c44298fc1c149afbf4c8996fb92427ae41e4649b934ca495991b7852b855".
Proof. vm_compute. reflexivity. Qed.

Example sha256_abc :
  Sha256.EncodeToString (Sha256.Sum256 "abc")
  = "ba7816bf8f01cfea414140de5dae2223b00361a396177a9cb410ff61f20015ad".
Proof. vm_compute. reflexivity. Qed.

Example sha256_two_blocks :
  Sha256.EncodeToString
    (Sha256.Sum256 "abcdbcdecdefdefgefghfghighijhijkijkljklmklmnlmnomnopnopq")
  = "248d6a61d20638b8e5c026930c3e6039a33ce45964ff2167f6ecedd419db06c1".
Proof. vm_compute. reflexivity. Qed.

Example sha256_constants :
  length Sha256.K = 64%nat /\ nth 0 Sha256.K 0%N = 0x428a2f98%N /\
  nth 63 Sha256.K 0%N = 0xc67178f2%N /\ Sha256.sa Sha256.init = 0x6a09e667%N.
Proof. vm_compute. repeat split. Qed.

(** 0.1 is [0x3FB999999999999A]; the largest float64 and the first decimal
    that overflows; the syntax errors of a second dot and of no digit. *)
Example ParseFloat_tenth :
  F64.ParseFloat "0.1" = (S754_finite false 0x1999999999999a (-56), true).
Proof. vm_compute. reflexivity. Qed.

Example ParseFloat_range :
  F64.ParseFloat ("17976931348623157" +:+ Text.zeros 292)
    = (S754_finite false (2 ^ 53 - 1) 971, true) /\
  F64.ParseFloat ("1797693134862315808" +:+ Text.zeros 290) = (F64.pinf, false).
Proof. vm_compute. split; reflexivity. Qed.

Example ParseFloat_syntax :
  F64.ParseFloat "1.2.3" = (F64.zero, false) /\ F64.ParseFloat "." = (F64.zero, false) /\
  F64.ParseFloat "1." = F64.ParseFloat "1" /\ F64.ParseFloat ".5" = F64.ParseFloat "0.5".
Proof. vm_compute. repeat split. Qed.

Example FormatFloat_rounds :
  F64.FormatFloat 2 (F64.const "0.125") = "0.12" /\
  F64.FormatFloat 2 (F64.const "0.375") = "0.38" /\
  F64.FormatFloat 2 (F64.const "2.675") = "2.67" /\
  F64.FormatFloat 4 (F64.const "1000000") = "1000000.0000" /\
  F64.FormatFloat 4 F64.pinf = "+Inf".
Proof. vm_compute. repeat split. Qed.

Example Clean_paths :
  map Filepath.Clean ["a/b"; "a//b/"; "/a/../b"; "../a"; "a/../.."; "/.."; EmptyString; "a/./b/../c"]
  = ["a/b"; "a/b"; "/b"; "../a"; ".."; "/"; "."; "a/c"] /\
  Filepath.Join "/data/uploads/1" "output.svg" = "/data/uploads/1/output.svg" /\
  map Filepath.Base ["/a/b.png"; "a/"; "/"; EmptyString] = ["b.png"; "a"; "/"; "."] /\
  map Filepath.Ext ["/a/b.png"; "a.b/c"; "x.tar.gz"] = [".png"; EmptyString; ".gz"].
Proof. vm_compute. repeat split. Qed.

(** The width is read from the last [width] attribute that follows a
    white space inside the first [svg] tag; [stroke-width] is not one. *)
Example widthRe_finds :
  Regexp.FindSubmatch widthRe
    ("<svg stroke-width=" +:+ Text.DQ +:+ "3" +:+ Text.DQ +:+ " width=" +:+ Text.DQ +:+ "10.5"
     +:+ Text.DQ +:+ " height=" +:+ Text.DQ +:+ "7" +:+ Text.DQ +:+ ">")
  = Some ["<svg stroke-width=" +:+ Text.DQ +:+ "3" +:+ Text.DQ +:+ " width=" +:+ Text.DQ +:+ "10.5";
          "10.5"].
Proof. vm_compute. reflexivity. Qed.

Example Quote_escapes :
  Net.Quote ("a" +:+ Text.DQ +:+ "b" +:+ Text.NL)
  = Text.DQ +:+ "a" +:+ String Net.backslash Text.DQ +:+ "b" +:+ String Net.backslash "n" +:+ Text.DQ.
Proof. vm_compute. reflexivity. Qed.

End KnownValues.

(* ===================================================================== *)
(** * The matcher only accepts texts of the pattern *)
(* ===================================================================== *)

Section RegexpFacts.
Import Regexp.

Lemma strip_prefix_Some (p s s' : string) : strip_prefix p s = Some s' -> s = p +:+ s'.
Proof.
  revert s. induction p as [|a p IH]; intros s E; cbn in E.
  - now injection E as ->.
  - destruct s as [|b s]; [discriminate|].
    destruct (Ascii.eqb_spec a b) as [->|]; [|discriminate].
    rewrite app_cons. f_equal. now apply IH.
Qed.

Lemma star_sound {A : Type} (cls : ascii -> bool) (k : @cont A) (caps : list string)
    (s : string) (a : A) :
  star cls k caps s = Some a ->
  exists u s', s = u +:+ s' /\ in_lang (RStar cls) u /\ k s' caps = Some a.
Proof.
  induction s as [|c s IH]; cbn [star]; intros E.
  - exists EmptyString, EmptyString. repeat split; [constructor | exact E].
  - destruct (cls c) eqn:C.
    + destruct (star cls k caps s) as [a'|] eqn:S.
      * injection E as ->. destruct (IH eq_refl) as (u & s' & -> & Hu & Hk).
        exists (String c u), s'. repeat split; [now constructor | exact Hk].
      * exists EmptyString, (String c s). repeat split; [constructor | exact E].
    + exists EmptyString, (String c s). repeat split; [constructor | exact E].
Qed.

Lemma rmatch_sound (r : regex) :
  forall (A : Type) (k : @cont A) (s : string) (caps : list string) (a : A),
    rmatch r k s caps = Some a ->
    exists u s' caps', s = u +:+ s' /\ in_lang r u /\ k s' caps' = Some a.
Proof.
  induction r as [lit|cls|cls|r1 IH1 r2 IH2|r IH]; intros A k s caps a E; cbn [rmatch] in E.
  - destruct (strip_prefix lit s) as [s'|] eqn:P; [|discriminate].
    apply strip_prefix_Some in P as ->. exists lit, s', caps. repeat split; [constructor | exact E].
  - destruct s as [|c s]; [discriminate|]. destruct (cls c) eqn:C; [|discriminate].
    exists (String c EmptyString), s, caps. repeat split; [now constructor | exact E].
  - destruct (star_sound _ _ _ _ _ E) as (u & s' & -> & Hu & Hk). eauto 6.
  - destruct (IH1 _ _ _ _ _ E) as (u1 & s1 & caps1 & -> & H1 & E1).
    destruct (IH2 _ _ _ _ _ E1) as (u2 & s2 & caps2 & -> & H2 & E2).
    exists (u1 +:+ u2), s2, caps2. rewrite app_assoc'. repeat split; [now constructor | exact E2].
  - destruct (IH _ _ _ _ _ E) as (u & s' & caps' & -> & Hu & Hk).
    eexists u, s', _. repeat split; [now constructor | exact Hk].
Qed.

Lemma match_at_sound (r : regex) (s m rest : string) (caps : list string) :
  match_at r s = Some (m, caps, rest) -> exists u, s = u +:+ rest /\ in_lang r u.
Proof.
  unfold match_at. intros E.
  destruct (rmatch_sound _ _ _ _ _ _ E) as (u & s' & caps' & -> & Hu & Hk).
  injection Hk as _ _ <-. eauto.
Qed.

Lemma in_lang_seq_inv (r1 r2 : regex) (u : string) :
  in_lang (RSeq r1 r2) u -> exists u1 u2, u = u1 +:+ u2 /\ in_lang r1 u1 /\ in_lang r2 u2.
Proof. inversion 1; subst; eauto. Qed.

Lemma in_lang_lit_inv (lit u : string) : in_lang (RLit lit) u -> u = lit.
Proof. now inversion 1. Qed.

Lemma in_lang_set_inv (cls : ascii -> bool) (u : string) :
  in_lang (RSet cls) u -> exists c, u = String c EmptyString /\ cls c = true.
Proof. inversion 1; subst; eauto. Qed.

Lemma in_lang_group_inv (r : regex) (u : string) : in_lang (RGroup r) u -> in_lang r u.
Proof. now inversion 1. Qed.

Lemma in_lang_hex6 (h : string) : in_lang (RGroup (RRep 6 Text.is_hex)) h -> hex6 h.
Proof.
  intros H. apply in_lang_group_inv in H. cbn [RRep] in H.
  repeat match goal with
         | H : in_lang (RSeq _ _) _ |- _ =>
             apply in_lang_seq_inv in H as (? & ? & -> & ?%in_lang_set_inv & H)
         | H : exists _, _ |- _ => destruct H as (? & -> & ?)
         end.
  apply in_lang_lit_inv in H as ->.
  do 6 eexists. split; [reflexivity|]. repeat split; assumption.
Qed.

Lemma pathRegex_has_color (u : string) : in_lang pathRegex u -> has_stroke_color u.
Proof.
  unfold pathRegex. cbn [seq]. intros H.
  apply in_lang_seq_inv in H as (a1 & ? & -> & _ & H).
  apply in_lang_seq_inv in H as (a2 & ? & -> & _ & H).
  apply in_lang_seq_inv in H as (a3 & ? & -> & _ & H).
  apply in_lang_seq_inv in H as (a4 & ? & -> & _ & H).
  apply in_lang_seq_inv in H as (a5 & ? & -> & ->%in_lang_lit_inv & H).
  apply in_lang_seq_inv in H as (h & rest & -> & Hh%in_lang_hex6 & _).
  exists (a1 +:+ a2 +:+ a3 +:+ a4), h, rest. split; [|exact Hh].
  now rewrite !app_assoc'.
Qed.

Lemma has_stroke_color_app (u rest : string) :
  has_stroke_color u -> has_stroke_color (u +:+ rest).
Proof.
  intros (a & h & r & -> & Hh). exists a, h, (r +:+ rest). split; [|exact Hh].
  now rewrite !app_assoc'.
Qed.

Lemma colorRegex_at (h rest : string) :
  hex6 h ->
  match_at colorRegex ("stroke:#" +:+ h +:+ rest)
  = Some ("stroke:#" +:+ h, [h], rest).
Proof.
  intros (c1 & c2 & c3 & c4 & c5 & c6 & -> & H1 & H2 & H3 & H4 & H5 & H6).
  unfold match_at, colorRegex. rewrite !app_cons, !app_nil_l.
  cbn [seq RRep rmatch strip_prefix Ascii.eqb Bool.eqb].
  rewrite H1, H2, H3, H4, H5, H6. cbn [strip_prefix app].
  unfold consumed. cbn [String.length].
  rewrite !Nat.sub_succ_l, Nat.sub_diag by lia. cbn [substring].
  destruct rest; reflexivity.
Qed.

Lemma FindSubmatch_color (s : string) :
  has_stroke_color s -> FindSubmatch colorRegex s <> None.
Proof.
  intros (a & h & rest & -> & Hh). induction a as [|c a IH].
  - rewrite app_nil_l. pose proof (colorRegex_at h rest Hh) as M.
    destruct (_ +:+ _); cbn [FindSubmatch]; rewrite M; discriminate.
  - rewrite app_cons. cbn [FindSubmatch].
    destruct (match_at colorRegex _) as [[[? ?] ?]|]; [discriminate | exact IH].
Qed.

Lemma FindSubmatch_None_inv (r : regex) (c : ascii) (s : string) :
  FindSubmatch r (String c s) = None ->
  match_at r (String c s) = None /\ FindSubmatch r s = None.
Proof.
  cbn [FindSubmatch]. destruct (match_at r (String c s)) as [[[? ?] ?]|]; [discriminate|auto].
Qed.

Lemma no_color_no_path (s : string) :
  FindSubmatch colorRegex s = None -> match_at pathRegex s = None.
Proof.
  intros Hc. destruct (match_at pathRegex s) as [[[m caps] rest]|] eqn:E; [|reflexivity].
  exfalso. apply match_at_sound in E as (u & -> & Hu).
  apply (FindSubmatch_color (u +:+ rest)); [|exact Hc].
  apply has_stroke_color_app, pathRegex_has_color, Hu.
Qed.

Lemma filter_passes_colorless (data : string) :
  FindSubmatch colorRegex data = None -> filterWhitePaths_data data = data.
Proof.
  unfold filterWhitePaths_data, ReplaceAllFunc.
  induction data as [|c data IH]; intros Hc.
  - cbn [replace_from]. now rewrite (no_color_no_path _ Hc).
  - cbn [replace_from]. rewrite (no_color_no_path _ Hc).
    apply FindSubmatch_None_inv in Hc as [_ Hc]. now rewrite (IH Hc).
Qed.

End RegexpFacts.

(* ===================================================================== *)
(** * [isNearWhite] on every color *)
(* ===================================================================== *)

Section NearWhite.

Lemma channels_ok (upper : bool) :
  forallb (channel_ok upper) (map N.of_nat (seq 0 256)) = true.
Proof. destruct upper; vm_compute; reflexivity. Qed.

Lemma channel_ok_lt (upper : bool) (n : N) : (n < 256)%N -> channel_ok upper n = true.
Proof.
  intros Hn. pose proof (channels_ok upper) as H.
  rewrite forallb_forall in H. apply H.
  apply in_map_iff. exists (N.to_nat n). split; [apply N2Nat.id|].
  apply in_seq. lia.
Qed.

Lemma ParseInt16_channel (upper : bool) (n : N) :
  (n < 256)%N -> fst (Conv.ParseInt16 (hex_channel upper n)) = Z.of_N n.
Proof.
  intros Hn. pose proof (channel_ok_lt upper n Hn) as H. unfold channel_ok in H.
  destruct (Conv.ParseInt16 (hex_channel upper n)) as [z ok]. cbn [fst].
  apply andb_prop in H as [H _]. apply andb_prop in H as [H _]. now apply Z.eqb_eq.
Qed.

Lemma hex_channel_hex (upper : bool) (n : N) :
  (n < 256)%N ->
  Text.is_hex (hex_digit_of upper (n / 16)) = true /\
  Text.is_hex (hex_digit_of upper (n mod 16)) = true.
Proof.
  intros Hn. pose proof (channel_ok_lt upper n Hn) as H. unfold channel_ok in H.
  apply andb_prop in H as [_ H]. cbn [hex_channel list_ascii_of_string forallb] in H.
  apply andb_prop in H as [H1 H]. apply andb_prop in H as [H2 _]. auto.
Qed.

Lemma hex_color_hex6 (upper : bool) (r g b : N) :
  (r < 256)%N -> (g < 256)%N -> (b < 256)%N -> hex6 (hex_color upper r g b).
Proof.
  intros Hr Hg Hb.
  destruct (hex_channel_hex upper r Hr), (hex_channel_hex upper g Hg), (hex_channel_hex upper b Hb).
  do 6 eexists. split; [reflexivity|]. repeat split; assumption.
Qed.

Lemma isNearWhite_channels (upper : bool) (r g b : N) :
  (r < 256)%N -> (g < 256)%N -> (b < 256)%N ->
  isNearWhite (hex_color upper r g b) = (240 <? r)%N && (240 <? g)%N && (240 <? b)%N.
Proof.
  intros Hr Hg Hb. unfold isNearWhite, hex_color.
  change (hex_channel upper r +:+ hex_channel upper g +:+ hex_channel upper b)
    with (String (hex_digit_of upper (r / 16)) (String (hex_digit_of upper (r mod 16))
          (String (hex_digit_of upper (g / 16)) (String (hex_digit_of upper (g mod 16))
          (String (hex_digit_of upper (b / 16)) (String (hex_digit_of upper (b mod 16)) EmptyString)))))).
  cbn [String.length Nat.eqb negb Text.slice substring Nat.sub].
  change (String (hex_digit_of upper (r / 16)) (String (hex_digit_of upper (r mod 16)) EmptyString))
    with (hex_channel upper r).
  change (String (hex_digit_of upper (g / 16)) (String (hex_digit_of upper (g mod 16)) EmptyString))
    with (hex_channel upper g).
  change (String (hex_digit_of upper (b / 16)) (String (hex_digit_of upper (b mod 16)) EmptyString))
    with (hex_channel upper b).
  rewrite !ParseInt16_channel by assumption.
  f_equal; [f_equal|];
    (match goal with |- (240 <? Z.of_N ?n) = _ =>
       destruct (N.ltb_spec 240 n); [apply Z.ltb_lt | apply Z.ltb_ge]; lia end).
Qed.

Lemma FindSubmatch_skip (r : Regexp.regex) (c : ascii) (s : string) :
  Regexp.match_at r (String c s) = None ->
  Regexp.FindSubmatch r (String c s) = Regexp.FindSubmatch r s.
Proof. intros E. cbn [Regexp.FindSubmatch]. now rewrite E. Qed.

Lemma FindSubmatch_at (r : Regexp.regex) (s m rest : string) (caps : list string) :
  Regexp.match_at r s = Some (m, caps, rest) -> Regexp.FindSubmatch r s = Some (m :: caps).
Proof. intros E. destruct s; cbn [Regexp.FindSubmatch]; now rewrite E. Qed.

(** What the function given to [ReplaceAllFunc] does with a stroked path
    of color [h]. *)
Lemma filterWhitePaths_func_stroked (h d : string) :
  hex6 h ->
  filterWhitePaths_func (Scenario.stroked_path h d)
  = if isNearWhite h then EmptyString else Scenario.stroked_path h d.
Proof.
  intros Hh. unfold filterWhitePaths_func.
  assert (E : Regexp.FindSubmatch colorRegex (Scenario.stroked_path h d)
              = Some ["stroke:#" +:+ h; h]).
  { unfold Scenario.stroked_path, Scenario.q, Text.DQ.
    pose proof (colorRegex_at h ("; fill:none;" +:+ String Text.dquote EmptyString +:+ " d="
                                 +:+ String Text.dquote EmptyString +:+ d
                                 +:+ String Text.dquote EmptyString +:+ "/>") Hh) as M.
    rewrite !app_cons, !app_nil_l.
    repeat (rewrite FindSubmatch_skip by reflexivity).
    exact (FindSubmatch_at _ _ _ _ _ M). }
  rewrite E. reflexivity.
Qed.

End NearWhite.
(* ===================================================================== *)
(** * The path pattern on a stroked path, and on a document of them *)
(* ===================================================================== *)

Section Greedy.
Context {A : Type}.
Implicit Types (k : @Regexp.cont A) (caps : list string).

Lemma star_stops cls k caps s :
  stops cls s = true -> Regexp.star cls k caps s = k s caps.
Proof.
  destruct s as [|c s]; [reflexivity|]. cbn [stops Regexp.star].
  intros E. apply negb_true_iff in E. now rewrite E.
Qed.

Lemma star_back cls k caps u s :
  all_chars cls u = true -> stops cls s = true ->
  Regexp.star cls k caps (u +:+ s)
  = match k s caps with Some a => Some a | None => back k caps u s end.
Proof.
  intros Hu Hs. induction u as [|c u IH].
  - rewrite app_nil_l, star_stops by assumption. cbn [back]. now destruct (k s caps).
  - cbn [all_chars] in Hu. apply andb_prop in Hu as [Hc Hu].
    rewrite app_cons. cbn [Regexp.star back]. rewrite Hc, (IH Hu).
    destruct (k s caps); [reflexivity|]. now destruct (back k caps u s).
Qed.

Lemma back_app k caps u1 u2 s :
  back k caps (u1 +:+ u2) s
  = match back k caps u2 s with Some a => Some a | None => back k caps u1 (u2 +:+ s) end.
Proof.
  induction u1 as [|c u1 IH].
  - rewrite app_nil_l. cbn [back]. now destruct (back k caps u2 s).
  - rewrite app_cons. cbn [back]. rewrite IH.
    destruct (back k caps u2 s); [reflexivity|].
    now rewrite app_cons, app_assoc'.
Qed.

Lemma back_fails bad k caps u s :
  fails_on bad k caps -> all_chars bad u = true -> back k caps u s = None.
Proof.
  intros Hk. induction u as [|c u IH]; [reflexivity|].
  cbn [all_chars back]. intros H. apply andb_prop in H as [Hc Hu].
  rewrite (IH Hu), app_cons. now apply Hk.
Qed.

End Greedy.

Lemma lit_fails {A : Type} (lit : string) (a : ascii) (lit' : string) (r : Regexp.regex)
    (k : @Regexp.cont A) (caps : list string) :
  lit = String a lit' ->
  fails_on (fun c => negb (Ascii.eqb a c)) (Regexp.rmatch (Regexp.RSeq (Regexp.RLit lit) r) k) caps.
Proof.
  intros -> c t Hc. apply negb_true_iff in Hc.
  cbn [Regexp.rmatch Regexp.strip_prefix]. now rewrite Hc.
Qed.

Lemma lit_ok {A : Type} (lit s : string) (r : Regexp.regex) (k : @Regexp.cont A) (caps : list string) :
  Regexp.rmatch (Regexp.RSeq (Regexp.RLit lit) r) k (lit +:+ s) caps = Regexp.rmatch r k s caps.
Proof.
  cbn [Regexp.rmatch].
  assert (E : Regexp.strip_prefix lit (lit +:+ s) = Some s).
  { induction lit as [|a lit IH]; [reflexivity|].
    rewrite app_cons. cbn [Regexp.strip_prefix]. now rewrite Ascii.eqb_refl. }
  now rewrite E.
Qed.

Lemma consumed_app (u s : string) : Regexp.consumed (u +:+ s) s = u.
Proof.
  unfold Regexp.consumed. rewrite string_length_app.
  replace (String.length u + String.length s - String.length s)%nat
    with (String.length u) by lia.
  induction u as [|c u IH].
  - rewrite app_nil_l. destruct s; reflexivity.
  - rewrite app_cons. cbn [String.length substring]. now rewrite IH.
Qed.

Lemma all_chars_app (cls : ascii -> bool) (a b : string) :
  all_chars cls (a +:+ b) = all_chars cls a && all_chars cls b.
Proof.
  induction a as [|c a IH]; [reflexivity|].
  rewrite app_cons. cbn [all_chars]. now rewrite IH, andb_assoc.
Qed.

Lemma all_chars_impl (p q : ascii -> bool) (s : string) :
  (forall c, p c = true -> q c = true) -> all_chars p s = true -> all_chars q s = true.
Proof.
  intros Hpq. induction s as [|c s IH]; [reflexivity|].
  cbn [all_chars]. intros H. apply andb_prop in H as [Hc Hs].
  now rewrite (Hpq c Hc), (IH Hs).
Qed.

Lemma hex_char_classes (c : ascii) :
  Text.is_hex c = true ->
  Text.is_not ">" c = true /\ Text.is_not Text.dquote c = true /\ not_s c = true.
Proof.
  destruct c as [[] [] [] [] [] [] [] []]; vm_compute; intros H; repeat split; congruence.
Qed.

Lemma hex6_classes (h : string) :
  hex6 h ->
  all_chars Text.is_hex h = true /\ all_chars (Text.is_not ">") h = true /\
  all_chars (Text.is_not Text.dquote) h = true /\ all_chars not_s h = true.
Proof.
  intros (c1 & c2 & c3 & c4 & c5 & c6 & -> & H1 & H2 & H3 & H4 & H5 & H6).
  destruct (hex_char_classes c1 H1) as (A1 & B1 & C1), (hex_char_classes c2 H2) as (A2 & B2 & C2),
    (hex_char_classes c3 H3) as (A3 & B3 & C3), (hex_char_classes c4 H4) as (A4 & B4 & C4),
    (hex_char_classes c5 H5) as (A5 & B5 & C5), (hex_char_classes c6 H6) as (A6 & B6 & C6).
  cbn [all_chars].
  rewrite H1, H2, H3, H4, H5, H6, A1, A2, A3, A4, A5, A6, B1, B2, B3, B4, B5, B6,
    C1, C2, C3, C4, C5, C6.
  repeat split.
Qed.

Lemma group_hex6 {A : Type} (h t : string) (r : Regexp.regex) (k : @Regexp.cont A) (caps : list string) :
  hex6 h ->
  Regexp.rmatch (Regexp.RSeq (Regexp.RGroup (Regexp.RRep 6 Text.is_hex)) r) k (h +:+ t) caps
  = Regexp.rmatch r k t (caps ++ [h]).
Proof.
  intros Hh. pose proof (consumed_app h t) as Hc. revert Hc.
  destruct Hh as (c1 & c2 & c3 & c4 & c5 & c6 & -> & H1 & H2 & H3 & H4 & H5 & H6).
  rewrite !app_cons, app_nil_l. intros Hc.
  cbn [Regexp.rmatch Regexp.RRep]. rewrite H1, H2, H3, H4, H5, H6.
  cbn [Regexp.strip_prefix]. now rewrite Hc.
Qed.

Section StrokedPath.
Variables (h d rest : string).
Hypothesis Hh : hex6 h.
Hypothesis Hd : all_chars data_char d = true.

Let Q : string := Text.DQ.
Let k0 : @Regexp.cont (string * list string * string) :=
  fun s' caps => Some (Regexp.consumed (Scenario.stroked_path h d +:+ rest) s', caps, s').

(** The tail of the pattern after each of its parts. *)
Let R9 := Regexp.RLit "/>".
Let R8 := Regexp.RSeq (Regexp.RStar (Text.is_not ">")) R9.
Let R7 := Regexp.RSeq (Regexp.RLit Text.DQ) R8.
Let R6 := Regexp.RSeq (Regexp.RStar (Text.is_not Text.dquote)) R7.
Let R5 := Regexp.RSeq (Regexp.RGroup (Regexp.RRep 6 Text.is_hex)) R6.
Let R4 := Regexp.RSeq (Regexp.RLit "stroke:#") R5.
Let R3 := Regexp.RSeq (Regexp.RStar (Text.is_not Text.dquote)) R4.
Let R2 := Regexp.RSeq (Regexp.RLit ("style=" +:+ Text.DQ)) R3.
Let R1 := Regexp.RSeq (Regexp.RStar (Text.is_not ">")) R2.

Let dattr : string := " d=" +:+ Q +:+ d +:+ Q.

Lemma d_not_gt : all_chars (Text.is_not ">") d = true.
Proof.
  apply (all_chars_impl data_char); [|exact Hd].
  intros c H. now apply andb_prop in H as [H _].
Qed.

Lemma d_not_s : all_chars not_s d = true.
Proof.
  apply (all_chars_impl data_char); [|exact Hd].
  intros c H. now apply andb_prop in H as [_ H].
Qed.

(** After the closing quote of the style: the rest of the tag. *)
Lemma tail_matches (caps : list string) :
  Regexp.rmatch R8 k0 (dattr +:+ "/>" +:+ rest) caps = k0 rest caps.
Proof.
  unfold R8. cbn [Regexp.rmatch].
  replace (dattr +:+ "/>" +:+ rest) with ((dattr +:+ "/") +:+ String ">" rest)
    by (now rewrite !app_assoc').
  rewrite star_back.
  - change (Regexp.rmatch R9 k0 (String ">" rest) caps) with (@None (string * list string * string)).
    rewrite back_app. change (back (Regexp.rmatch R9 k0) caps "/" (String ">" rest)) with (k0 rest caps).
    reflexivity.
  - rewrite all_chars_app. unfold dattr. rewrite !all_chars_app, d_not_gt. reflexivity.
  - reflexivity.
Qed.

(** From the color on. *)
Lemma color_matches :
  Regexp.rmatch R5 k0 (h +:+ "; fill:none;" +:+ Q +:+ dattr +:+ "/>" +:+ rest) [] = k0 rest [h].
Proof.
  unfold R5. rewrite group_hex6 by exact Hh. cbn [app]. unfold R6. cbn [Regexp.rmatch].
  rewrite star_back; [| reflexivity | reflexivity].
  fold R8. unfold R7.
  change (Regexp.rmatch (Regexp.RSeq (Regexp.RLit Text.DQ) R8) k0 (Q +:+ dattr +:+ "/>" +:+ rest) [h])
    with (Regexp.rmatch (Regexp.RSeq (Regexp.RLit Q) R8) k0 (Q +:+ dattr +:+ "/>" +:+ rest) [h]).
  rewrite lit_ok, tail_matches. reflexivity.
Qed.

Ltac fails_here :=
  match goal with
  | |- context [match ?x with Some a => Some a | None => _ end] =>
      let E := fresh in assert (E : x = None) by reflexivity; rewrite E; clear E
  end.

(** From the style value on. *)
Lemma stroke_matches :
  Regexp.rmatch R3 k0 ("stroke:#" +:+ h +:+ "; fill:none;" +:+ Q +:+ dattr +:+ "/>" +:+ rest) []
  = k0 rest [h].
Proof.
  destruct (hex6_classes h Hh) as (_ & _ & Hq & Hs).
  unfold R3. cbn [Regexp.rmatch].
  replace ("stroke:#" +:+ h +:+ "; fill:none;" +:+ Q +:+ dattr +:+ "/>" +:+ rest)
    with (("stroke:#" +:+ h +:+ "; fill:none;") +:+ Q +:+ dattr +:+ "/>" +:+ rest)
    by (now rewrite !app_assoc').
  rewrite star_back; [| now rewrite !all_chars_app, Hq | reflexivity].
  fails_here.
  change ("stroke:#" +:+ h +:+ "; fill:none;") with (String "s" ("troke:#" +:+ h +:+ "; fill:none;")).
  cbn [back].
  rewrite (back_fails not_s).
  - change (String "s" ("troke:#" +:+ h +:+ "; fill:none;")) with ("stroke:#" +:+ h +:+ "; fill:none;").
    rewrite !app_assoc'. unfold R4. rewrite lit_ok. apply color_matches.
  - unfold R4. now apply (lit_fails "stroke:#" "s" "troke:#").
  - now rewrite !all_chars_app, Hs.
Qed.

(** From the end of the tag name on. *)
Lemma attributes_match :
  Regexp.rmatch R1 k0
    (" " +:+ ("style=" +:+ Q) +:+ "stroke:#" +:+ h +:+ "; fill:none;" +:+ Q +:+ dattr
     +:+ "/>" +:+ rest) []
  = k0 rest [h].
Proof.
  destruct (hex6_classes h Hh) as (_ & Hg & _ & Hs).
  pose proof d_not_gt as Dg. pose proof d_not_s as Ds.
  set (W := "stroke:#" +:+ h +:+ "; fill:none;" +:+ Q +:+ dattr +:+ "/").
  set (S := String ">" rest).
  replace (" " +:+ ("style=" +:+ Q) +:+ "stroke:#" +:+ h +:+ "; fill:none;" +:+ Q +:+ dattr
           +:+ "/>" +:+ rest)
    with ((" " +:+ ("style=" +:+ Q) +:+ W) +:+ S)
    by (unfold W, S; now rewrite !app_assoc').
  unfold R1. cbn [Regexp.rmatch].
  rewrite star_back; [| | reflexivity].
  2:{ unfold W, dattr. now rewrite !all_chars_app, Hg, Dg. }
  fails_here.
  assert (F : fails_on not_s (Regexp.rmatch R2 k0) []).
  { unfold R2. now apply (lit_fails ("style=" +:+ Text.DQ) "s" ("tyle=" +:+ Text.DQ)). }
  rewrite back_app.
  change (("style=" +:+ Q) +:+ W) with (String "s" (("tyle=" +:+ Q) +:+ W)).
  cbn [back]. rewrite back_app.
  assert (BW : back (Regexp.rmatch R2 k0) [] W S = None).
  { unfold W. change ("stroke:#" +:+ h +:+ "; fill:none;" +:+ Q +:+ dattr +:+ "/")
      with (String "s" ("troke:#" +:+ h +:+ "; fill:none;" +:+ Q +:+ dattr +:+ "/")).
    cbn [back]. rewrite (back_fails not_s _ _ _ _ F).
    - rewrite app_cons, !app_assoc'. reflexivity.
    - unfold dattr. now rewrite !all_chars_app, Hs, Ds. }
  rewrite BW, (back_fails not_s _ _ _ _ F) by reflexivity.
  change (String "s" (("tyle=" +:+ Q) +:+ W)) with (("style=" +:+ Text.DQ) +:+ W).
  rewrite app_assoc'. unfold R2. rewrite lit_ok.
  unfold W, S. rewrite !app_assoc'.
  change ("/" +:+ String ">" rest) with ("/>" +:+ rest).
  rewrite stroke_matches. reflexivity.
Qed.

Lemma match_stroked_path :
  Regexp.match_at pathRegex (Scenario.stroked_path h d +:+ rest)
  = Some (Scenario.stroked_path h d, [h], rest).
Proof.
  unfold Regexp.match_at. fold k0.
  replace (Scenario.stroked_path h d +:+ rest)
    with ("<path" +:+ " " +:+ ("style=" +:+ Q) +:+ "stroke:#" +:+ h +:+ "; fill:none;" +:+ Q
          +:+ dattr +:+ "/>" +:+ rest)
    by (unfold Scenario.stroked_path, dattr, Q, Scenario.q; now rewrite !app_assoc').
  change pathRegex with (Regexp.RSeq (Regexp.RLit "<path") R1).
  rewrite lit_ok, attributes_match. unfold k0. now rewrite consumed_app.
Qed.

End StrokedPath.

Section Documents.
Lemma replace_skip (r : Regexp.regex) (f : string -> string) (c : ascii) (s : string) :
  Regexp.match_at r (String c s) = None ->
  Regexp.replace_from r f O (String c s) = String c (Regexp.replace_from r f O s).
Proof. intros E. cbn [Regexp.replace_from]. now rewrite E. Qed.

Lemma replace_pass (r : Regexp.regex) (f : string -> string) (u s : string) :
  Regexp.replace_from r f (String.length u) (u +:+ s) = Regexp.replace_from r f O s.
Proof.
  induction u as [|c u IH]; [reflexivity|].
  rewrite app_cons. cbn [String.length Regexp.replace_from]. exact IH.
Qed.

Lemma pathRegex_needs_lt (c : ascii) (s : string) :
  Text.is_not "<" c = true -> Regexp.match_at pathRegex (String c s) = None.
Proof.
  intros H. unfold Text.is_not in H. apply negb_true_iff in H.
  unfold Regexp.match_at, pathRegex. cbn [Regexp.seq Regexp.rmatch Regexp.strip_prefix].
  now rewrite Ascii.eqb_sym, H.
Qed.

Lemma replace_text (f : string -> string) (u s : string) :
  all_chars (Text.is_not "<") u = true ->
  Regexp.replace_from pathRegex f O (u +:+ s) = u +:+ Regexp.replace_from pathRegex f O s.
Proof.
  induction u as [|c u IH]; [reflexivity|].
  cbn [all_chars]. intros H. apply andb_prop in H as [Hc Hu].
  rewrite !app_cons, replace_skip by now apply pathRegex_needs_lt.
  now rewrite IH.
Qed.

Lemma replace_stroked_path (f : string -> string) (h d rest : string) :
  hex6 h -> all_chars data_char d = true ->
  Regexp.replace_from pathRegex f O (Scenario.stroked_path h d +:+ rest)
  = f (Scenario.stroked_path h d) +:+ Regexp.replace_from pathRegex f O rest.
Proof.
  intros Hh Hd. pose proof (match_stroked_path h d rest Hh Hd) as M.
  remember (Scenario.stroked_path h d) as e eqn:He.
  assert (exists e', e = String "<" e') as [e' ->].
  { subst e. unfold Scenario.stroked_path. eexists. rewrite !app_cons. reflexivity. }
  rewrite app_cons in M |- *. cbn [Regexp.replace_from]. rewrite M.
  cbn [String.length]. f_equal. apply replace_pass.
Qed.

Lemma filter_paths (paths : list (string * string)) (tail : string) :
  Forall well_formed paths ->
  Regexp.replace_from pathRegex filterWhitePaths_func O
    (Text.concat_all (map (fun p => p +:+ Text.NL) (map written paths)) +:+ tail)
  = Text.concat_all (map (fun p => p +:+ Text.NL) (map filtered paths))
    +:+ Regexp.replace_from pathRegex filterWhitePaths_func O tail.
Proof.
  induction 1 as [|[h d] paths [Hh Hd] _ IH]; [reflexivity|].
  cbn [map Text.concat_all]. unfold written at 1, filtered at 1. cbn [fst snd].
  rewrite !app_assoc'.
  rewrite replace_stroked_path by assumption.
  rewrite filterWhitePaths_func_stroked by assumption.
  rewrite (replace_text _ Text.NL) by reflexivity.
  now rewrite IH.
Qed.

Lemma replace_tag (f : string -> string) (c : ascii) (u s : string) :
  Text.is_not "p" c = true ->
  all_chars (Text.is_not "<") (String c u) = true ->
  Regexp.replace_from pathRegex f O (String "<" (String c u) +:+ s)
  = String "<" (String c u) +:+ Regexp.replace_from pathRegex f O s.
Proof.
  intros Hc Hu. rewrite (app_cons "<"), replace_skip.
  - now rewrite replace_text.
  - unfold Text.is_not in Hc. apply negb_true_iff in Hc.
    rewrite app_cons. unfold Regexp.match_at, pathRegex. cbn [Regexp.seq Regexp.rmatch Regexp.strip_prefix].
    rewrite Ascii.eqb_refl. cbn [Regexp.strip_prefix]. now rewrite Ascii.eqb_sym, Hc.
Qed.

Lemma filter_document (w hgt : string) (paths : list (string * string)) :
  all_chars (Text.is_not "<") w = true -> all_chars (Text.is_not "<") hgt = true ->
  Forall well_formed paths ->
  filterWhitePaths_data (Scenario.svg_document w hgt (map written paths))
  = Scenario.svg_document w hgt (map filtered paths).
Proof.
  intros Hw Hh Hp. unfold filterWhitePaths_data, Regexp.ReplaceAllFunc, Scenario.svg_document.
  rewrite replace_tag by reflexivity.
  repeat rewrite replace_text by (reflexivity || assumption).
  rewrite replace_tag by reflexivity.
  repeat rewrite replace_text by (reflexivity || assumption).
  rewrite filter_paths by assumption.
  rewrite replace_tag by reflexivity.
  reflexivity.
Qed.
End Documents.


(* ===================================================================== *)
(** * The index: migration, store and lookup *)
(* ===================================================================== *)

Section Migration.

Lemma insert_rows_fresh (l : list (string * CacheRow)) (rows : gmap string CacheRow) :
  NoDup l.*1 ->
  (forall k, k ∈ l.*1 -> rows !! k = None) ->
  Sql.insert_rows rows l = inl (list_to_map l ∪ rows).
Proof.
  revert rows. induction l as [|[k v] l IH]; intros rows Hnd Hfresh.
  - cbn. now rewrite (left_id_L ∅ (∪)).
  - cbn [Sql.insert_rows]. unfold Sql.insert_row.
    cbn [fmap list_fmap fst] in Hnd. apply NoDup_cons in Hnd as [Hk Hnd].
    rewrite (Hfresh k) by (cbn; left).
    rewrite IH; [ | exact Hnd | ].
    + f_equal. cbn [list_to_map foldr uncurry fst snd].
      rewrite <- insert_union_l. apply eq_sym, insert_union_r.
      now apply not_elem_of_list_to_map_1.
    + intros k' Hk'. rewrite lookup_insert_ne.
      * apply Hfresh. cbn. now right.
      * intros ->. contradiction.
Qed.

#[local] Instance migrate_key_inj : Inj (=) (=) migrate_key.
Proof. intros a b E. apply (app_inj_r _ _ _ E). Qed.

Lemma migrated_keys (l : list (string * LegacyRow)) :
  (map (Sql.migrated_row (hashString DefaultAIPrompt) DefaultAIPrompt) l).*1
  = migrate_key <$> l.*1.
Proof. induction l as [|[h r] l IH]; cbn; [reflexivity|]. f_equal. exact IH. Qed.

Lemma migrated_NoDup (legacy : gmap string LegacyRow) :
  NoDup (map (Sql.migrated_row (hashString DefaultAIPrompt) DefaultAIPrompt)
             (map_to_list legacy)).*1.
Proof.
  rewrite migrated_keys. apply (NoDup_fmap_2 migrate_key).
  apply NoDup_fst_map_to_list.
Qed.

Lemma migrateOldSchema_legacy (legacy : gmap string LegacyRow) :
  migrateOldSchema (mkDatabase (Some (LegacySchema legacy)) None)
  = (mkDatabase (Some (CurrentSchema (migrated legacy))) None, None).
Proof.
  unfold migrateOldSchema. cbn [Sql.count_legacy_pk ai_image_cache Z.eqb].
  cbn [Sql.rename_to_old ai_image_cache ai_image_cache_old Sql.create].
  unfold Sql.insert_select. cbn [ai_image_cache ai_image_cache_old].
  rewrite insert_rows_fresh.
  - rewrite (right_id_L ∅ (∪)). reflexivity.
  - apply migrated_NoDup.
  - intros k _. apply lookup_empty.
Qed.

Lemma migrated_size (legacy : gmap string LegacyRow) : size (migrated legacy) = size legacy.
Proof.
  unfold migrated. rewrite map_size_list_to_map by apply migrated_NoDup.
  rewrite length_map. apply length_map_to_list.
Qed.

Lemma migrated_lookup (legacy : gmap string LegacyRow) (k : string) (row : CacheRow) :
  migrated legacy !! k = Some row <->
  exists h old, legacy !! h = Some old /\ k = migrate_key h /\
    row = mkCacheRow h DefaultAIPrompt (legacy_output_filename old)
                     (legacy_mime_type old) (legacy_created_at old).
Proof.
  unfold migrated. rewrite <- elem_of_list_to_map by apply migrated_NoDup.
  rewrite list_elem_of_In, in_map_iff. split.
  - intros [[h old] [E Hin]]. exists h, old.
    apply list_elem_of_In, elem_of_map_to_list in Hin.
    unfold Sql.migrated_row in E. cbn [fst snd] in E. injection E as <- <-. auto.
  - intros (h & old & Hl & -> & ->). exists (h, old). split; [reflexivity|].
    now apply list_elem_of_In, elem_of_map_to_list.
Qed.

End Migration.

Section CacheFacts.
Variable c : AIImageCache.

(** What a successful [Store] has done. *)
Lemma Store_Done (clk : Clock) (we ie : option string) (d d' : Disk)
    (inputHash prompt imageData mimeType : string) (r : CachedResult) :
  Store c clk we ie d inputHash prompt imageData mimeType = (d', Done r) ->
  exists (rows : gmap string CacheRow) (filename : string),
    ai_image_cache (index d) = Some (CurrentSchema rows) /\
    filename = cache_filename (substring 0 16 inputHash) (unixNano clk) (cache_ext mimeType) /\
    r = mkCachedResult filename mimeType (Filepath.Join (cacheDir c) filename) prompt /\
    d' = set_rows (set_files d (<[Filepath.Join (cacheDir c) filename := imageData]> (files d)))
           (<[MakeCacheKey inputHash prompt :=
                mkCacheRow inputHash prompt filename mimeType (current_timestamp clk)]> rows).
Proof.
  unfold Store, Text.slice_to. destruct (16 <=? String.length inputHash)%nat; [|discriminate].
  destruct we; [discriminate|]. destruct ie; [discriminate|].
  cbn [index set_files].
  destruct (ai_image_cache (index d)) as [[rows|]|] eqn:T; try discriminate.
  intros E. injection E as <- <-. eauto 7.
Qed.

Lemma Lookup_row (d : Disk) (inputHash prompt : string) (row : CacheRow) :
  index_row d (MakeCacheKey inputHash prompt) = Some row ->
  is_Some (files d !! Filepath.Join (cacheDir c) (col_output_filename row)) ->
  Lookup c None d inputHash prompt
  = (d, Done (Some (mkCachedResult (col_output_filename row) (col_mime_type row)
                      (Filepath.Join (cacheDir c) (col_output_filename row)) (col_prompt row)))).
Proof.
  unfold index_row, Lookup. intros Hrow [data Hfile].
  destruct (ai_image_cache (index d)) as [[rows|]|]; try discriminate.
  rewrite Hrow, Hfile. reflexivity.
Qed.

Lemma Store_other_key (clk : Clock) (we ie : option string) (d : Disk)
    (h p data mime key : string) :
  MakeCacheKey h p <> key ->
  index_row (fst (Store c clk we ie d h p data mime)) key = index_row d key.
Proof.
  intros Hne. unfold Store.
  destruct (Text.slice_to 16 h) as [pfx|]; [|reflexivity].
  destruct we; [reflexivity|]. destruct ie; [reflexivity|].
  unfold index_row. cbn [index set_files fst].
  destruct (ai_image_cache (index d)) as [[rows|]|] eqn:T;
    cbn [fst index set_files set_rows set_index ai_image_cache];
    rewrite ?T; try reflexivity.
  now rewrite lookup_insert_ne.
Qed.

Lemma Lookup_never_panics (qe : option string) (d : Disk) (h p : string) :
  snd (Lookup c qe d h p) <> Panics.
Proof.
  unfold Lookup. destruct qe; [discriminate|].
  destruct (ai_image_cache (index d)) as [[rows|]|]; try discriminate.
  destruct (rows !! _); [|discriminate]. destruct (files d !! _); discriminate.
Qed.

End CacheFacts.

(* ===================================================================== *)
(** * The fingerprint of a file has 64 characters *)
(* ===================================================================== *)

Section HashFacts.

Lemma length_be_bytes (n : nat) (x : N) : length (Sha256.be_bytes n x) = n.
Proof. unfold Sha256.be_bytes. now rewrite length_map, length_rev, length_seq. Qed.

Lemma length_Sum256 (s : string) : length (Sha256.Sum256 s) = 32%nat.
Proof.
  unfold Sha256.Sum256. cbv zeta.
  generalize (Sha256.blocks (length (Sha256.words (Sha256.pad (Sha256.bytes_of_string s))))
                (Sha256.words (Sha256.pad (Sha256.bytes_of_string s))) Sha256.init).
  intros st. cbn [map concat]. rewrite !length_app, !length_be_bytes. reflexivity.
Qed.

Lemma length_EncodeToString (bytes : list N) :
  String.length (Sha256.EncodeToString bytes) = (2 * length bytes)%nat.
Proof. induction bytes as [|b l IH]; cbn [Sha256.EncodeToString String.length length]; lia. Qed.

Lemma HashFile_length (d : Disk) (path hash : string) :
  HashFile d path = Done hash -> String.length hash = 64%nat.
Proof.
  unfold HashFile. destruct (files d !! path) as [data|]; [|discriminate].
  intros E. replace hash with (Sha256.EncodeToString (Sha256.Sum256 data)) by congruence.
  now rewrite length_EncodeToString, length_Sum256.
Qed.

Lemma slice_to_hash (d : Disk) (path hash : string) :
  HashFile d path = Done hash -> Text.slice_to 16 hash = Some (substring 0 16 hash).
Proof.
  intros H. unfold Text.slice_to. now rewrite (HashFile_length _ _ _ H).
Qed.

End HashFacts.

(* ===================================================================== *)
(** * What the later stages leave untouched, and what they run *)
(* ===================================================================== *)

Section ConvertFacts.

Lemma run_command_http (w : World) (argv : list string) (p : ProcOutcome) (out : string) :
  http_calls (run_command w argv p out) = http_calls w.
Proof. unfold run_command. now destruct (proc_output p). Qed.

Lemma run_command_commands (w : World) (argv : list string) (p : ProcOutcome) (out : string) :
  commands (run_command w argv p out) = commands w ++ [argv].
Proof. unfold run_command. now destruct (proc_output p). Qed.

Lemma filterWhitePaths_http (w : World) (e : option string) (path : string) :
  http_calls (fst (filterWhitePaths w e path)) = http_calls w.
Proof.
  unfold filterWhitePaths. destruct (files (disk w) !! path); [|reflexivity].
  now destruct e.
Qed.

Lemma filterWhitePaths_commands (w : World) (e : option string) (path : string) :
  commands (fst (filterWhitePaths w e path)) = commands w.
Proof.
  unfold filterWhitePaths. destruct (files (disk w) !! path); [|reflexivity].
  now destruct e.
Qed.

Lemma log_streams_AIImageCached (job : Job) (p : ProcOutcome) :
  AIImageCached (log_streams job p) = AIImageCached job.
Proof. unfold log_streams. now destruct (proc_stdout p), (proc_stderr p). Qed.

Lemma log_streams_AIImageFilename (job : Job) (p : ProcOutcome) :
  AIImageFilename (log_streams job p) = AIImageFilename job.
Proof. unfold log_streams. now destruct (proc_stdout p), (proc_stderr p). Qed.

Lemma log_streams_settings (job : Job) (p : ProcOutcome) :
  ToolOn (log_streams job p) = ToolOn job /\ ToolOff (log_streams job p) = ToolOff job /\
  MaxWidth (log_streams job p) = MaxWidth job /\ MaxHeight (log_streams job p) = MaxHeight job.
Proof. unfold log_streams. now destruct (proc_stdout p), (proc_stderr p). Qed.

Lemma convert_stages_http (o : Oracle) (w : World) (job : Job)
    (svgPath gcodePath inputPath : string) :
  http_calls (fst (convert_stages o w job svgPath gcodePath inputPath)) = http_calls w.
Proof.
  unfold convert_stages. cbv zeta.
  destruct (proc_err (autotrace o)); [cbn [fst]; apply run_command_http|].
  match goal with |- context [filterWhitePaths ?w1 ?e ?p] =>
    pose proof (filterWhitePaths_http w1 e p) as HF;
    destruct (filterWhitePaths w1 e p) as [w2 fe] end.
  cbn [fst] in HF.
  destruct (getSVGDimensions _) as [svgWidth svgHeight].
  destruct (scaleToFit _ _ _ _) as [scaledWidth scaledHeight].
  destruct (proc_err (svg2gcode o)); cbn [fst];
    now rewrite run_command_http, HF, run_command_http.
Qed.

Lemma convert_stages_AIImage (o : Oracle) (w : World) (job : Job)
    (svgPath gcodePath inputPath : string) :
  AIImageCached (snd (convert_stages o w job svgPath gcodePath inputPath)) = AIImageCached job /\
  AIImageFilename (snd (convert_stages o w job svgPath gcodePath inputPath)) = AIImageFilename job.
Proof.
  unfold convert_stages. cbv zeta.
  destruct (proc_err (autotrace o)); [|
    destruct (filterWhitePaths _ _ _) as [w2 fe];
    destruct (getSVGDimensions _) as [svgWidth svgHeight];
    destruct (scaleToFit _ _ _ _) as [scaledWidth scaledHeight];
    destruct (proc_err (svg2gcode o)), fe ];
  repeat (progress cbn [snd set_Status set_GCodePath log_write AIImageCached AIImageFilename]
          || rewrite log_streams_AIImageCached || rewrite log_streams_AIImageFilename);
  split; reflexivity.
Qed.

(** The commands of the trace and generate stages, when the tracer
    succeeds. *)
Lemma convert_stages_generate (o : Oracle) (w : World) (job : Job)
    (svgPath gcodePath inputPath : string) :
  proc_err (autotrace o) = None ->
  let traced := run_command w (autotrace_argv svgPath inputPath) (autotrace o) svgPath in
  let document :=
    files (disk (fst (filterWhitePaths traced (filter_write_err o) svgPath))) !! svgPath in
  let srcWidth := fst (getSVGDimensions document) in
  let srcHeight := snd (getSVGDimensions document) in
  let fittedWidth := fst (scaleToFit srcWidth srcHeight (MaxWidth job) (MaxHeight job)) in
  let resolution := F64.mul (F64.div srcWidth fittedWidth) (F64.const "25.4") in
  commands (fst (convert_stages o w job svgPath gcodePath inputPath))
  = commands w ++ [autotrace_argv svgPath inputPath;
                   ["svg2gcode"; "--on"; ToolOn job; "--off"; ToolOff job; "--dpi";
                    F64.FormatFloat 4 resolution; svgPath; "-o"; gcodePath]].
Proof.
  intros Herr. cbv zeta. unfold convert_stages. cbv zeta. rewrite Herr.
  destruct (log_streams_settings
              (log_write (log_write job ("=== Running autotrace ===" +:+ Text.NL))
                 ("Command: autotrace -centerline -color-count 2 -output-file " +:+ svgPath
                  +:+ " " +:+ inputPath +:+ Text.NL +:+ Text.NL)) (autotrace o))
    as (T1 & T2 & T3 & T4).
  cbn [ToolOn ToolOff MaxWidth MaxHeight log_write] in T1, T2, T3, T4.
  match goal with |- context [filterWhitePaths ?w1 ?e ?p] =>
    pose proof (filterWhitePaths_commands w1 e p) as HF;
    destruct (filterWhitePaths w1 e p) as [w2 fe] end.
  cbn [fst] in HF |- *.
  destruct fe;
    cbn [MaxWidth MaxHeight ToolOn ToolOff log_write];
    rewrite ?T1, ?T2, ?T3, ?T4;
    destruct (getSVGDimensions (files (disk w2) !! svgPath)) as [svgWidth svgHeight];
    cbn [fst snd];
    destruct (scaleToFit svgWidth svgHeight (MaxWidth job) (MaxHeight job))
      as [scaledWidth scaledHeight];
    cbn [fst snd];
    destruct (proc_err (svg2gcode o)); cbn [fst];
    rewrite run_command_commands, HF, run_command_commands;
    unfold svg2gcode_argv; cbn [ToolOn ToolOff log_write]; rewrite ?T1, ?T2;
    rewrite <- app_assoc; reflexivity.
Qed.

End ConvertFacts.

(* ===================================================================== *)
(** * Facts about digests and the result cache *)
(* ===================================================================== *)

Section DigestFacts.

Lemma hex_digit_lower (d : N) : (d < 16)%N -> lower_hex (Sha256.hex_digit d) = true.
Proof.
  intros H.
  assert (E : forallb (fun n => lower_hex (Sha256.hex_digit (N.of_nat n))) (seq 0 16) = true)
    by (vm_compute; reflexivity).
  rewrite forallb_forall in E. specialize (E (N.to_nat d)).
  rewrite N2Nat.id in E. apply E, in_seq. lia.
Qed.

Lemma EncodeToString_lower (bytes : list N) :
  Forall (fun b => (b < 256)%N) bytes ->
  all_chars lower_hex (Sha256.EncodeToString bytes) = true.
Proof.
  induction 1 as [|b l Hb _ IH]; [reflexivity|].
  cbn [Sha256.EncodeToString all_chars].
  rewrite !hex_digit_lower, IH; [reflexivity| |].
  - apply N.mod_lt. lia.
  - apply N.Div0.div_lt_upper_bound. lia.
Qed.

Lemma be_bytes_small (n : nat) (x : N) : Forall (fun b => (b < 256)%N) (Sha256.be_bytes n x).
Proof.
  unfold Sha256.be_bytes. apply Forall_map, Forall_forall. intros i _. cbn beta.
  change 255%N with (N.ones 8). rewrite N.land_ones. apply N.mod_lt. discriminate.
Qed.

Lemma Sum256_small (s : string) : Forall (fun b => (b < 256)%N) (Sha256.Sum256 s).
Proof.
  unfold Sha256.Sum256. cbv zeta.
  generalize (Sha256.blocks (length (Sha256.words (Sha256.pad (Sha256.bytes_of_string s))))
                (Sha256.words (Sha256.pad (Sha256.bytes_of_string s))) Sha256.init).
  intros st. cbn [map concat]. rewrite !Forall_app. repeat split; try apply be_bytes_small.
  constructor.
Qed.

Lemma all_chars_prefix (cls : ascii -> bool) (n : nat) (s : string) :
  all_chars cls s = true -> all_chars cls (substring 0 n s) = true.
Proof.
  revert s. induction n as [|n IH]; intros [|c s]; try reflexivity.
  cbn [all_chars substring]. intros H. apply andb_prop in H as [Hc Hs].
  now rewrite Hc, IH.
Qed.

Lemma length_prefix (n : nat) (s : string) :
  (n <= String.length s)%nat -> String.length (substring 0 n s) = n.
Proof.
  revert s. induction n as [|n IH]; intros [|c s]; cbn [String.length substring]; try lia.
  intros H. rewrite IH; lia.
Qed.

Lemma hashString_length (s : string) : String.length (hashString s) = 16%nat.
Proof.
  unfold hashString. apply length_prefix.
  rewrite length_EncodeToString, length_Sum256. lia.
Qed.

Lemma app_inj_length (a a' t t' : string) :
  String.length t = String.length t' -> a +:+ t = a' +:+ t' -> a = a' /\ t = t'.
Proof.
  intros Hl. revert a'. induction a as [|x a IH]; intros [|x' a'] E.
  - now rewrite !app_nil_l in E.
  - exfalso. apply (f_equal String.length) in E.
    rewrite app_nil_l, string_length_app in E. cbn [String.length] in E. lia.
  - exfalso. apply (f_equal String.length) in E.
    rewrite app_nil_l, string_length_app in E. cbn [String.length] in E. lia.
  - rewrite !app_cons in E. injection E as -> E. destruct (IH _ E) as [-> ->]. now split.
Qed.

End DigestFacts.

Section CacheFrame.
Variable c : AIImageCache.

Lemma prefix_substring (n : nat) (s : string) : String.prefix (substring 0 n s) s = true.
Proof.
  revert s. induction n as [|n IH]; intros [|x s]; cbn [substring String.prefix]; try reflexivity.
  destruct (ascii_dec x x); [apply IH | congruence].
Qed.

Lemma Store_Panics_iff (clk : Clock) (we ie : option string) (d : Disk)
    (h p data m : string) :
  snd (Store c clk we ie d h p data m) = Panics <-> (String.length h < 16)%nat.
Proof.
  unfold Store, Text.slice_to.
  destruct (Nat.leb_spec 16 (String.length h)) as [L|L].
  - split; [|lia]. destruct we; [discriminate|]. destruct ie; [discriminate|].
    cbn [index set_files]. destruct (ai_image_cache (index d)) as [[rows|]|]; discriminate.
  - split; [intros _; lia | reflexivity].
Qed.

Lemma Lookup_cases (qe : option string) (d : Disk) (h p : string) :
  (fst (Lookup c qe d h p) = d /\
   (snd (Lookup c qe d h p) = Done None -> index_row d (MakeCacheKey h p) = None)) \/
  (exists rows row,
     ai_image_cache (index d) = Some (CurrentSchema rows) /\
     rows !! MakeCacheKey h p = Some row /\
     files d !! Filepath.Join (cacheDir c) (col_output_filename row) = None /\
     Lookup c qe d h p = (set_rows d (delete (MakeCacheKey h p) rows), Done None)).
Proof.
  unfold Lookup, index_row. destruct qe; [left; split; [reflexivity|discriminate]|].
  destruct (ai_image_cache (index d)) as [[rows|]|];
    try (left; split; [reflexivity|discriminate]).
  destruct (rows !! MakeCacheKey h p) as [row|] eqn:R; [|left; split; reflexivity].
  destruct (files d !! _) eqn:F; [left; split; [reflexivity|discriminate]|].
  right. eauto 7.
Qed.

End CacheFrame.

(* ===================================================================== *)
(** * Facts about the job pipeline *)
(* ===================================================================== *)


Section PipelineFacts.

Lemma log_streams_state (job : Job) (p : ProcOutcome) :
  Status (log_streams job p) = Status job /\ GCodePath (log_streams job p) = GCodePath job.
Proof. unfold log_streams. now destruct (proc_stdout p), (proc_stderr p). Qed.

Lemma run_command_index (w : World) (argv : list string) (p : ProcOutcome) (out : string) :
  index (disk (run_command w argv p out)) = index (disk w).
Proof. unfold run_command. now destruct (proc_output p). Qed.

Lemma run_command_files (w : World) (argv : list string) (p : ProcOutcome) (out path : string) :
  path <> out ->
  files (disk (run_command w argv p out)) !! path = files (disk w) !! path.
Proof.
  intros H. unfold run_command. destruct (proc_output p); [|reflexivity].
  cbn. now apply lookup_insert_ne.
Qed.

Lemma filterWhitePaths_index (w : World) (e : option string) (path : string) :
  index (disk (fst (filterWhitePaths w e path))) = index (disk w).
Proof.
  unfold filterWhitePaths. destruct (files (disk w) !! path); [|reflexivity].
  now destruct e.
Qed.

Lemma filterWhitePaths_files (w : World) (e : option string) (svgPath path : string) :
  path <> svgPath ->
  files (disk (fst (filterWhitePaths w e svgPath))) !! path = files (disk w) !! path.
Proof.
  intros H. unfold filterWhitePaths. destruct (files (disk w) !! svgPath); [|reflexivity].
  destruct e; [reflexivity|]. cbn. now apply lookup_insert_ne.
Qed.

(** What the trace, filter, scale and generate stages leave of the disk. *)
Lemma convert_stages_disk (o : Oracle) (w : World) (job : Job)
    (svgPath gcodePath inputPath : string) :
  index (disk (fst (convert_stages o w job svgPath gcodePath inputPath))) = index (disk w) /\
  forall path, path <> svgPath -> path <> gcodePath ->
    files (disk (fst (convert_stages o w job svgPath gcodePath inputPath))) !! path
    = files (disk w) !! path.
Proof.
  unfold convert_stages. cbv zeta.
  destruct (proc_err (autotrace o)).
  { cbn [fst]. split; [apply run_command_index|]. intros. now apply run_command_files. }
  match goal with |- context [filterWhitePaths ?w1 ?e ?p] =>
    pose proof (filterWhitePaths_index w1 e p) as HI;
    pose proof (fun path => filterWhitePaths_files w1 e p path) as HF;
    destruct (filterWhitePaths w1 e p) as [w2 fe] end.
  cbn [fst] in HI, HF.
  destruct (getSVGDimensions _) as [svgWidth svgHeight].
  destruct (scaleToFit _ _ _ _) as [scaledWidth scaledHeight].
  destruct (proc_err (svg2gcode o)); cbn [fst]; (split;
    [ now rewrite run_command_index, HI, run_command_index
    | intros path H1 H2; now rewrite run_command_files, HF, run_command_files ]).
Qed.

(** How the later stages end: [done] with the artifact path set, after
    both commands succeeded, or [error] with the path as it was. *)
Lemma convert_stages_status (o : Oracle) (w : World) (job : Job)
    (svgPath gcodePath inputPath : string) :
  let job' := snd (convert_stages o w job svgPath gcodePath inputPath) in
  (Status job' = "done" /\ GCodePath job' = gcodePath /\
   proc_err (autotrace o) = None /\ proc_err (svg2gcode o) = None) \/
  (Status job' = "error" /\ GCodePath job' = GCodePath job /\
   (proc_err (autotrace o) <> None \/ proc_err (svg2gcode o) <> None)).
Proof.
  cbv zeta. unfold convert_stages. cbv zeta.
  destruct (proc_err (autotrace o)) eqn:A.
  { right. cbn [snd Status GCodePath set_Status log_write].
    destruct (log_streams_state
      (log_write (log_write job ("=== Running autotrace ===" +:+ Text.NL))
         ("Command: autotrace -centerline -color-count 2 -output-file " +:+ svgPath
          +:+ " " +:+ inputPath +:+ Text.NL +:+ Text.NL)) (autotrace o)) as [_ G].
    rewrite G. cbn. split; [reflexivity|]. split; [reflexivity|]. left. discriminate. }
  destruct (filterWhitePaths _ _ _) as [w2 fe].
  destruct (getSVGDimensions _) as [svgWidth svgHeight].
  destruct (scaleToFit _ _ _ _) as [scaledWidth scaledHeight].
  destruct (proc_err (svg2gcode o)) eqn:G2; [right|left];
    cbn [snd Status GCodePath set_Status set_GCodePath log_write];
    repeat split; try discriminate; try (right; discriminate).
  destruct fe;
    repeat first [rewrite (proj2 (log_streams_state _ _))
                 | progress cbn [GCodePath log_write]]; reflexivity.
Qed.

Lemma convert_stages_commands (o : Oracle) (w : World) (job : Job)
    (svgPath gcodePath inputPath : string) :
  let w' := fst (convert_stages o w job svgPath gcodePath inputPath) in
  (proc_err (autotrace o) <> None /\
   commands w' = commands w ++ [autotrace_argv svgPath inputPath]) \/
  (proc_err (autotrace o) = None /\
   exists dpiArg : string,
     commands w' = commands w ++ [autotrace_argv svgPath inputPath;
                                  ["svg2gcode"; "--on"; ToolOn job; "--off"; ToolOff job;
                                   "--dpi"; dpiArg; svgPath; "-o"; gcodePath]]).
Proof.
  cbv zeta. destruct (proc_err (autotrace o)) eqn:A.
  - left. split; [discriminate|]. unfold convert_stages. cbv zeta. rewrite A.
    cbn [fst]. apply run_command_commands.
  - right. split; [reflexivity|]. eexists.
    apply (convert_stages_generate o w job svgPath gcodePath inputPath A).
Qed.

(** The file that the filter leaves at the path of the drawing, after a
    tracer that wrote [doc] there. *)
Lemma filtered_drawing (o : Oracle) (w : World) (argv : list string) (svgPath doc : string) :
  proc_output (autotrace o) = Some doc ->
  files (disk (fst (filterWhitePaths (run_command w argv (autotrace o) svgPath)
                      (filter_write_err o) svgPath))) !! svgPath
  = Some (match filter_write_err o with
          | None => filterWhitePaths_data doc
          | Some _ => doc
          end).
Proof.
  intros E. unfold run_command, filterWhitePaths. rewrite E.
  cbn [write_file set_disk disk set_files files]. rewrite lookup_insert_eq.
  destruct (filter_write_err o); cbn [fst write_file set_disk disk set_files files];
    apply lookup_insert_eq.
Qed.

End PipelineFacts.

Section AIStageFacts.

Lemma callGeminiAPI_frame (s : Server) (o : Oracle) (w : World)
    (inputPath apiKey prompt : string) :
  let r := callGeminiAPI s o w inputPath apiKey prompt in
  disk (fst r) = disk w /\ commands (fst r) = commands w /\ snd r <> Panics /\
  (http_calls (fst r) = http_calls w \/
   exists data mime,
     files (disk w) !! inputPath = Some data /\
     http_calls (fst r)
     = http_calls w ++ [mkHttpRequest "POST" (gemini_endpoint +:+ apiKey) "application/json"
                                      prompt mime data]).
Proof.
  cbv zeta. unfold callGeminiAPI.
  destruct (files (disk w) !! inputPath) as [data|] eqn:F;
    [|cbn [fst snd]; repeat split; [discriminate | now left]].
  cbv zeta.
  destruct (Net.parse_error _) as [[u cause]|];
    [cbn [fst snd]; repeat split; [discriminate | now left]|].
  assert (R : forall x : res (string * string), x <> Panics ->
    let r := (mkWorld (disk w)
               (http_calls w ++ [mkHttpRequest "POST" (gemini_endpoint +:+ apiKey) "application/json"
                  prompt
                  (if String.eqb (mime_TypeByExtension o (Net.ToLower (Filepath.Ext inputPath))) EmptyString
                   then if String.eqb (Net.ToLower (Filepath.Ext inputPath)) ".png" then "image/png"
                        else if String.eqb (Net.ToLower (Filepath.Ext inputPath)) ".jpg"
                                || String.eqb (Net.ToLower (Filepath.Ext inputPath)) ".jpeg"
                        then "image/jpeg"
                        else if String.eqb (Net.ToLower (Filepath.Ext inputPath)) ".webp" then "image/webp"
                        else if String.eqb (Net.ToLower (Filepath.Ext inputPath)) ".gif" then "image/gif"
                        else if String.eqb (Net.ToLower (Filepath.Ext inputPath)) ".bmp" then "image/bmp"
                        else "image/png"
                   else mime_TypeByExtension o (Net.ToLower (Filepath.Ext inputPath))) data])
               (commands w), x) in
    disk (fst r) = disk w /\ commands (fst r) = commands w /\ snd r <> Panics /\
    (http_calls (fst r) = http_calls w \/
     exists data' mime,
       Some data = Some data' /\
       http_calls (fst r)
       = http_calls w ++ [mkHttpRequest "POST" (gemini_endpoint +:+ apiKey) "application/json"
                                        prompt mime data'])).
  { intros x Hx. cbn [fst snd disk commands http_calls]. repeat split; [exact Hx|].
    right. eauto. }
  destruct (http o) as [cause|cause|status errMessage candidates];
    [apply R; discriminate | apply R; discriminate |].
  destruct (negb (status =? 200)).
  { destruct errMessage as [[|c m]|]; apply R; discriminate. }
  destruct candidates as [cands|e]; [|apply R; discriminate].
  destruct (first_inline cands) as [inline|]; [|apply R; discriminate].
  destruct (inline_data inline); apply R; discriminate.
Qed.


Lemma Lookup_files (c : AIImageCache) (qe : option string) (d : Disk) (h p : string) :
  files (fst (Lookup c qe d h p)) = files d.
Proof.
  unfold Lookup. destruct qe; [reflexivity|].
  destruct (ai_image_cache (index d)) as [[rows|]|]; try reflexivity.
  destruct (rows !! _); [|reflexivity]. now destruct (files d !! _).
Qed.

Lemma same_settings_refl (job : Job) : same_settings job job.
Proof. repeat split. Qed.

Lemma ai_stage_frame (s : Server) (o : Oracle) (w : World) (job : Job)
    (jobDir inputPath apiKey aiPrompt : string) :
  match ai_stage s o w job jobDir inputPath apiKey aiPrompt with
  | Crash _ _ => False
  | Stop w' job' =>
      Status job' = "error" /\ same_settings job job' /\ commands w' = commands w /\
      at_most_one_request w w' inputPath apiKey aiPrompt
  | Continue w' job' _ =>
      Status job' = Status job /\ same_settings job job' /\ commands w' = commands w /\
      at_most_one_request w w' inputPath apiKey aiPrompt
  end.
Proof.
  unfold ai_stage.
  destruct (HashFile (disk w) inputPath) as [hh|e|] eqn:HH.
  2:{ cbn. repeat split. now left. }
  2:{ unfold HashFile in HH. destruct (files (disk w) !! inputPath); discriminate. }
  rewrite (slice_to_hash _ _ _ HH).
  pose proof (Lookup_never_panics (AICache s) (lookup_query_err o) (disk w) hh aiPrompt) as NP.
  pose proof (Lookup_files (AICache s) (lookup_query_err o) (disk w) hh aiPrompt) as LF.
  destruct (Lookup (AICache s) (lookup_query_err o) (disk w) hh aiPrompt) as [d1 looked].
  cbn [fst snd] in NP, LF.
  assert (Miss : forall job1 : Job,
    Status job1 = Status job -> same_settings job job1 ->
    match
      (if String.eqb apiKey EmptyString
       then Stop (set_disk w d1)
              (set_Status (log_write (log_write job1 ("Cache MISS - calling Gemini API..." +:+ Text.NL))
                 ("Error: AI transformation enabled but no API key provided" +:+ Text.NL)) "error")
       else
         let '(w0, called) := callGeminiAPI s o (set_disk w d1) inputPath apiKey aiPrompt in
         match called with
         | Panics => Crash w0 (log_write job1 ("Cache MISS - calling Gemini API..." +:+ Text.NL))
         | Fail err =>
             Stop w0 (set_Status (log_write (log_write job1 ("Cache MISS - calling Gemini API..." +:+ Text.NL))
                        ("AI transformation error: " +:+ err +:+ Text.NL)) "error")
         | Done (imageData, mimeType) =>
             let '(d, stored) :=
               Store (AICache s) (clock o) (store_write_err o) (store_insert_err o)
                     (disk w0) hh aiPrompt imageData mimeType in
             match stored with
             | Panics => Crash (set_disk w0 d) (log_write job1 ("Cache MISS - calling Gemini API..." +:+ Text.NL))
             | Fail err =>
                 match job_write_err o with
                 | Some err0 =>
                     Stop (set_disk w0 d)
                       (set_Status
                          (log_write
                             (log_write (log_write job1 ("Cache MISS - calling Gemini API..." +:+ Text.NL))
                                ("Warning: failed to cache result: " +:+ err +:+ Text.NL))
                             ("Error saving AI image: " +:+ err0 +:+ Text.NL)) "error")
                 | None =>
                     Continue
                       (write_file (set_disk w0 d)
                          (Filepath.Join jobDir
                             ("ai_generated" +:+ (if String.eqb mimeType "image/jpeg" then ".jpg" else ".png")))
                          imageData)
                       (log_write
                          (log_write
                             (log_write (log_write job1 ("Cache MISS - calling Gemini API..." +:+ Text.NL))
                                ("Warning: failed to cache result: " +:+ err +:+ Text.NL))
                             ("AI transformation complete, saved as: " +:+
                              Filepath.Base
                                (Filepath.Join jobDir
                                   ("ai_generated" +:+
                                    (if String.eqb mimeType "image/jpeg" then ".jpg" else ".png"))) +:+ Text.NL))
                          Text.NL)
                       (Filepath.Join jobDir
                          ("ai_generated" +:+ (if String.eqb mimeType "image/jpeg" then ".jpg" else ".png")))
                 end
             | Done result =>
                 Continue (set_disk w0 d)
                   (log_write
                      (log_write
                         (set_AIImage (log_write job1 ("Cache MISS - calling Gemini API..." +:+ Text.NL))
                            (Filename result)
                            (AIImageCached (log_write job1 ("Cache MISS - calling Gemini API..." +:+ Text.NL))))
                         ("AI transformation complete, saved as: " +:+ Filepath.Base (FullPath result) +:+ Text.NL))
                      Text.NL)
                   (FullPath result)
             end
         end)
    with
    | Crash _ _ => False
    | Stop w' job' =>
        Status job' = "error" /\ same_settings job job' /\ commands w' = commands w /\
        at_most_one_request w w' inputPath apiKey aiPrompt
    | Continue w' job' _ =>
        Status job' = Status job /\ same_settings job job' /\ commands w' = commands w /\
        at_most_one_request w w' inputPath apiKey aiPrompt
    end).
  { intros job1 HS HJ. destruct (String.eqb_spec apiKey EmptyString) as [|Hkey].
    { cbn. split; [reflexivity|]. split; [exact HJ|]. split; [reflexivity | now left]. }
    destruct (callGeminiAPI_frame s o (set_disk w d1) inputPath apiKey aiPrompt)
      as (D & C & P & H).
    destruct (callGeminiAPI s o (set_disk w d1) inputPath apiKey aiPrompt) as [w0 called].
    cbn [fst snd] in D, C, P, H. cbn [set_disk commands http_calls] in C, H.
    assert (H' : at_most_one_request w w0 inputPath apiKey aiPrompt).
    { destruct H as [H|(data & mime & F & H)]; [now left | right].
      exists data, mime. rewrite <- LF. auto. }
    destruct called as [[imageData mimeType]|err|]; [| |congruence].
    2:{ cbn. split; [reflexivity|]. split; [exact HJ|]. now split. }
    pose proof (Store_Panics_iff (AICache s) (clock o) (store_write_err o) (store_insert_err o)
                  (disk w0) hh aiPrompt imageData mimeType) as SP.
    destruct (Store (AICache s) (clock o) (store_write_err o) (store_insert_err o)
                (disk w0) hh aiPrompt imageData mimeType) as [d stored].
    cbn [snd] in SP.
    destruct stored as [result|err|].
    - cbn [Status log_write set_AIImage set_disk commands].
      split; [exact HS|]. split; [exact HJ|]. now split.
    - destruct (job_write_err o); cbn [Status log_write set_Status set_disk write_file commands].
      + split; [reflexivity|]. split; [exact HJ|]. now split.
      + split; [exact HS|]. split; [exact HJ|]. now split.
    - pose proof (HashFile_length _ _ _ HH). apply proj1 in SP. specialize (SP eq_refl). lia. }
  destruct looked as [[c|]|e|]; [| | |congruence].
  - cbn. repeat split. now left.
  - cbv beta iota zeta. apply Miss; [reflexivity | repeat split].
  - cbv beta iota zeta. apply Miss; [reflexivity | repeat split].
Qed.

End AIStageFacts.

Section CachedRuns.

Lemma run_command_keeps (w : World) (argv : list string) (p : ProcOutcome) (out path : string) :
  is_Some (files (disk w) !! path) ->
  is_Some (files (disk (run_command w argv p out)) !! path).
Proof.
  intros H. unfold run_command. destruct (proc_output p); [|exact H].
  cbn. destruct (decide (out = path)) as [->|N].
  - rewrite lookup_insert_eq. eauto.
  - now rewrite lookup_insert_ne.
Qed.

Lemma filterWhitePaths_keeps (w : World) (e : option string) (svgPath path : string) :
  is_Some (files (disk w) !! path) ->
  is_Some (files (disk (fst (filterWhitePaths w e svgPath))) !! path).
Proof.
  intros H. unfold filterWhitePaths. destruct (files (disk w) !! svgPath); [|exact H].
  destruct e; [exact H|]. cbn. destruct (decide (svgPath = path)) as [->|N].
  - rewrite lookup_insert_eq. eauto.
  - now rewrite lookup_insert_ne.
Qed.

(** The later stages remove no file. *)
Lemma convert_stages_keeps (o : Oracle) (w : World) (job : Job)
    (svgPath gcodePath inputPath path : string) :
  is_Some (files (disk w) !! path) ->
  is_Some (files (disk (fst (convert_stages o w job svgPath gcodePath inputPath))) !! path).
Proof.
  intros H. unfold convert_stages. cbv zeta.
  destruct (proc_err (autotrace o)); [cbn [fst]; now apply run_command_keeps|].
  match goal with |- context [filterWhitePaths ?w1 ?e ?p] =>
    pose proof (filterWhitePaths_keeps w1 e p path) as HF;
    destruct (filterWhitePaths w1 e p) as [w2 fe] end.
  cbn [fst] in HF.
  destruct (getSVGDimensions _) as [svgWidth svgHeight].
  destruct (scaleToFit _ _ _ _) as [scaledWidth scaledHeight].
  destruct (proc_err (svg2gcode o)); cbn [fst];
    now apply run_command_keeps, HF, run_command_keeps.
Qed.

Lemma convert_stages_first_command (o : Oracle) (w : World) (job : Job)
    (svgPath gcodePath inputPath : string) :
  exists rest : list (list string),
    commands (fst (convert_stages o w job svgPath gcodePath inputPath))
    = commands w ++ autotrace_argv svgPath inputPath :: rest.
Proof.
  destruct (convert_stages_commands o w job svgPath gcodePath inputPath) as [[_ E]|[_ [dpiArg E]]];
    cbv zeta in E; rewrite E; eauto.
Qed.

(** A run whose lookup finds a cached result. *)
Lemma processJob_hit (s : Server) (o : Oracle) (w : World) (job : Job)
    (jobDir inputPath apiKey aiPrompt inputHash : string) (d : Disk) (c : CachedResult) :
  UseAI job = true ->
  HashFile (disk w) inputPath = Done inputHash ->
  Lookup (AICache s) (lookup_query_err o) (disk w) inputHash aiPrompt = (d, Done (Some c)) ->
  exists (w' : World) (job' : Job) (rest : list (list string)),
    processJob s o w job jobDir inputPath apiKey aiPrompt = Finished w' job' /\
    http_calls w' = http_calls w /\
    AIImageCached job' = true /\ AIImageFilename job' = Filename c /\
    commands w' = commands w ++ autotrace_argv (Filepath.Join jobDir "output.svg") (FullPath c) :: rest /\
    index (disk w') = index d /\
    (forall path, is_Some (files d !! path) -> is_Some (files (disk w') !! path)).
Proof.
  intros HAI HH L. unfold processJob. rewrite HAI. unfold ai_stage.
  rewrite HH, (slice_to_hash _ _ _ HH), L. cbv beta iota zeta.
  match goal with |- context [convert_stages o ?w1 ?j1 ?p1 ?p2 ?p3] =>
    destruct (convert_stages_first_command o w1 j1 p1 p2 p3) as [rest C];
    destruct (convert_stages_disk o w1 j1 p1 p2 p3) as [DI _];
    pose proof (fun path => convert_stages_keeps o w1 j1 p1 p2 p3 path) as K;
    destruct (convert_stages_AIImage o w1 j1 p1 p2 p3) as [A1 A2];
    pose proof (convert_stages_http o w1 j1 p1 p2 p3) as HT
  end.
  eexists _, _, rest. split; [reflexivity|]. cbn [fst snd].
  split; [exact HT|]. split; [exact A1|]. split; [exact A2|]. split; [exact C|].
  split; [exact DI | exact K].
Qed.

Lemma Store_Fail_index (c : AIImageCache) (clk : Clock) (we ie : option string) (d : Disk)
    (h p data m err : string) :
  snd (Store c clk we ie d h p data m) = Fail err ->
  index (fst (Store c clk we ie d h p data m)) = index d.
Proof.
  unfold Store. destruct (Text.slice_to 16 h); [|discriminate].
  destruct we; [reflexivity|]. destruct ie; [reflexivity|].
  cbn [index set_files]. destruct (ai_image_cache (index d)) as [[rows|]|]; try reflexivity.
  discriminate.
Qed.

End CachedRuns.

Section EndToEnd.

Lemma convert_stages_done (o : Oracle) (w : World) (job : Job)
    (svgPath gcodePath inputPath : string) :
  proc_err (autotrace o) = None -> proc_err (svg2gcode o) = None ->
  Status (snd (convert_stages o w job svgPath gcodePath inputPath)) = "done".
Proof.
  intros A G.
  destruct (convert_stages_status o w job svgPath gcodePath inputPath)
    as [(S1 & _)|(_ & _ & [N|N])]; [exact S1 | congruence | congruence].
Qed.

End EndToEnd.

(* ===================================================================== *)
(** * The claims *)
(* ===================================================================== *)

(** C1, as the code runs: the credential reaches the job log. An AI-enabled
    job misses the cache and calls the service while the network is down.
    [callGeminiAPI] wraps the error of [client.Do], whose text quotes the
    request URL and with it the [key] parameter, and [processJob] writes
    that text to the log. Two runs that differ only in the credential
    leave different logs, and the credential can be read in the log. A
    credential with a control character does not reach the network: the
    error of [http.NewRequest] quotes the URL in the same way. *)
Theorem C1_credential_reaches_log :
  log_of (Scenario.run_with_key "AIzaSy-secret-1")
    <> log_of (Scenario.run_with_key "AIzaSy-secret-2") /\
  Text.contains "AIzaSy-secret-1" (log_of (Scenario.run_with_key "AIzaSy-secret-1")) = true /\
  log_of (Scenario.run_with_key "AIzaSy-secret-1")
  = "=== Running AI Image Transformation ===" +:+ Text.NL
    +:+ "Input image hash: c9b4b9d43e814526" +:+ Text.NL
    +:+ "Cache MISS - calling Gemini API..." +:+ Text.NL
    +:+ "AI transformation error: API request failed: Post "
    +:+ Text.DQ +:+ gemini_endpoint +:+ "AIzaSy-secret-1" +:+ Text.DQ
    +:+ ": dial tcp: lookup generativelanguage.googleapis.com: no such host" +:+ Text.NL /\
  log_of (Scenario.run_with_key ("AIzaSy-secret-1" +:+ Text.NL))
  = "=== Running AI Image Transformation ===" +:+ Text.NL
    +:+ "Input image hash: c9b4b9d43e814526" +:+ Text.NL
    +:+ "Cache MISS - calling Gemini API..." +:+ Text.NL
    +:+ "AI transformation error: create request: parse "
    +:+ Text.DQ +:+ gemini_endpoint +:+ "AIzaSy-secret-1" +:+ String Net.backslash "n" +:+ Text.DQ
    +:+ ": net/url: invalid control character in URL" +:+ Text.NL.
Proof.
  split; [vm_compute; discriminate|].
  repeat split; vm_compute; reflexivity.
Qed.

(** C2, the scenario as the spec words it fails: for the 832 by 832
    document and a 50 mm by 50 mm box the generator is not given 422.624
    rounded to four decimals, it is given 422.6560. *)
Lemma C2_scenario_is_not_422_624 :
  Scenario.dpi_argument (Scenario.run_plain Scenario.traced_document) = "422.6560" /\
  Scenario.dpi_argument (Scenario.run_plain Scenario.traced_document)
    <> F64.FormatFloat 4 (F64.const "422.624").
Proof. split; [vm_compute; reflexivity | vm_compute; discriminate]. Qed.

(** C2, amended: in every run, with AI on or off, whenever the tracer
    succeeds the commands of the run are the tracer on the working image
    and then the generator with [--dpi] set to
    [srcWidth / fittedWidth * 25.4], computed in float64 and printed with
    four decimals, where the source dimensions are those that the file
    left by the filter at [output.svg] declares and the fitted width is
    that of [scaleToFit] for the maximum width and height of the job. With
    AI off the working image is the uploaded file; with AI on it is the
    image with which the AI stage goes on, and when the AI stage stops
    the run ends there with no command run. When the tracer writes a
    document and the filter writes the file back, that file holds the
    filtered document. For the document that declares 832 by 832 and a
    box of 50 mm by 50 mm the resolution is 832/50*25.4 = 422.656 and the
    argument is 422.6560. *)
Theorem C2_resolution_parameter (s : Server) (o : Oracle) (w : World) (job : Job)
    (jobDir inputPath apiKey aiPrompt : string) :
  proc_err (autotrace o) = None ->
  let svgPath := Filepath.Join jobDir "output.svg" in
  let gcodePath := Filepath.Join jobDir "output.gcode" in
  let document (w1 : World) (input : string) : option string :=
    files (disk (fst (filterWhitePaths
                        (run_command w1 (autotrace_argv svgPath input) (autotrace o) svgPath)
                        (filter_write_err o) svgPath))) !! svgPath in
  let resolution (w1 : World) (input : string) : F64.float64 :=
    let srcWidth := fst (getSVGDimensions (document w1 input)) in
    let srcHeight := snd (getSVGDimensions (document w1 input)) in
    let fittedWidth := fst (scaleToFit srcWidth srcHeight (MaxWidth job) (MaxHeight job)) in
    F64.mul (F64.div srcWidth fittedWidth) (F64.const "25.4") in
  let generator (w1 : World) (input : string) : list string :=
    ["svg2gcode"; "--on"; ToolOn job; "--off"; ToolOff job; "--dpi";
     F64.FormatFloat 4 (resolution w1 input); svgPath; "-o"; gcodePath] in
  (UseAI job = false ->
   exists (w' : World) (job' : Job),
     processJob s o w job jobDir inputPath apiKey aiPrompt = Finished w' job' /\
     commands w' = commands w ++ [autotrace_argv svgPath inputPath; generator w inputPath]) /\
  (UseAI job = true ->
   match ai_stage s o w job jobDir inputPath apiKey aiPrompt with
   | Continue w1 job1 input =>
       exists (w' : World) (job' : Job),
         processJob s o w job jobDir inputPath apiKey aiPrompt = Finished w' job' /\
         commands w' = commands w ++ [autotrace_argv svgPath input; generator w1 input]
   | Stop w1 job1 =>
       processJob s o w job jobDir inputPath apiKey aiPrompt = Finished w1 job1 /\
       commands w1 = commands w
   | Crash _ _ => False
   end) /\
  (forall (w1 : World) (input doc : string),
     proc_output (autotrace o) = Some doc -> filter_write_err o = None ->
     document w1 input = Some (filterWhitePaths_data doc)) /\
  getSVGDimensions (Some (filterWhitePaths_data Scenario.traced_document))
    = (F64.const "832", F64.const "832") /\
  scaleToFit (F64.const "832") (F64.const "832") (F64.const "50") (F64.const "50")
    = (F64.const "50", F64.const "50") /\
  F64.mul (F64.div (F64.const "832") (F64.const "50")) (F64.const "25.4")
    = F64.const "422.656" /\
  F64.FormatFloat 4 (F64.const "422.656") = "422.6560".
Proof.
  intros Herr. cbv zeta.
  split; [|split; [|split; [|repeat split; vm_compute; reflexivity]]].
  - intros HAI. unfold processJob. rewrite HAI. cbv zeta.
    eexists _, _. split; [reflexivity|]. cbn [fst].
    apply (convert_stages_generate _ _ _ _ _ _ Herr).
  - intros HAI. unfold processJob. rewrite HAI. cbv zeta.
    pose proof (ai_stage_frame s o w job jobDir inputPath apiKey aiPrompt) as F.
    destruct (ai_stage s o w job jobDir inputPath apiKey aiPrompt) as [w1 job1 input|w1 job1|w1 job1].
    + destruct F as (_ & (_ & _ & _ & MW & MH & T1 & T2 & _) & C & _).
      eexists _, _. split; [reflexivity|]. cbn [fst].
      rewrite (convert_stages_generate _ _ _ _ _ _ Herr). cbv zeta.
      now rewrite C, MW, MH, T1, T2.
    + destruct F as (_ & _ & C & _). split; [reflexivity | exact C].
    + exact F.
  - intros w1 input doc E W.
    rewrite (filtered_drawing o w1 _ _ doc E), W. reflexivity.
Qed.

Lemma C2_resolution_parameter_witness :
  (exists (w' : World) (job' : Job),
     Scenario.run_plain Scenario.traced_document = Finished w' job' /\
     commands w'
     = [autotrace_argv "/data/uploads/1700000000000000000/output.svg"
          "/data/uploads/1700000000000000000/input.png";
        ["svg2gcode"; "--on"; "S4 M0"; "--off"; "S4 M100"; "--dpi"; "422.6560";
         "/data/uploads/1700000000000000000/output.svg"; "-o";
         "/data/uploads/1700000000000000000/output.gcode"]]) /\
  (exists (w' : World) (job' : Job),
     processJob Scenario.server (Scenario.oracle_for Scenario.traced_document Scenario.offline)
                cached_world (Scenario.job0 true) Scenario.jobDir Scenario.inputPath
                EmptyString DefaultAIPrompt
     = Finished w' job' /\
     commands w'
     = [autotrace_argv "/data/uploads/1700000000000000000/output.svg"
          "/data/ai_cache/5f3e7a2b9c1d4e60_1700000000123456789.png";
        ["svg2gcode"; "--on"; "S4 M0"; "--off"; "S4 M100"; "--dpi"; "422.6560";
         "/data/uploads/1700000000000000000/output.svg"; "-o";
         "/data/uploads/1700000000000000000/output.gcode"]]).
Proof.
  split.
  - destruct (C2_resolution_parameter Scenario.server
                (Scenario.oracle_for Scenario.traced_document Scenario.offline)
                Scenario.world0 (Scenario.job0 false) Scenario.jobDir Scenario.inputPath
                EmptyString DefaultAIPrompt eq_refl)
      as [Plain _].
    destruct (Plain eq_refl) as (w' & job' & E & C).
    exists w', job'. split; [exact E|]. rewrite C. vm_compute. reflexivity.
  - destruct (C2_resolution_parameter Scenario.server
                (Scenario.oracle_for Scenario.traced_document Scenario.offline)
                cached_world (Scenario.job0 true) Scenario.jobDir Scenario.inputPath
                EmptyString DefaultAIPrompt eq_refl)
      as (_ & AI & _).
    specialize (AI eq_refl).
    destruct (ai_stage Scenario.server
                (Scenario.oracle_for Scenario.traced_document Scenario.offline)
                cached_world (Scenario.job0 true) Scenario.jobDir Scenario.inputPath
                EmptyString DefaultAIPrompt) as [w1 job1 input|w1 job1|w1 job1] eqn:St.
    + destruct AI as (w' & job' & E & C). exists w', job'. split; [exact E|].
      rewrite C. vm_compute in St. injection St as <- <- <-. vm_compute. reflexivity.
    + vm_compute in St. discriminate.
    + destruct AI.
Defined.




(** C4, as stated, fails for path elements that are not in the form the
    tracer writes. A path whose stroke is black, [000000], and whose [id]
    holds the text [stroke:#ffffff] is removed, and so is a path whose
    stroke is [red] and that has a further attribute holding
    [stroke:#ffffff]; a path whose stroke is white, [ffffff], is kept
    when it has a closing tag and when a space follows [stroke:]. This is
    what [filterWhitePaths] writes back to the file. *)
Lemma C4_filter_misreads_paths :
  let svgPath := "/data/uploads/1700000000000000000/output.svg" in
  let before :=
    Scenario.svg_document "832" "832"
      [labelled_black_path; open_white_path; spaced_white_path; red_path] in
  let after :=
    Scenario.svg_document "832" "832"
      [EmptyString; open_white_path; spaced_white_path; EmptyString] in
  isNearWhite "000000" = false /\ isNearWhite "ffffff" = true /\
  filterWhitePaths_data before = after /\
  filterWhitePaths (world_with_drawing svgPath before) None svgPath
  = (world_with_drawing svgPath after, None).
Proof. vm_compute. repeat split. Qed.

(** C4, amended: in a document as the tracer writes it, [filterWhitePaths]
    removes a path exactly when the three channels of its stroke color
    are each above 240. For every color of six hexadecimal digits, in
    either case, [isNearWhite] holds exactly when the red, green and blue
    values are each above 240, and the function given to [ReplaceAllFunc]
    turns a stroked path of that color into the empty text in that case
    and returns it unchanged otherwise. A document of stroked paths, each
    with a color of six hexadecimal digits and path data free of [>] and
    [s], under any declared width and height, is filtered to the same
    document with exactly the near-white paths removed and every other
    path, and the text around the paths, as it was; [filterWhitePaths] on
    a world whose file holds such a document, when the file is written
    back, returns no error and leaves the filtered document in that file,
    and every other file, the index, the commands and the requests as
    they were. A document in which no stroke color of six hexadecimal
    digits can be read is filtered to itself, and [filterWhitePaths]
    leaves every file as it was. When the file is missing
    [filterWhitePaths] returns the error of reading it and the world as
    it was. In a document, the paths of color [fefefe], [f5f5f5] and
    [f1f1f1] are removed; those of color [000000], [f0e0e0] and [f0ffff],
    whose red channel is exactly 240, and those whose stroke is [red] or
    [#fff] are kept. *)
Theorem C4_filterWhitePaths_above_240 (upper : bool) (r g b : N) (d : string) :
  (r < 256)%N -> (g < 256)%N -> (b < 256)%N ->
  (isNearWhite (hex_color upper r g b) = true <-> (240 < r /\ 240 < g /\ 240 < b)%N) /\
  filterWhitePaths_func (Scenario.stroked_path (hex_color upper r g b) d)
    = (if (240 <? r)%N && (240 <? g)%N && (240 <? b)%N then EmptyString
       else Scenario.stroked_path (hex_color upper r g b) d) /\
  (forall (w hgt : string) (paths : list (string * string)),
     all_chars (Text.is_not "<") w = true -> all_chars (Text.is_not "<") hgt = true ->
     Forall well_formed paths ->
     filterWhitePaths_data (Scenario.svg_document w hgt (map written paths))
     = Scenario.svg_document w hgt (map filtered paths)) /\
  (forall data : string,
     Regexp.FindSubmatch colorRegex data = None -> filterWhitePaths_data data = data) /\
  (forall (wd : World) (svgPath w hgt : string) (paths : list (string * string)),
     files (disk wd) !! svgPath = Some (Scenario.svg_document w hgt (map written paths)) ->
     all_chars (Text.is_not "<") w = true -> all_chars (Text.is_not "<") hgt = true ->
     Forall well_formed paths ->
     let after := filterWhitePaths wd None svgPath in
     snd after = None /\
     files (disk (fst after)) !! svgPath = Some (Scenario.svg_document w hgt (map filtered paths)) /\
     (forall path : string, path <> svgPath ->
        files (disk (fst after)) !! path = files (disk wd) !! path) /\
     index (disk (fst after)) = index (disk wd) /\
     commands (fst after) = commands wd /\ http_calls (fst after) = http_calls wd) /\
  (forall (wd : World) (svgPath data : string),
     files (disk wd) !! svgPath = Some data ->
     Regexp.FindSubmatch colorRegex data = None ->
     forall path : string,
       files (disk (fst (filterWhitePaths wd None svgPath))) !! path = files (disk wd) !! path) /\
  (forall (wd : World) (write_err : option string) (svgPath : string),
     files (disk wd) !! svgPath = None ->
     filterWhitePaths wd write_err svgPath = (wd, Some (not_exist_error "open" svgPath))) /\
  filterWhitePaths_data
    (Scenario.svg_document "832" "832"
       [Scenario.stroked_path "fefefe" "M0 0L9 9"; Scenario.stroked_path "000000" "M1 1L8 8";
        Scenario.stroked_path "f5f5f5" "M2 2L7 7"; Scenario.stroked_path "f0e0e0" "M3 3L6 6";
        Scenario.stroked_path "f0ffff" "M4 4L5 5"; Scenario.stroked_path "F1F1F1" "M5 5L4 4";
        Scenario.stroked_path "fff" "M6 6L3 3";
        "<path style=" +:+ Text.DQ +:+ "stroke:red; fill:none;" +:+ Text.DQ +:+ "/>"])
  = Scenario.svg_document "832" "832"
       [EmptyString; Scenario.stroked_path "000000" "M1 1L8 8";
        EmptyString; Scenario.stroked_path "f0e0e0" "M3 3L6 6";
        Scenario.stroked_path "f0ffff" "M4 4L5 5"; EmptyString;
        Scenario.stroked_path "fff" "M6 6L3 3";
        "<path style=" +:+ Text.DQ +:+ "stroke:red; fill:none;" +:+ Text.DQ +:+ "/>"].
Proof.
  intros Hr Hg Hb. split; [|split; [|split; [|split; [|split; [|split; [|split]]]]]].
  - rewrite isNearWhite_channels by assumption.
    rewrite !andb_true_iff, !N.ltb_lt. tauto.
  - rewrite filterWhitePaths_func_stroked by (apply hex_color_hex6; assumption).
    now rewrite isNearWhite_channels by assumption.
  - apply filter_document.
  - apply filter_passes_colorless.
  - intros wd svgPath w hgt paths F Hw Hh Hp. cbv zeta.
    unfold filterWhitePaths. rewrite F, (filter_document w hgt paths Hw Hh Hp).
    cbn [fst snd write_file set_disk set_files disk files index commands http_calls].
    split; [reflexivity|]. split; [apply lookup_insert_eq|].
    split; [|repeat split].
    intros path N. now apply lookup_insert_ne.
  - intros wd svgPath data F C path.
    unfold filterWhitePaths. rewrite F, (filter_passes_colorless data C).
    cbn [fst write_file set_disk set_files disk files].
    destruct (decide (svgPath = path)) as [<-|N].
    + now rewrite lookup_insert_eq.
    + now apply lookup_insert_ne.
  - intros wd write_err svgPath F. unfold filterWhitePaths. now rewrite F.
  - vm_compute. reflexivity.
Qed.

Lemma C4_filterWhitePaths_above_240_witness :
  (isNearWhite (hex_color false 254 254 254) = true <-> (240 < 254 /\ 240 < 254 /\ 240 < 254)%N) /\
  filterWhitePaths_func (Scenario.stroked_path (hex_color false 254 254 254) "M0 0L9 9")
    = EmptyString /\
  files (disk (fst (filterWhitePaths
                      (world_with_drawing "/data/uploads/1700000000000000000/output.svg"
                         Scenario.traced_document)
                      None "/data/uploads/1700000000000000000/output.svg")))
    !! "/data/uploads/1700000000000000000/output.svg"
  = Some (Scenario.svg_document "832" "832" [EmptyString; Scenario.black_path]).
Proof.
  destruct (C4_filterWhitePaths_above_240 false 254 254 254 "M0 0L9 9"
              eq_refl eq_refl eq_refl) as (H1 & H2 & _ & _ & H5 & _).
  split; [exact H1|]. split; [exact H2|].
  destruct (H5 (world_with_drawing "/data/uploads/1700000000000000000/output.svg"
                  Scenario.traced_document)
               "/data/uploads/1700000000000000000/output.svg" "832" "832"
               [("fefefe", "M0 0L832 0L832 832L0 832z"); ("000000", "M10 10L400 420")])
    as (_ & F & _).
  - vm_compute. reflexivity.
  - reflexivity.
  - reflexivity.
  - repeat constructor; cbn [fst]; unfold hex6;
      (eexists _, _, _, _, _, _; split; [reflexivity|]; repeat split; reflexivity).
  - rewrite F. vm_compute. reflexivity.
Defined.

(** C5: a lookup after a successful store returns what was stored. When
    [Store] succeeds, the result carries the media type and the prompt
    given, its file holds the blob, and the row sits under the composite
    key, the fingerprint, a colon and the truncated hash of the prompt. A
    [Lookup] for the same fingerprint and prompt right after it returns the
    stored result, and so does a [Lookup] on any later disk that still has
    that row and the blob file; a restart, which runs [NewAIImageCache] on
    the disk, leaves the disk as it is, and a store under another key
    leaves the row as it is. *)
Theorem C5_store_lookup_roundtrip (c : AIImageCache) (clk : Clock) (we ie : option string)
    (d d' : Disk) (inputHash prompt imageData mimeType : string) (r : CachedResult) :
  Store c clk we ie d inputHash prompt imageData mimeType = (d', Done r) ->
  (Filename r = cache_filename (substring 0 16 inputHash) (unixNano clk) (cache_ext mimeType) /\
   MimeType r = mimeType /\ Prompt r = prompt /\
   FullPath r = Filepath.Join (cacheDir c) (Filename r) /\
   files d' !! FullPath r = Some imageData) /\
  index_row d' (inputHash +:+ ":" +:+ hashString prompt)
    = Some (mkCacheRow inputHash prompt (Filename r) mimeType (current_timestamp clk)) /\
  Lookup c None d' inputHash prompt = (d', Done (Some r)) /\
  (forall d2 : Disk,
     index_row d2 (MakeCacheKey inputHash prompt) = index_row d' (MakeCacheKey inputHash prompt) ->
     is_Some (files d2 !! FullPath r) ->
     Lookup c None d2 inputHash prompt = (d2, Done (Some r))) /\
  (forall dbPath : string, NewAIImageCache d' dbPath (cacheDir c) = (d', Done c)) /\
  (forall (clk2 : Clock) (we2 ie2 : option string) (h2 p2 data2 mime2 : string),
     MakeCacheKey h2 p2 <> MakeCacheKey inputHash prompt ->
     index_row (fst (Store c clk2 we2 ie2 d' h2 p2 data2 mime2)) (MakeCacheKey inputHash prompt)
     = index_row d' (MakeCacheKey inputHash prompt)).
Proof.
  intros HS.
  destruct (Store_Done c _ _ _ _ _ _ _ _ _ _ HS) as (rows & filename & T & Hf & -> & ->).
  set (row := mkCacheRow inputHash prompt filename mimeType (current_timestamp clk)).
  set (path := Filepath.Join (cacheDir c) filename).
  assert (Hrow : forall files',
             index_row (set_rows (set_files d files') (<[MakeCacheKey inputHash prompt := row]> rows))
               (MakeCacheKey inputHash prompt) = Some row).
  { intros files'. unfold index_row. cbn. apply lookup_insert_eq. }
  assert (Hlater : forall d2, index_row d2 (MakeCacheKey inputHash prompt) = Some row ->
             is_Some (files d2 !! path) ->
             Lookup c None d2 inputHash prompt
             = (d2, Done (Some (mkCachedResult filename mimeType path prompt)))).
  { intros d2 H2 Hfile. now rewrite (Lookup_row c d2 _ _ row H2 Hfile). }
  cbn [MimeType Prompt FullPath Filename].
  repeat split.
  - exact Hf.
  - cbn. apply lookup_insert_eq.
  - apply Hrow.
  - apply Hlater; [apply Hrow | cbn; rewrite lookup_insert_eq; eauto].
  - intros d2 H2. rewrite Hrow in H2. now apply Hlater.
  - intros dbPath. unfold NewAIImageCache. cbn. destruct c. reflexivity.
  - intros. now apply Store_other_key.
Qed.

Lemma C5_store_lookup_roundtrip_witness :
  let c := mkAIImageCache "/data/ai_cache" in
  let stored := Store c Scenario.clock0 None None Scenario.disk0 Scenario.fingerprint
                      DefaultAIPrompt "PNG line art" "image/png" in
  let r := mkCachedResult "c9b4b9d43e814526_1700000000123456789.png" "image/png"
             "/data/ai_cache/c9b4b9d43e814526_1700000000123456789.png" DefaultAIPrompt in
  stored = (fst stored, Done r) /\
  Lookup c None (fst stored) Scenario.fingerprint DefaultAIPrompt = (fst stored, Done (Some r)).
Proof.
  cbv zeta.
  assert (E : Store (mkAIImageCache "/data/ai_cache") Scenario.clock0 None None Scenario.disk0
                Scenario.fingerprint DefaultAIPrompt "PNG line art" "image/png"
              = (fst (Store (mkAIImageCache "/data/ai_cache") Scenario.clock0 None None
                        Scenario.disk0 Scenario.fingerprint DefaultAIPrompt "PNG line art"
                        "image/png"),
                 Done (mkCachedResult "c9b4b9d43e814526_1700000000123456789.png" "image/png"
                         "/data/ai_cache/c9b4b9d43e814526_1700000000123456789.png"
                         DefaultAIPrompt)))
    by (vm_compute; reflexivity).
  split; [exact E|].
  exact (proj1 (proj2 (proj2 (C5_store_lookup_roundtrip _ _ _ _ _ _ _ _ _ _ _ E)))).
Defined.

(** C6: the cache heals itself. When the index has a row for the key and
    the blob file it names is missing, [Lookup] reports absent, the row is
    gone from the index, the other rows and the files are as before, and a
    second lookup reports absent again. *)
Theorem C6_lookup_self_heals (c : AIImageCache) (d : Disk) (inputHash prompt : string)
    (row : CacheRow) :
  index_row d (MakeCacheKey inputHash prompt) = Some row ->
  files d !! Filepath.Join (cacheDir c) (col_output_filename row) = None ->
  exists d' : Disk,
    Lookup c None d inputHash prompt = (d', Done None) /\
    index_row d' (MakeCacheKey inputHash prompt) = None /\
    (forall key, key <> MakeCacheKey inputHash prompt -> index_row d' key = index_row d key) /\
    files d' = files d /\
    Lookup c None d' inputHash prompt = (d', Done None).
Proof.
  unfold index_row. intros Hrow Hfile.
  destruct (ai_image_cache (index d)) as [[rows|]|] eqn:T; try discriminate.
  exists (set_rows d (delete (MakeCacheKey inputHash prompt) rows)).
  unfold Lookup. rewrite T, Hrow, Hfile. cbn.
  rewrite lookup_delete_eq. repeat split.
  intros key Hne. now rewrite lookup_delete_ne.
Qed.

Lemma C6_lookup_self_heals_witness :
  exists d' : Disk,
    Lookup (mkAIImageCache "/data/ai_cache") None Scenario.stale_disk
           Scenario.fingerprint DefaultAIPrompt = (d', Done None) /\
    index_row d' (MakeCacheKey Scenario.fingerprint DefaultAIPrompt) = None.
Proof.
  destruct (C6_lookup_self_heals (mkAIImageCache "/data/ai_cache") Scenario.stale_disk
              Scenario.fingerprint DefaultAIPrompt Scenario.stale_row)
    as (d' & H1 & H2 & _).
  - vm_compute. reflexivity.
  - vm_compute. reflexivity.
  - exists d'. split; assumption.
Defined.

(** C7: a store whose index write fails leaves nothing behind. When the
    blob is written and the [INSERT] then fails, [Store] returns the
    error, the file it wrote is gone, every file on the disk was there
    before with the same contents, the files are exactly those of before
    when the name was fresh, and the index is unchanged. *)
Theorem C7_store_cleans_up (c : AIImageCache) (clk : Clock) (d : Disk)
    (inputHash prompt imageData mimeType cause : string) :
  (16 <= String.length inputHash)%nat ->
  let filename := cache_filename (substring 0 16 inputHash) (unixNano clk) (cache_ext mimeType) in
  let fullPath := Filepath.Join (cacheDir c) filename in
  let d' := fst (Store c clk None (Some cause) d inputHash prompt imageData mimeType) in
  snd (Store c clk None (Some cause) d inputHash prompt imageData mimeType)
    = Fail ("insert cache record: " +:+ cause) /\
  files d' !! fullPath = None /\
  files d' ⊆ files d /\
  (files d !! fullPath = None -> files d' = files d) /\
  index d' = index d.
Proof.
  intros Hlen. cbv zeta. unfold Store, Text.slice_to.
  destruct (16 <=? String.length inputHash)%nat eqn:E; [|apply Nat.leb_gt in E; lia].
  cbn [fst snd files set_files index]. repeat split.
  - apply lookup_delete_eq.
  - rewrite delete_insert_eq. apply delete_subseteq.
  - intros Hnone. rewrite delete_insert_eq. now apply delete_id.
Qed.

Lemma C7_store_cleans_up_witness :
  let failed := Store (mkAIImageCache "/data/ai_cache") Scenario.clock0 None
                      (Some "database is locked") Scenario.disk0 Scenario.fingerprint
                      DefaultAIPrompt "PNG line art" "image/png" in
  snd failed = Fail "insert cache record: database is locked" /\
  files (fst failed) ⊆ files Scenario.disk0 /\
  index (fst failed) = index Scenario.disk0.
Proof.
  destruct (C7_store_cleans_up (mkAIImageCache "/data/ai_cache") Scenario.clock0 Scenario.disk0
              Scenario.fingerprint DefaultAIPrompt "PNG line art" "image/png"
              "database is locked") as (H1 & _ & H3 & _ & H5).
  - vm_compute. lia.
  - cbv zeta. repeat split; assumption.
Defined.

(** C8: the migration of a legacy index. For a database whose only table
    is the legacy one, with any rows keyed by the fingerprint,
    [NewAIImageCache] succeeds and leaves one table of the current schema
    and no legacy table. The new table has as many rows as the legacy one;
    each legacy row is found under its fingerprint, a colon and the
    truncated hash of the default prompt, with the default prompt and its
    old file name, media type and creation time; and every row of the new
    table comes from a legacy row in this way. The truncated hash is the
    first 16 characters of the hexadecimal SHA-256 of the prompt. *)
Theorem C8_migration (legacy : gmap string LegacyRow) (fs : gmap string string)
    (dbPath dir : string) :
  exists rows : gmap string CacheRow,
    NewAIImageCache (mkDisk fs (mkDatabase (Some (LegacySchema legacy)) None)) dbPath dir
      = (mkDisk fs (mkDatabase (Some (CurrentSchema rows)) None), Done (mkAIImageCache dir)) /\
    size rows = size legacy /\
    (forall h old, legacy !! h = Some old ->
       rows !! MakeCacheKey h DefaultAIPrompt
         = Some (mkCacheRow h DefaultAIPrompt (legacy_output_filename old)
                            (legacy_mime_type old) (legacy_created_at old))) /\
    (forall k row, rows !! k = Some row ->
       col_prompt row = DefaultAIPrompt /\
       k = col_input_hash row +:+ ":" +:+
           substring 0 16 (Sha256.EncodeToString (Sha256.Sum256 DefaultAIPrompt)) /\
       is_Some (legacy !! col_input_hash row)).
Proof.
  exists (migrated legacy). split; [|split; [|split]].
  - unfold NewAIImageCache. cbn [Sql.create_if_not_exists index ai_image_cache].
    rewrite migrateOldSchema_legacy. reflexivity.
  - apply migrated_size.
  - intros h old Hl. apply migrated_lookup. exists h, old. auto.
  - intros k row H. apply migrated_lookup in H as (h & old & Hl & -> & ->).
    cbn. repeat split. eauto.
Qed.

(** C9: an AI-enabled job without a credential stops on a cache miss and
    goes on at a cache hit. When the fingerprint of the input is computed
    and the lookup finds nothing or fails, [processJob] with an empty
    credential returns with status [error]; the log ends with the line
    that names the missing API key, after the lines of the AI stage; no
    request has been sent to the service, no command has been run and no
    artifact path is set. When the lookup finds a result, [processJob]
    returns the same outcome for every credential as for the empty one,
    the job records the cached image, no request is sent, and the pipeline
    goes on: the tracer is run on the cached file; when it fails nothing
    else is run and the status is [error]; when it succeeds the generator
    is run after it, and the status is [done], with the artifact path
    set, when the generator succeeds and [error] when it fails. *)
Theorem C9_missing_credential (s : Server) (o : Oracle) (w : World) (job : Job)
    (jobDir inputPath aiPrompt inputHash : string) :
  UseAI job = true ->
  HashFile (disk w) inputPath = Done inputHash ->
  ((forall c, snd (Lookup (AICache s) (lookup_query_err o) (disk w) inputHash aiPrompt)
              <> Done (Some c)) ->
   exists (w' : World) (job' : Job) (lookup_err : option string),
     processJob s o w job jobDir inputPath EmptyString aiPrompt = Finished w' job' /\
     Status job' = "error" /\
     Log job' = missing_credential_log job inputHash lookup_err /\
     GCodePath job' = GCodePath job /\
     http_calls w' = http_calls w /\
     commands w' = commands w) /\
  (forall c, snd (Lookup (AICache s) (lookup_query_err o) (disk w) inputHash aiPrompt)
             = Done (Some c) ->
   forall apiKey : string,
     processJob s o w job jobDir inputPath apiKey aiPrompt
     = processJob s o w job jobDir inputPath EmptyString aiPrompt /\
     exists (w' : World) (job' : Job) (rest : list (list string)),
       processJob s o w job jobDir inputPath apiKey aiPrompt = Finished w' job' /\
       AIImageCached job' = true /\ AIImageFilename job' = Filename c /\
       http_calls w' = http_calls w /\
       commands w'
       = commands w ++ autotrace_argv (Filepath.Join jobDir "output.svg") (FullPath c) :: rest /\
       (proc_err (autotrace o) <> None -> rest = [] /\ Status job' = "error") /\
       (proc_err (autotrace o) = None ->
        (exists dpiArg : string,
           rest = [["svg2gcode"; "--on"; ToolOn job; "--off"; ToolOff job; "--dpi"; dpiArg;
                    Filepath.Join jobDir "output.svg"; "-o";
                    Filepath.Join jobDir "output.gcode"]]) /\
        (proc_err (svg2gcode o) = None ->
         Status job' = "done" /\ GCodePath job' = Filepath.Join jobDir "output.gcode") /\
        (proc_err (svg2gcode o) <> None -> Status job' = "error"))).
Proof.
  intros HAI HH. split.
  - intros Hmiss. unfold processJob. rewrite HAI. unfold ai_stage.
    rewrite HH, (slice_to_hash _ _ _ HH).
    pose proof (Lookup_never_panics (AICache s) (lookup_query_err o) (disk w) inputHash aiPrompt)
      as NP.
    destruct (Lookup (AICache s) (lookup_query_err o) (disk w) inputHash aiPrompt) as [d1 looked].
    cbn [snd] in *.
    destruct looked as [[c|]|e|]; [exfalso; eapply Hmiss; reflexivity | | | congruence].
    + eexists _, _, None. repeat split. unfold missing_credential_log.
      cbn [Log set_Status log_write]. now rewrite !app_assoc'.
    + eexists _, _, (Some e). repeat split. unfold missing_credential_log.
      cbn [Log set_Status log_write]. now rewrite !app_assoc'.
  - intros c Hhit apiKey. unfold processJob. rewrite HAI. unfold ai_stage.
    rewrite HH, (slice_to_hash _ _ _ HH).
    destruct (Lookup (AICache s) (lookup_query_err o) (disk w) inputHash aiPrompt) as [d1 looked].
    cbn [snd] in Hhit. subst looked. split; [reflexivity|].
    cbv beta iota zeta.
    match goal with |- context [convert_stages o ?w1 ?j1 ?p1 ?p2 ?p3] =>
      pose proof (convert_stages_commands o w1 j1 p1 p2 p3) as CC;
      pose proof (convert_stages_status o w1 j1 p1 p2 p3) as ST;
      destruct (convert_stages_AIImage o w1 j1 p1 p2 p3) as [A1 A2];
      pose proof (convert_stages_http o w1 j1 p1 p2 p3) as HT;
      cbv zeta in CC, ST;
      set (cv := convert_stages o w1 j1 p1 p2 p3) in *
    end.
    cbn [commands set_disk ToolOn ToolOff log_write set_AIImage] in CC.
    destruct CC as [[A E]|[A [dpiArg E]]].
    + eexists _, _, []. split; [reflexivity|]. cbn [fst snd].
      split; [exact A1|]. split; [exact A2|]. split; [exact HT|]. split; [exact E|].
      split; [|intros X; congruence].
      intros _. split; [reflexivity|].
      destruct ST as [(_ & _ & X & _)|(S1 & _)]; [congruence | exact S1].
    + eexists _, _, [_]. split; [reflexivity|]. cbn [fst snd].
      split; [exact A1|]. split; [exact A2|]. split; [exact HT|]. split; [exact E|].
      split; [intros X; congruence|].
      intros _. split; [exists dpiArg; reflexivity|]. split.
      * intros G. destruct ST as [(S1 & S2 & _)|(_ & _ & [X|X])]; [auto|congruence|congruence].
      * intros G. destruct ST as [(_ & _ & _ & X)|(S1 & _)]; [congruence | exact S1].
Qed.

Lemma C9_missing_credential_witness :
  (exists (w' : World) (job' : Job),
     Scenario.run_with_key EmptyString = Finished w' job' /\
     Status job' = "error" /\
     Log job'
     = "=== Running AI Image Transformation ===" +:+ Text.NL
       +:+ "Input image hash: c9b4b9d43e814526" +:+ Text.NL
       +:+ "Cache MISS - calling Gemini API..." +:+ Text.NL
       +:+ "Error: AI transformation enabled but no API key provided" +:+ Text.NL /\
     http_calls w' = []) /\
  (exists (w' : World) (job' : Job) (dpiArg : string),
     processJob Scenario.server (Scenario.oracle_for Scenario.traced_document Scenario.offline)
                cached_world (Scenario.job0 true) Scenario.jobDir Scenario.inputPath
                EmptyString DefaultAIPrompt
     = Finished w' job' /\
     Status job' = "done" /\
     http_calls w' = [] /\
     commands w'
     = [autotrace_argv "/data/uploads/1700000000000000000/output.svg"
          "/data/ai_cache/5f3e7a2b9c1d4e60_1700000000123456789.png";
        ["svg2gcode"; "--on"; "S4 M0"; "--off"; "S4 M100"; "--dpi"; dpiArg;
         "/data/uploads/1700000000000000000/output.svg"; "-o";
         "/data/uploads/1700000000000000000/output.gcode"]]).
Proof.
  split.
  - destruct (C9_missing_credential Scenario.server
                (Scenario.oracle_for Scenario.traced_document Scenario.offline)
                Scenario.world0 (Scenario.job0 true) Scenario.jobDir Scenario.inputPath
                DefaultAIPrompt
                (Sha256.EncodeToString (Sha256.Sum256 "PNG image bytes")) eq_refl)
      as [Hmiss _].
    + vm_compute. reflexivity.
    + destruct Hmiss as (w' & job' & le & E & St & Lg & _ & Hc & _).
      * intros c. vm_compute. discriminate.
      * exists w', job'. repeat split; [exact E | exact St | | exact Hc].
        unfold Scenario.run_with_key in *. revert Lg E. vm_compute.
        intros Lg E. injection E as <- <-. reflexivity.
  - destruct (C9_missing_credential Scenario.server
                (Scenario.oracle_for Scenario.traced_document Scenario.offline)
                cached_world (Scenario.job0 true) Scenario.jobDir Scenario.inputPath
                DefaultAIPrompt
                (Sha256.EncodeToString (Sha256.Sum256 "PNG image bytes")) eq_refl)
      as [_ Hhit].
    + vm_compute. reflexivity.
    + destruct (Hhit cached_result) with (apiKey := EmptyString)
        as (_ & w' & job' & rest & E & _ & _ & Hc & C & _ & Go).
      * vm_compute. reflexivity.
      * destruct (Go eq_refl) as ((dpiArg & R) & Done & _).
        destruct (Done eq_refl) as (St & _).
        exists w', job', dpiArg. split; [exact E|]. split; [exact St|]. split; [exact Hc|].
        rewrite C, R. reflexivity.
Defined.

(** C10, as stated, fails: a document that declares a height of 1 followed
    by 400 zeros has positive dimensions, 832 and [+Inf]; for the positive
    maximum dimensions 50 and 50 the fitted width, the divisor of the
    resolution, is zero; the division gives [+Inf], and the generator is
    run with [--dpi +Inf]. *)
Lemma C10_divisor_can_be_zero :
  let dims := getSVGDimensions (Some Scenario.tall_document) in
  let box := F64.const "50" in
  let fittedWidth := fst (scaleToFit (fst dims) (snd dims) box box) in
  F64.ltb F64.zero box = true /\
  dims = (F64.const "832", F64.pinf) /\
  F64.ltb F64.zero (fst dims) = true /\ F64.ltb F64.zero (snd dims) = true /\
  fittedWidth = F64.zero /\
  F64.div (fst dims) fittedWidth = F64.pinf /\
  Scenario.dpi_argument (Scenario.run_plain Scenario.tall_document) = "+Inf".
Proof. vm_compute. repeat split. Qed.

(** C10, amended: for every input file, [getSVGDimensions] returns a width
    and a height that compare above zero: 100 for an unreadable file, for
    an attribute that is missing and for one whose text is unparsable or
    parses to 0, and otherwise the parsed value, which is [+Inf] when the
    declared number is too large for float64. So in the pipeline the
    branch of [scaleToFit] for a non-positive source is not taken. In exact
    arithmetic the fitted width, the divisor of the resolution, is positive
    for positive source and maximum dimensions. In float64, for every file
    and all maxima above zero: when the width is finite the divisor is
    [+0], positive or [+Inf], never negative or NaN, and so is the
    resolution; when the divisor is zero the resolution is [+Inf]; the
    divisor is zero when the height is [+Inf] and the maximum height
    finite; when the width is [+Inf] the divisor and the resolution are
    NaN. The generator is then run with [--dpi +Inf] or [--dpi NaN]: a
    document that declares a width of 1 followed by 400 zeros gives
    [--dpi NaN]. *)
Theorem C10_dimensions_positive (file : option string) :
  let dims := getSVGDimensions file in
  (F64.ltb F64.zero (fst dims) = true /\ F64.ltb F64.zero (snd dims) = true) /\
  (forall maxW maxH : F64.float64,
     scaleToFit (fst dims) (snd dims) maxW maxH
     = let scale := if F64.ltb (F64.div maxH (snd dims)) (F64.div maxW (fst dims))
                    then F64.div maxH (snd dims) else F64.div maxW (fst dims) in
       (F64.mul (fst dims) scale, F64.mul (snd dims) scale)) /\
  (file = None -> dims = (F64.const "100", F64.const "100")) /\
  (forall data : string, file = Some data ->
     (Regexp.FindSubmatch widthRe data = None -> fst dims = F64.const "100") /\
     (Regexp.FindSubmatch heightRe data = None -> snd dims = F64.const "100") /\
     (forall m, Regexp.FindSubmatch widthRe data = Some m ->
        F64.eqb (fst (F64.ParseFloat (nth 1 m EmptyString))) F64.zero = true ->
        fst dims = F64.const "100") /\
     (forall m, Regexp.FindSubmatch heightRe data = Some m ->
        F64.eqb (fst (F64.ParseFloat (nth 1 m EmptyString))) F64.zero = true ->
        snd dims = F64.const "100") /\
     (forall m, Regexp.FindSubmatch widthRe data = Some m ->
        F64.eqb (fst (F64.ParseFloat (nth 1 m EmptyString))) F64.zero = false ->
        fst dims = fst (F64.ParseFloat (nth 1 m EmptyString))) /\
     (forall m, Regexp.FindSubmatch heightRe data = Some m ->
        F64.eqb (fst (F64.ParseFloat (nth 1 m EmptyString))) F64.zero = false ->
        snd dims = fst (F64.ParseFloat (nth 1 m EmptyString)))) /\
  (forall srcW srcH maxW maxH : Q,
     (0 < srcW)%Q -> (0 < srcH)%Q -> (0 < maxW)%Q -> (0 < maxH)%Q ->
     (0 < fst (scaleToFit srcW srcH maxW maxH))%Q) /\
  (forall maxW maxH : F64.float64,
     F64.ltb F64.zero maxW = true -> F64.ltb F64.zero maxH = true ->
     let scaledWidth := fst (scaleToFit (fst dims) (snd dims) maxW maxH) in
     let dpi := dpi_of (fst dims) scaledWidth in
     (F64.ltb (fst dims) F64.pinf = true ->
      nonneg scaledWidth /\ nonneg dpi /\
      (scaledWidth = F64.zero -> dpi = F64.pinf) /\
      (snd dims = F64.pinf -> F64.ltb maxH F64.pinf = true -> scaledWidth = F64.zero)) /\
     (fst dims = F64.pinf -> scaledWidth = f64_NaN /\ dpi = f64_NaN)) /\
  F64.FormatFloat 4 F64.pinf = "+Inf" /\ F64.FormatFloat 4 f64_NaN = "NaN" /\
  getSVGDimensions (Some wide_document) = (F64.pinf, F64.const "832") /\
  Scenario.dpi_argument (Scenario.run_plain wide_document) = "NaN".
Proof.
  cbv zeta. destruct (getSVGDimensions_positive file) as [PW PH].
  split; [split; assumption|]. split; [|split; [|split; [|split; [|split]]]].
  - intros maxW maxH.
    apply (@scaleToFit_scaled _ float64_arith); apply positive_not_leb; assumption.
  - intros ->. reflexivity.
  - intros data ->. unfold getSVGDimensions. cbn [fst snd].
    repeat split.
    + intros ->. reflexivity.
    + intros ->. reflexivity.
    + intros m -> ->. reflexivity.
    + intros m -> ->. reflexivity.
    + intros m -> ->. reflexivity.
    + intros m -> ->. reflexivity.
  - intros srcW srcH maxW maxH HW HH HmW HmH.
    apply (scaleToFit_Q_nonzero srcW srcH maxW maxH HW HH HmW HmH).
  - intros maxW maxH PmW PmH. split.
    + intros FW.
      destruct (scaleToFit_divisor_nonneg _ _ maxW maxH PW FW PH PmW PmH) as [D R].
      split; [exact D|]. split; [exact R|]. split.
      * intros ->. now apply dpi_of_zero_divisor.
      * intros E FmH. rewrite E.
        apply (scaleToFit_divisor_zero _ maxW maxH PW FW PmW PmH FmH).
    + intros E. rewrite E. apply scaleToFit_divisor_nan; assumption.
  - repeat split; vm_compute; reflexivity.
Qed.

(* ===================================================================== *)
(** * Further properties of the result cache *)
(* ===================================================================== *)


(** X1: [hashString] gives 16 digits of lower-case hexadecimal for every
    text: the first 16 of the 64 digits that encode its SHA-256 digest. *)
Theorem X1_hashString_shape (s : string) :
  String.length (hashString s) = 16%nat /\
  all_chars lower_hex (hashString s) = true /\
  String.length (Sha256.EncodeToString (Sha256.Sum256 s)) = 64%nat /\
  String.prefix (hashString s) (Sha256.EncodeToString (Sha256.Sum256 s)) = true.
Proof.
  split; [apply hashString_length|]. split; [|split].
  - apply all_chars_prefix, EncodeToString_lower, Sum256_small.
  - now rewrite length_EncodeToString, length_Sum256.
  - apply prefix_substring.
Qed.

Lemma MakeCacheKey_eq (h h' p p' : string) :
  MakeCacheKey h p = MakeCacheKey h' p' -> h = h' /\ hashString p = hashString p'.
Proof.
  unfold MakeCacheKey.
  assert (L : String.length (hashString p) = String.length (hashString p'))
    by now rewrite !hashString_length.
  revert L. generalize (hashString p) (hashString p'). intros x x' L E.
  destruct (app_inj_length h h' (":" +:+ x) (":" +:+ x')) as [-> E'].
  - rewrite !string_length_app, L. reflexivity.
  - exact E.
  - split; [reflexivity|]. rewrite !app_cons, !app_nil_l in E'. now injection E'.
Qed.

(** X2: [MakeCacheKey] is injective in the fingerprint and in the truncated
    hash of the prompt: two pairs get the same key exactly when their
    fingerprints are equal and their prompts have the same truncated hash,
    whatever characters the fingerprints contain. *)
Theorem X2_MakeCacheKey_injective (h h' p p' : string) :
  MakeCacheKey h p = MakeCacheKey h' p' <-> h = h' /\ hashString p = hashString p'.
Proof.
  split.
  - apply MakeCacheKey_eq.
  - intros [-> E]. unfold MakeCacheKey. now rewrite E.
Qed.

(** X3: [Store] panics exactly when the fingerprint has fewer than 16
    bytes (the slice [inputHash[:16]]), and then before it has written
    anything; with a fingerprint that [HashFile] returned it never
    panics. *)
Theorem X3_Store_panics_on_short_fingerprint (c : AIImageCache) (clk : Clock)
    (we ie : option string) (d : Disk) (h p data m : string) :
  (snd (Store c clk we ie d h p data m) = Panics <-> (String.length h < 16)%nat) /\
  (snd (Store c clk we ie d h p data m) = Panics -> fst (Store c clk we ie d h p data m) = d) /\
  (forall (d0 : Disk) (path : string),
     HashFile d0 path = Done h -> snd (Store c clk we ie d h p data m) <> Panics).
Proof.
  split; [apply Store_Panics_iff|]. split.
  - intros H. apply Store_Panics_iff in H. unfold Store, Text.slice_to.
    destruct (Nat.leb_spec 16 (String.length h)); [lia | reflexivity].
  - intros d0 path H E. apply Store_Panics_iff in E.
    rewrite (HashFile_length _ _ _ H) in E. lia.
Qed.

(** X4: the fingerprint that [HashFile] returns. When [HashFile] returns a
    fingerprint, the file exists and the fingerprint has 64 digits of
    lower-case hexadecimal, its first 16 digits are [hashString] of the
    contents, and every fingerprint returned for a file with the same
    contents, at any path of any disk, is the same. On a missing file
    [HashFile] fails with the error of opening it. It never panics. *)
Theorem X4_HashFile_fingerprint (d : Disk) (path : string) :
  (files d !! path = None -> HashFile d path = Fail (not_exist_error "open" path)) /\
  HashFile d path <> Panics /\
  (forall h : string, HashFile d path = Done h ->
     exists data : string,
       files d !! path = Some data /\
       String.length h = 64%nat /\ all_chars lower_hex h = true /\
       Text.slice_to 16 h = Some (hashString data) /\
       (forall (d' : Disk) (path' h' : string),
          files d' !! path' = Some data -> HashFile d' path' = Done h' -> h' = h)).
Proof.
  unfold HashFile. destruct (files d !! path) as [data|] eqn:F.
  - split; [discriminate|]. split; [discriminate|].
    intros h E. assert (h = Sha256.EncodeToString (Sha256.Sum256 data)) as -> by congruence.
    clear E. exists data. split; [reflexivity|]. split; [|split; [|split]].
    + now rewrite length_EncodeToString, length_Sum256.
    + apply EncodeToString_lower, Sum256_small.
    + unfold Text.slice_to. now rewrite length_EncodeToString, length_Sum256.
    + intros d' path' h' F' E'. unfold HashFile in E'. rewrite F' in E'. congruence.
  - split; [reflexivity|]. split; discriminate.
Qed.

(** X5: a second [Store] under the same fingerprint and prompt replaces the
    row: the index then names the second file and a [Lookup] returns the
    second result; rows under other keys are as before the two stores.
    The first file is not removed: when the two file names differ it is
    still on the disk, with its contents; when they are equal it has been
    overwritten. *)
Theorem X5_Store_replaces (c : AIImageCache) (clk1 clk2 : Clock)
    (we1 ie1 we2 ie2 : option string) (d d1 d2 : Disk)
    (h p data1 data2 m1 m2 : string) (r1 r2 : CachedResult) :
  Store c clk1 we1 ie1 d h p data1 m1 = (d1, Done r1) ->
  Store c clk2 we2 ie2 d1 h p data2 m2 = (d2, Done r2) ->
  index_row d2 (MakeCacheKey h p)
    = Some (mkCacheRow h p (Filename r2) m2 (current_timestamp clk2)) /\
  Lookup c None d2 h p = (d2, Done (Some r2)) /\
  (forall k : string, k <> MakeCacheKey h p -> index_row d2 k = index_row d k) /\
  (FullPath r1 <> FullPath r2 -> files d2 !! FullPath r1 = Some data1) /\
  (FullPath r1 = FullPath r2 -> files d2 !! FullPath r1 = Some data2) /\
  files d2 !! FullPath r2 = Some data2.
Proof.
  intros S1 S2.
  pose proof (Store_other_key c clk1 we1 ie1 d h p data1 m1) as O1.
  pose proof (Store_other_key c clk2 we2 ie2 d1 h p data2 m2) as O2.
  rewrite S1 in O1. rewrite S2 in O2. cbn [fst] in O1, O2.
  destruct (Store_Done c _ _ _ _ _ _ _ _ _ _ S1) as (rows1 & f1 & T1 & Hf1 & -> & ->).
  destruct (Store_Done c _ _ _ _ _ _ _ _ _ _ S2) as (rows2 & f2 & T2 & Hf2 & -> & ->).
  cbn [FullPath Filename] in *.
  assert (R : index_row
                (set_rows (set_files
                   (set_rows (set_files d (<[Filepath.Join (cacheDir c) f1 := data1]> (files d)))
                      (<[MakeCacheKey h p := mkCacheRow h p f1 m1 (current_timestamp clk1)]> rows1))
                   (<[Filepath.Join (cacheDir c) f2 := data2]>
                      (files (set_rows (set_files d (<[Filepath.Join (cacheDir c) f1 := data1]> (files d)))
                         (<[MakeCacheKey h p := mkCacheRow h p f1 m1 (current_timestamp clk1)]> rows1)))))
                   (<[MakeCacheKey h p := mkCacheRow h p f2 m2 (current_timestamp clk2)]> rows2))
                (MakeCacheKey h p)
              = Some (mkCacheRow h p f2 m2 (current_timestamp clk2))).
  { unfold index_row. cbn. apply lookup_insert_eq. }
  split; [exact R|]. split; [|split; [|split; [|split]]].
  - rewrite (Lookup_row c _ _ _ _ R); [reflexivity|].
    cbn. rewrite lookup_insert_eq. eauto.
  - intros k Hk. rewrite O2, O1 by congruence. reflexivity.
  - intros Hne. cbn. rewrite lookup_insert_ne by congruence. apply lookup_insert_eq.
  - intros ->. cbn. apply lookup_insert_eq.
  - cbn. apply lookup_insert_eq.
Qed.

Lemma X5_Store_replaces_witness :
  let c := mkAIImageCache "/data/ai_cache" in
  let clk2 := mkClock 1700000000999999999 "2023-11-14 22:13:21" in
  let s1 := Store c Scenario.clock0 None None Scenario.disk0 Scenario.fingerprint
                  DefaultAIPrompt "first image" "image/png" in
  let s2 := Store c clk2 None None (fst s1) Scenario.fingerprint
                  DefaultAIPrompt "second image" "image/png" in
  files (fst s2) !! "/data/ai_cache/c9b4b9d43e814526_1700000000123456789.png"
    = Some "first image" /\
  files (fst s2) !! "/data/ai_cache/c9b4b9d43e814526_1700000000999999999.png"
    = Some "second image".
Proof.
  cbv zeta.
  destruct (X5_Store_replaces (mkAIImageCache "/data/ai_cache") Scenario.clock0
              (mkClock 1700000000999999999 "2023-11-14 22:13:21") None None None None
              Scenario.disk0
              (fst (Store (mkAIImageCache "/data/ai_cache") Scenario.clock0 None None
                      Scenario.disk0 Scenario.fingerprint DefaultAIPrompt "first image" "image/png"))
              (fst (Store (mkAIImageCache "/data/ai_cache")
                      (mkClock 1700000000999999999 "2023-11-14 22:13:21") None None
                      (fst (Store (mkAIImageCache "/data/ai_cache") Scenario.clock0 None None
                              Scenario.disk0 Scenario.fingerprint DefaultAIPrompt "first image"
                              "image/png"))
                      Scenario.fingerprint DefaultAIPrompt "second image" "image/png"))
              Scenario.fingerprint DefaultAIPrompt "first image" "second image"
              "image/png" "image/png"
              (mkCachedResult "c9b4b9d43e814526_1700000000123456789.png" "image/png"
                 "/data/ai_cache/c9b4b9d43e814526_1700000000123456789.png" DefaultAIPrompt)
              (mkCachedResult "c9b4b9d43e814526_1700000000999999999.png" "image/png"
                 "/data/ai_cache/c9b4b9d43e814526_1700000000999999999.png" DefaultAIPrompt)
              eq_refl eq_refl) as (_ & _ & _ & H1 & _ & H2).
  split; [apply H1; discriminate | exact H2].
Defined.

(** X6: [Lookup] never creates, changes or removes a file and never touches
    the table [ai_image_cache_old] or a row under another key. It changes
    the disk in one case only: the row of the key exists and its file is
    missing; then the row is gone afterwards and the result is the pair of
    nils. A query error leaves the disk as it is. *)
Theorem X6_Lookup_frame (c : AIImageCache) (qe : option string) (d : Disk) (h p : string) :
  let d' := fst (Lookup c qe d h p) in
  files d' = files d /\
  ai_image_cache_old (index d') = ai_image_cache_old (index d) /\
  (forall k : string, k <> MakeCacheKey h p -> index_row d' k = index_row d k) /\
  (d' <> d ->
   snd (Lookup c qe d h p) = Done None /\ qe = None /\
   index_row d' (MakeCacheKey h p) = None /\
   exists row : CacheRow,
     index_row d (MakeCacheKey h p) = Some row /\
     files d !! Filepath.Join (cacheDir c) (col_output_filename row) = None).
Proof.
  cbv zeta. destruct (Lookup_cases c qe d h p) as [[E _]|(rows & row & T & R & F & E)].
  - rewrite E. split; [reflexivity|]. split; [reflexivity|]. split; [reflexivity|].
    intros Hne. now destruct Hne.
  - rewrite E. cbn [fst snd]. split; [reflexivity|]. split; [reflexivity|].
    split; [|intros _; split; [|split; [|split]]].
    + intros k Hk. unfold index_row. cbn. rewrite T. now apply lookup_delete_ne.
    + reflexivity.
    + destruct qe; [|reflexivity]. discriminate E.
    + unfold index_row. cbn. apply lookup_delete_eq.
    + exists row. unfold index_row. rewrite T. now split.
Qed.

Lemma Lookup_hit_inv (c : AIImageCache) (d d' : Disk) (h p : string) (r : CachedResult) :
  Lookup c None d h p = (d', Done (Some r)) ->
  d' = d /\
  exists row : CacheRow,
    index_row d (MakeCacheKey h p) = Some row /\
    r = mkCachedResult (col_output_filename row) (col_mime_type row)
          (Filepath.Join (cacheDir c) (col_output_filename row)) (col_prompt row) /\
    is_Some (files d !! Filepath.Join (cacheDir c) (col_output_filename row)).
Proof.
  unfold Lookup, index_row.
  destruct (ai_image_cache (index d)) as [[rows|]|]; try discriminate.
  destruct (rows !! MakeCacheKey h p) as [row|]; [|discriminate].
  destruct (files d !! _) as [data|] eqn:F; [|discriminate].
  intros E. split; [congruence|]. exists row. split; [reflexivity|].
  split; [congruence | eauto].
Qed.

(** X7: a [Lookup] hit is sound and complete. Without a query error it
    returns a result exactly when the index has a row under the key and the
    file that the row names exists in the cache directory; the result
    carries the file name, media type and prompt of that row, its path is
    the cache directory joined with the file name, and the disk is
    unchanged. *)
Theorem X7_Lookup_hit_iff (c : AIImageCache) (d d' : Disk) (h p : string) (r : CachedResult) :
  Lookup c None d h p = (d', Done (Some r)) <->
  d' = d /\
  exists row : CacheRow,
    index_row d (MakeCacheKey h p) = Some row /\
    r = mkCachedResult (col_output_filename row) (col_mime_type row)
          (Filepath.Join (cacheDir c) (col_output_filename row)) (col_prompt row) /\
    is_Some (files d !! Filepath.Join (cacheDir c) (col_output_filename row)).
Proof.
  split.
  - apply Lookup_hit_inv.
  - intros (-> & row & R & -> & F). now apply Lookup_row.
Qed.

Section Restart.

Lemma migrateOldSchema_current (db : Database) :
  (forall legacy, ai_image_cache db <> Some (LegacySchema legacy)) ->
  migrateOldSchema db = (db, None).
Proof.
  intros H. unfold migrateOldSchema, Sql.count_legacy_pk.
  destruct (ai_image_cache db) as [[rows|legacy]|]; try reflexivity.
  now destruct (H legacy).
Qed.

Lemma migrateOldSchema_result (db db' : Database) :
  migrateOldSchema db = (db', None) ->
  (forall legacy, ai_image_cache db <> Some (LegacySchema legacy)) /\ db' = db \/
  exists legacy rows,
    db = mkDatabase (Some (LegacySchema legacy)) None /\
    db' = mkDatabase (Some (CurrentSchema rows)) None.
Proof.
  unfold migrateOldSchema, Sql.count_legacy_pk.
  destruct db as [[[rows|legacy]|] old]; cbn [ai_image_cache Z.eqb].
  - intros E. left. split; [discriminate | congruence].
  - cbn [Sql.rename_to_old ai_image_cache ai_image_cache_old].
    destruct old as [t|]; [discriminate|].
    cbn [Sql.create Sql.insert_select ai_image_cache ai_image_cache_old].
    destruct (Sql.insert_rows _ _) as [rows'|e]; [|discriminate].
    cbn [Sql.drop_old ai_image_cache ai_image_cache_old].
    intros E. right. exists legacy, rows'. split; [reflexivity | congruence].
  - intros E. left. split; [discriminate | congruence].
Qed.

End Restart.

(** X8: a successful [NewAIImageCache] is idempotent. It leaves every file
    as it was and a table of the current schema; run again on the disk it
    left, it succeeds and changes nothing; and a database whose table
    already has the current schema is not changed at all. *)
Theorem X8_NewAIImageCache_idempotent (d d1 : Disk) (dbPath dir : string) (c : AIImageCache) :
  NewAIImageCache d dbPath dir = (d1, Done c) ->
  c = mkAIImageCache dir /\
  files d1 = files d /\
  (exists rows, ai_image_cache (index d1) = Some (CurrentSchema rows)) /\
  (forall dbPath' dir', NewAIImageCache d1 dbPath' dir' = (d1, Done (mkAIImageCache dir'))) /\
  (forall rows, ai_image_cache (index d) = Some (CurrentSchema rows) -> d1 = d).
Proof.
  unfold NewAIImageCache at 1.
  destruct (Sql.create_if_not_exists (index d)) as [db1|e] eqn:C; [|discriminate].
  destruct (migrateOldSchema db1) as [db2 [e|]] eqn:M; [discriminate|].
  intros E. assert (d1 = set_index d db2) as -> by congruence.
  assert (c = mkAIImageCache dir) as -> by congruence. clear E.
  assert (Hcur : exists rows, ai_image_cache db2 = Some (CurrentSchema rows)).
  { apply migrateOldSchema_result in M as [[Hn ->]|(legacy & rows & -> & ->)]; [|cbn; eauto].
    unfold Sql.create_if_not_exists in C.
    destruct (ai_image_cache (index d)) as [[rows|legacy]|] eqn:T.
    - assert (db1 = index d) as -> by congruence. eauto.
    - assert (db1 = index d) as -> by congruence. now destruct (Hn legacy).
    - assert (db1 = mkDatabase (Some (CurrentSchema ∅)) (ai_image_cache_old (index d)))
        as -> by congruence. cbn. eauto. }
  split; [reflexivity|]. split; [reflexivity|]. split; [exact Hcur|]. split.
  - intros dbPath' dir'. destruct Hcur as [rows Hrows]. unfold NewAIImageCache.
    cbn [index set_index]. unfold Sql.create_if_not_exists. rewrite Hrows.
    rewrite migrateOldSchema_current by (rewrite Hrows; discriminate).
    destruct d. reflexivity.
  - intros rows T. unfold Sql.create_if_not_exists in C. rewrite T in C.
    assert (db1 = index d) as -> by congruence.
    rewrite migrateOldSchema_current in M by (rewrite T; discriminate).
    assert (db2 = index d) as -> by congruence. destruct d. reflexivity.
Qed.

Lemma X8_NewAIImageCache_idempotent_witness :
  let d := mkDisk ∅ (mkDatabase (Some (LegacySchema Scenario.legacy_rows)) None) in
  let d1 := fst (NewAIImageCache d "/data/ai_cache.db" "/data/ai_cache") in
  NewAIImageCache d1 "/data/ai_cache.db" "/data/ai_cache"
  = (d1, Done (mkAIImageCache "/data/ai_cache")).
Proof.
  cbv zeta.
  destruct (X8_NewAIImageCache_idempotent
              (mkDisk ∅ (mkDatabase (Some (LegacySchema Scenario.legacy_rows)) None))
              (fst (NewAIImageCache
                      (mkDisk ∅ (mkDatabase (Some (LegacySchema Scenario.legacy_rows)) None))
                      "/data/ai_cache.db" "/data/ai_cache"))
              "/data/ai_cache.db" "/data/ai_cache" (mkAIImageCache "/data/ai_cache"))
    as (_ & _ & _ & H & _).
  - vm_compute. reflexivity.
  - apply H.
Defined.

(** X9: the migration starts only when the table [ai_image_cache] itself
    has the legacy schema. When that table is missing or has the current
    schema, [NewAIImageCache] succeeds and leaves [ai_image_cache_old] as
    it finds it, so the rows that an interrupted migration left there are
    neither copied nor dropped by a later start. When the table has the
    legacy schema and [ai_image_cache_old] exists as well, the rename
    fails, [NewAIImageCache] returns the error and the database is
    unchanged. *)
Theorem X9_migration_is_not_resumed (fs : gmap string string) (old : option Table)
    (dbPath dir : string) :
  (forall rows : gmap string CacheRow,
     NewAIImageCache (mkDisk fs (mkDatabase (Some (CurrentSchema rows)) old)) dbPath dir
     = (mkDisk fs (mkDatabase (Some (CurrentSchema rows)) old), Done (mkAIImageCache dir))) /\
  NewAIImageCache (mkDisk fs (mkDatabase None old)) dbPath dir
    = (mkDisk fs (mkDatabase (Some (CurrentSchema ∅)) old), Done (mkAIImageCache dir)) /\
  (forall (legacy : gmap string LegacyRow) (t : Table),
     exists e : string,
       NewAIImageCache (mkDisk fs (mkDatabase (Some (LegacySchema legacy)) (Some t))) dbPath dir
       = (mkDisk fs (mkDatabase (Some (LegacySchema legacy)) (Some t)),
          Fail ("migrate schema: rename old table: " +:+ e))).
Proof.
  split; [|split].
  - intros rows. reflexivity.
  - reflexivity.
  - intros legacy t. eexists. reflexivity.
Qed.

(* ===================================================================== *)
(** * Further properties of the vector post-processor *)
(* ===================================================================== *)

Section Bytes.

Lemma all_bytes_complete (c : ascii) : In c all_bytes.
Proof.
  unfold all_bytes. apply in_map_iff. exists (nat_of_ascii c). split.
  - apply ascii_nat_embedding.
  - apply in_seq. pose proof (nat_ascii_bounded c). lia.
Qed.

(** A property of two bytes that holds on the 65536 pairs holds always. *)
Lemma byte_pairs (P : ascii -> ascii -> bool) :
  forallb (fun a => forallb (P a) all_bytes) all_bytes = true ->
  forall a b, P a b = true.
Proof.
  intros H a b. rewrite forallb_forall in H. specialize (H a (all_bytes_complete a)).
  rewrite forallb_forall in H. apply H, all_bytes_complete.
Qed.

Lemma channel_above_240 (a b : ascii) :
  (240 <? fst (Conv.ParseInt16 (String a (String b EmptyString)))) = is_f a && hex_from_1 b.
Proof.
  apply eqb_prop.
  apply (byte_pairs (fun a b =>
    Bool.eqb (240 <? fst (Conv.ParseInt16 (String a (String b EmptyString))))
             (is_f a && hex_from_1 b))).
  vm_compute. reflexivity.
Qed.

End Bytes.

(** X10: [isNearWhite] accepts exactly the texts of six bytes in which each
    of the three pairs is [f] or [F] followed by a hexadecimal digit other
    than [0]. Every other text is rejected: one of another length, one with
    a byte that is not a hexadecimal digit (a sign included), and one with
    a channel of 240 or less. *)
Theorem X10_isNearWhite_texts (s : string) : isNearWhite s = near_white_text s.
Proof.
  destruct s as [|r1 [|r2 [|g1 [|g2 [|b1 [|b2 [|x s]]]]]]]; try reflexivity.
  unfold isNearWhite, near_white_text. cbn [String.length Nat.eqb negb].
    change (Text.slice 0 2 (String r1 (String r2 (String g1 (String g2 (String b1 (String b2 EmptyString)))))))
      with (String r1 (String r2 EmptyString)).
    change (Text.slice 2 4 (String r1 (String r2 (String g1 (String g2 (String b1 (String b2 EmptyString)))))))
      with (String g1 (String g2 EmptyString)).
    change (Text.slice 4 6 (String r1 (String r2 (String g1 (String g2 (String b1 (String b2 EmptyString)))))))
      with (String b1 (String b2 EmptyString)).
    cbv zeta. rewrite !channel_above_240. now rewrite !andb_assoc.
Qed.

Section DeclaredSize.

Lemma set_fails {A : Type} (cls : ascii -> bool) (r : Regexp.regex) (k : @Regexp.cont A)
    (caps : list string) :
  fails_on (fun c => negb (cls c)) (Regexp.rmatch (Regexp.RSeq (Regexp.RSet cls) r) k) caps.
Proof.
  intros c t Hc. apply negb_true_iff in Hc. cbn [Regexp.rmatch]. now rewrite Hc.
Qed.

Lemma set_ok {A : Type} (cls : ascii -> bool) (r : Regexp.regex) (k : @Regexp.cont A)
    (c : ascii) (s : string) (caps : list string) :
  cls c = true ->
  Regexp.rmatch (Regexp.RSeq (Regexp.RSet cls) r) k (String c s) caps = Regexp.rmatch r k s caps.
Proof. intros Hc. cbn [Regexp.rmatch]. now rewrite Hc. Qed.

Lemma digit_or_dot_classes (c : ascii) :
  is_digit_or_dot c = true ->
  Text.is_not ">" c = true /\ not_space c = true /\ Text.is_not "<" c = true.
Proof.
  destruct c as [[] [] [] [] [] [] [] []]; vm_compute; intros H; repeat split; congruence.
Qed.

Lemma number_text_classes (x : string) :
  all_chars is_digit_or_dot x = true ->
  all_chars (Text.is_not ">") x = true /\ all_chars not_space x = true /\
  all_chars (Text.is_not "<") x = true.
Proof.
  intros H. repeat split; apply (all_chars_impl is_digit_or_dot); try exact H;
    intros c Hc; now destruct (digit_or_dot_classes c Hc) as (? & ? & ?).
Qed.

(** The last group of a pattern, [([0-9.]+)], in front of a text that
    starts with another character. *)
Lemma plus_group (cls : ascii -> bool) (s0 x t : string) (caps : list string) :
  number_text x = true -> cls = is_digit_or_dot -> stops cls t = true ->
  Regexp.rmatch (Regexp.RGroup (Regexp.RPlus cls))
    (fun s' caps' => Some (Regexp.consumed s0 s', caps', s')) (x +:+ t) caps
  = Some (Regexp.consumed s0 t, caps ++ [x], t).
Proof.
  intros Hx -> Ht. destruct x as [|c x]; [discriminate|].
  cbn [number_text all_chars] in Hx. apply andb_prop in Hx as [Hc Hx].
  pose proof (consumed_app (String c x) t) as Hcons.
  rewrite app_cons in Hcons |- *.
  cbn [Regexp.rmatch Regexp.RPlus]. rewrite Hc.
  rewrite star_back by assumption. now rewrite Hcons.
Qed.

End DeclaredSize.

Section SvgTag.
Variables (w h rest : string).
Hypothesis Hw : number_text w = true.
Hypothesis Hh : number_text h = true.

Let Q : string := Text.DQ.
Let closing : string := String ">" rest.
Let hattr : string := "height=" +:+ Q +:+ h +:+ Q.
Let wattr : string := "width=" +:+ Q +:+ w +:+ Q.
Let tag : string := "<svg " +:+ wattr +:+ " " +:+ hattr +:+ closing.

Let k0 : @Regexp.cont (string * list string * string) :=
  fun s' caps => Some (Regexp.consumed tag s', caps, s').

Let W2 := Regexp.RSeq (Regexp.RSet Text.is_space)
            (Regexp.RSeq (Regexp.RLit ("width" +:+ "=" +:+ Text.DQ))
               (Regexp.RGroup (Regexp.RPlus is_digit_or_dot))).
Let H2 := Regexp.RSeq (Regexp.RSet Text.is_space)
            (Regexp.RSeq (Regexp.RLit ("height" +:+ "=" +:+ Text.DQ))
               (Regexp.RGroup (Regexp.RPlus is_digit_or_dot))).

Lemma w_chars : all_chars is_digit_or_dot w = true.
Proof. destruct w; [discriminate | exact Hw]. Qed.

Lemma h_chars : all_chars is_digit_or_dot h = true.
Proof. destruct h; [discriminate | exact Hh]. Qed.

Lemma hattr_not_space : all_chars not_space hattr = true.
Proof.
  destruct (number_text_classes h h_chars) as (_ & Hs & _).
  unfold hattr. now rewrite !all_chars_app, Hs.
Qed.

Lemma wattr_not_space : all_chars not_space wattr = true.
Proof.
  destruct (number_text_classes w w_chars) as (_ & Hs & _).
  unfold wattr. now rewrite !all_chars_app, Hs.
Qed.

Lemma attrs_not_gt : all_chars (Text.is_not ">") (" " +:+ wattr +:+ " " +:+ hattr) = true.
Proof.
  destruct (number_text_classes w w_chars) as (Gw & _ & _).
  destruct (number_text_classes h h_chars) as (Gh & _ & _).
  unfold wattr, hattr. now rewrite !all_chars_app, Gw, Gh.
Qed.

Lemma height_at_tag :
  Regexp.match_at heightRe tag
  = Some ("<svg " +:+ wattr +:+ " " +:+ "height=" +:+ Q +:+ h, [h], Q +:+ closing).
Proof.
  unfold Regexp.match_at. fold k0.
  change heightRe with (Regexp.RSeq (Regexp.RLit "<svg")
                          (Regexp.RSeq (Regexp.RStar (Text.is_not ">")) H2)).
  replace tag with ("<svg" +:+ (" " +:+ wattr +:+ " " +:+ hattr) +:+ closing)
    by (unfold tag; now rewrite !app_assoc').
  rewrite lit_ok. cbn [Regexp.rmatch].
  rewrite star_back; [| exact attrs_not_gt | reflexivity].
  assert (F : fails_on not_space (Regexp.rmatch H2 k0) []) by apply set_fails.
  assert (E0 : Regexp.rmatch H2 k0 closing [] = None) by reflexivity.
  change (Regexp.rmatch (Regexp.RSet Text.is_space)
            (Regexp.rmatch (Regexp.RSeq (Regexp.RLit ("height" +:+ "=" +:+ Text.DQ))
               (Regexp.RGroup (Regexp.RPlus is_digit_or_dot))) k0))
    with (Regexp.rmatch H2 k0).
  rewrite E0.
  replace (" " +:+ wattr +:+ " " +:+ hattr) with ((" " +:+ wattr) +:+ (" " +:+ hattr))
    by now rewrite !app_assoc'.
  rewrite back_app.
  rewrite (back_app _ _ " " hattr), (back_fails not_space _ _ _ _ F hattr_not_space).
  cbn [back].
  assert (E1 : Regexp.rmatch H2 k0 (" " +:+ hattr +:+ closing) []
               = Some ("<svg " +:+ wattr +:+ " " +:+ "height=" +:+ Q +:+ h, [h], Q +:+ closing)).
  { unfold H2. change (" " +:+ hattr +:+ closing) with (String " " (hattr +:+ closing)).
    rewrite set_ok by reflexivity.
    replace (hattr +:+ closing) with (("height" +:+ "=" +:+ Text.DQ) +:+ h +:+ Q +:+ closing)
      by (unfold hattr; rewrite !app_assoc'; reflexivity).
    rewrite lit_ok. unfold k0. rewrite plus_group; [| exact Hh | reflexivity | reflexivity].
    replace tag with (("<svg " +:+ wattr +:+ " " +:+ "height=" +:+ Q +:+ h) +:+ Q +:+ closing)
      by (unfold tag, hattr; now rewrite !app_assoc').
    now rewrite consumed_app. }
  change (String " " "" +:+ hattr +:+ closing) with (" " +:+ hattr +:+ closing).
  now rewrite E1.
Qed.

Lemma width_at_tag :
  Regexp.match_at widthRe tag
  = Some ("<svg " +:+ "width=" +:+ Q +:+ w, [w], Q +:+ " " +:+ hattr +:+ closing).
Proof.
  unfold Regexp.match_at. fold k0.
  change widthRe with (Regexp.RSeq (Regexp.RLit "<svg")
                         (Regexp.RSeq (Regexp.RStar (Text.is_not ">")) W2)).
  replace tag with ("<svg" +:+ (" " +:+ wattr +:+ " " +:+ hattr) +:+ closing)
    by (unfold tag; now rewrite !app_assoc').
  rewrite lit_ok. cbn [Regexp.rmatch].
  rewrite star_back; [| exact attrs_not_gt | reflexivity].
  assert (F : fails_on not_space (Regexp.rmatch W2 k0) []) by apply set_fails.
  assert (E0 : Regexp.rmatch W2 k0 closing [] = None) by reflexivity.
  change (Regexp.rmatch (Regexp.RSet Text.is_space)
            (Regexp.rmatch (Regexp.RSeq (Regexp.RLit ("width" +:+ "=" +:+ Text.DQ))
               (Regexp.RGroup (Regexp.RPlus is_digit_or_dot))) k0))
    with (Regexp.rmatch W2 k0).
  rewrite E0.
  replace (" " +:+ wattr +:+ " " +:+ hattr) with ((" " +:+ wattr) +:+ (" " +:+ hattr))
    by now rewrite !app_assoc'.
  rewrite back_app.
  rewrite (back_app _ _ " " hattr), (back_fails not_space _ _ _ _ F hattr_not_space).
  cbn [back].
  assert (E1 : Regexp.rmatch W2 k0 (String " " "" +:+ hattr +:+ closing) [] = None) by reflexivity.
  rewrite E1.
  rewrite (back_app _ _ " " wattr), (back_fails not_space _ _ _ _ F wattr_not_space).
  cbn [back].
  change (String " " "" +:+ wattr +:+ (" " +:+ hattr) +:+ closing)
    with (String " " (wattr +:+ (" " +:+ hattr) +:+ closing)).
  unfold W2. rewrite set_ok by reflexivity.
  replace (wattr +:+ (" " +:+ hattr) +:+ closing)
    with (("width" +:+ "=" +:+ Text.DQ) +:+ w +:+ Q +:+ " " +:+ hattr +:+ closing)
    by (unfold wattr; rewrite !app_assoc'; reflexivity).
  rewrite lit_ok. unfold k0. rewrite plus_group; [| exact Hw | reflexivity | reflexivity].
  replace tag with (("<svg " +:+ "width=" +:+ Q +:+ w) +:+ Q +:+ " " +:+ hattr +:+ closing)
    by (unfold tag, wattr; now rewrite !app_assoc').
  now rewrite consumed_app.
Qed.

End SvgTag.

Section SvgDocument.

Lemma dimRe_needs_lt (attr : string) (c : ascii) (s : string) :
  Text.is_not "<" c = true -> Regexp.match_at (dimRe attr) (String c s) = None.
Proof.
  intros H. unfold Text.is_not in H. apply negb_true_iff in H.
  unfold Regexp.match_at, dimRe. cbn [Regexp.seq Regexp.rmatch Regexp.strip_prefix].
  now rewrite Ascii.eqb_sym, H.
Qed.

Lemma FindSubmatch_text (attr u s : string) :
  all_chars (Text.is_not "<") u = true ->
  Regexp.FindSubmatch (dimRe attr) (u +:+ s) = Regexp.FindSubmatch (dimRe attr) s.
Proof.
  induction u as [|c u IH]; [reflexivity|].
  cbn [all_chars]. intros H. apply andb_prop in H as [Hc Hu].
  rewrite app_cons, FindSubmatch_skip by now apply dimRe_needs_lt.
  now apply IH.
Qed.

Lemma FindSubmatch_declaration (attr s : string) :
  Regexp.FindSubmatch (dimRe attr)
    ("<?xml version=" +:+ Scenario.q +:+ "1.0" +:+ Scenario.q +:+ " standalone=" +:+ Scenario.q
     +:+ "yes" +:+ Scenario.q +:+ "?>" +:+ Text.NL +:+ s)
  = Regexp.FindSubmatch (dimRe attr) s.
Proof.
  rewrite (app_cons "<"), FindSubmatch_skip by reflexivity.
  now rewrite !FindSubmatch_text by reflexivity.
Qed.

Lemma dimensions_found (w h : string) (paths : list string) :
  number_text w = true -> number_text h = true ->
  (exists m, Regexp.FindSubmatch widthRe (Scenario.svg_document w h paths) = Some [m; w]) /\
  (exists m, Regexp.FindSubmatch heightRe (Scenario.svg_document w h paths) = Some [m; h]).
Proof.
  intros Hw Hh. unfold Scenario.svg_document, widthRe, heightRe.
  rewrite !FindSubmatch_declaration.
  set (rest := Text.NL +:+ Text.concat_all (map (fun p => p +:+ Text.NL) paths)
               +:+ "</svg>" +:+ Text.NL).
  pose proof (width_at_tag w h rest Hw Hh) as MW.
  pose proof (height_at_tag w h rest Hw Hh) as MH.
  replace ("<svg width=" +:+ Scenario.q +:+ w +:+ Scenario.q +:+ " height=" +:+ Scenario.q
           +:+ h +:+ Scenario.q +:+ ">" +:+ rest)
    with ("<svg " +:+ ("width=" +:+ Text.DQ +:+ w +:+ Text.DQ) +:+ " "
          +:+ ("height=" +:+ Text.DQ +:+ h +:+ Text.DQ) +:+ String ">" rest)
    by (unfold Scenario.q; rewrite !app_assoc'; reflexivity).
  split; eexists.
  - exact (FindSubmatch_at _ _ _ _ _ MW).
  - exact (FindSubmatch_at _ _ _ _ _ MH).
Qed.

End SvgDocument.

Section FilteredDocuments.

Lemma number_text_no_lt (x : string) :
  number_text x = true -> all_chars (Text.is_not "<") x = true.
Proof.
  intros H. destruct x as [|c x]; [reflexivity|].
  now destruct (number_text_classes (String c x) H) as (_ & _ & L).
Qed.

(** The filter on the lines of a document that it has left. *)
Lemma filter_filtered_paths (paths : list (string * string)) (tail : string) :
  Forall well_formed paths ->
  Regexp.replace_from pathRegex filterWhitePaths_func O
    (Text.concat_all (map (fun p => p +:+ Text.NL) (map filtered paths)) +:+ tail)
  = Text.concat_all (map (fun p => p +:+ Text.NL) (map filtered paths))
    +:+ Regexp.replace_from pathRegex filterWhitePaths_func O tail.
Proof.
  induction 1 as [|[h d] paths [Hh Hd] _ IH]; [reflexivity|].
  cbn [map Text.concat_all]. unfold filtered at 1 3. unfold written. cbn [fst snd] in *.
  destruct (isNearWhite h) eqn:W.
  - rewrite !app_assoc', !app_nil_l.
    rewrite (replace_text _ Text.NL) by reflexivity. now rewrite IH.
  - rewrite !app_assoc'.
    rewrite replace_stroked_path by assumption.
    rewrite filterWhitePaths_func_stroked, W by assumption.
    rewrite (replace_text _ Text.NL) by reflexivity. now rewrite IH.
Qed.

Lemma filter_filtered_document (w hgt : string) (paths : list (string * string)) :
  all_chars (Text.is_not "<") w = true -> all_chars (Text.is_not "<") hgt = true ->
  Forall well_formed paths ->
  filterWhitePaths_data (Scenario.svg_document w hgt (map filtered paths))
  = Scenario.svg_document w hgt (map filtered paths).
Proof.
  intros Hw Hh Hp. unfold filterWhitePaths_data, Regexp.ReplaceAllFunc, Scenario.svg_document.
  rewrite replace_tag by reflexivity.
  repeat rewrite replace_text by (reflexivity || assumption).
  rewrite replace_tag by reflexivity.
  repeat rewrite replace_text by (reflexivity || assumption).
  rewrite filter_filtered_paths by assumption.
  rewrite replace_tag by reflexivity.
  reflexivity.
Qed.

End FilteredDocuments.

Lemma getSVGDimensions_document (w h : string) (paths : list string) :
  number_text w = true -> number_text h = true ->
  getSVGDimensions (Some (Scenario.svg_document w h paths)) = (declared w, declared h).
Proof.
  intros Hw Hh. destruct (dimensions_found w h paths Hw Hh) as [[mw MW] [mh MH]].
  unfold getSVGDimensions. rewrite MW, MH. reflexivity.
Qed.

(** X11: for a document as the tracer writes it, an XML declaration and an
    [svg] tag that declares a width and a height in digits and dots,
    [getSVGDimensions] returns the two declared numbers, whatever follows
    the tag: each is the float64 that [strconv.ParseFloat] gives for the
    text, or 100 when that is zero or the text does not parse (as
    [1.2.3]). *)
Theorem X11_getSVGDimensions_declared (w h : string) (paths : list string) :
  number_text w = true -> number_text h = true ->
  getSVGDimensions (Some (Scenario.svg_document w h paths)) = (declared w, declared h).
Proof.
  apply getSVGDimensions_document.
Qed.

Lemma X11_getSVGDimensions_declared_witness :
  getSVGDimensions (Some (Scenario.svg_document "640" "1.2.3" [Scenario.black_path]))
  = (F64.const "640", F64.const "100").
Proof.
  rewrite (X11_getSVGDimensions_declared "640" "1.2.3" [Scenario.black_path] eq_refl eq_refl).
  vm_compute. reflexivity.
Defined.

(** X12: on a document of stroked paths the filter is idempotent and keeps
    the declared size. Filtering the filtered document gives it back
    unchanged, and [getSVGDimensions] reads from the filtered document the
    dimensions it reads from the traced one. *)
Theorem X12_filter_idempotent_keeps_size (w h : string) (paths : list (string * string)) :
  number_text w = true -> number_text h = true -> Forall well_formed paths ->
  let traced := Scenario.svg_document w h (map written paths) in
  filterWhitePaths_data (filterWhitePaths_data traced) = filterWhitePaths_data traced /\
  getSVGDimensions (Some (filterWhitePaths_data traced)) = getSVGDimensions (Some traced) /\
  getSVGDimensions (Some traced) = (declared w, declared h).
Proof.
  intros Hw Hh Hp. cbv zeta.
  pose proof (number_text_no_lt w Hw) as Lw. pose proof (number_text_no_lt h Hh) as Lh.
  rewrite (filter_document w h paths Lw Lh Hp).
  rewrite (filter_filtered_document w h paths Lw Lh Hp).
  rewrite !getSVGDimensions_document by assumption. repeat split.
Qed.

Lemma X12_filter_idempotent_keeps_size_witness :
  let traced := Scenario.svg_document "832" "416"
                  (map written [("fefefe", "M0 0L9 9"); ("000000", "M1 1L8 8")]) in
  filterWhitePaths_data (filterWhitePaths_data traced) = filterWhitePaths_data traced /\
  getSVGDimensions (Some (filterWhitePaths_data traced)) = (F64.const "832", F64.const "416").
Proof.
  cbv zeta.
  destruct (X12_filter_idempotent_keeps_size "832" "416"
              [("fefefe", "M0 0L9 9"); ("000000", "M1 1L8 8")] eq_refl eq_refl)
    as (H1 & H2 & H3).
  - repeat constructor; cbn [fst]; unfold hex6;
      (eexists _, _, _, _, _, _; split; [reflexivity|]; repeat split; reflexivity).
  - split; [exact H1|]. rewrite H2, H3. vm_compute. reflexivity.
Defined.

(* ===================================================================== *)
(** * Further properties of the job pipeline *)
(* ===================================================================== *)

(** X13: how a run ends. A run of [processJob] whose commands and request
    have returned does not panic: no slice of the fingerprint is out of
    range. It ends with the status [done] or [error]. It is [done] only
    when the tracer and the generator both ran without an error, and then
    the artifact path is [output.gcode] in the job directory; when it is
    [error] the artifact path is as it was. *)
Theorem X13_processJob_settles (s : Server) (o : Oracle) (w : World) (job : Job)
    (jobDir inputPath apiKey aiPrompt : string) :
  match processJob s o w job jobDir inputPath apiKey aiPrompt with
  | Crashed _ _ => False
  | Finished w' job' =>
      (Status job' = "done" /\ GCodePath job' = Filepath.Join jobDir "output.gcode" /\
       proc_err (autotrace o) = None /\ proc_err (svg2gcode o) = None) \/
      (Status job' = "error" /\ GCodePath job' = GCodePath job)
  end.
Proof.
  unfold processJob. cbv zeta. destruct (UseAI job).
  - pose proof (ai_stage_frame s o w job jobDir inputPath apiKey aiPrompt) as F.
    destruct (ai_stage s o w job jobDir inputPath apiKey aiPrompt) as [w1 job1 input|w1 job1|w1 job1].
    + destruct F as (_ & (_ & G & _) & _).
      destruct (convert_stages_status o w1 job1 (Filepath.Join jobDir "output.svg")
                  (Filepath.Join jobDir "output.gcode") input) as [(S1 & S2 & S3 & S4)|(S1 & S2 & _)].
      * left. auto.
      * right. split; [exact S1 | congruence].
    + destruct F as (St & (_ & G & _) & _). right. auto.
    + destruct F.
  - destruct (convert_stages_status o w job (Filepath.Join jobDir "output.svg")
                (Filepath.Join jobDir "output.gcode") inputPath) as [(S1 & S2 & S3 & S4)|(S1 & S2 & _)].
    + left. auto.
    + right. auto.
Qed.

(** X14: the commands of a run. When the AI stage stops, [processJob]
    returns what the stage left, with status [error], and has run no
    command. Otherwise it runs the tracer, once, on the working image, the
    uploaded file when AI is off and the image with which the AI stage
    goes on when it is on, writing [output.svg] in the job directory; when
    the tracer returned an error it runs nothing else and the status is
    [error]; when the tracer returned without an error it then runs the
    generator, once, with the job's tool commands, a resolution,
    [output.svg] and [-o output.gcode]. *)
Theorem X14_processJob_commands (s : Server) (o : Oracle) (w : World) (job : Job)
    (jobDir inputPath apiKey aiPrompt : string) :
  let svgPath := Filepath.Join jobDir "output.svg" in
  let gcodePath := Filepath.Join jobDir "output.gcode" in
  let run := processJob s o w job jobDir inputPath apiKey aiPrompt in
  let traced (input : string) : Prop :=
    match proc_err (autotrace o) with
    | Some _ =>
        commands (world_of run) = commands w ++ [autotrace_argv svgPath input] /\
        Status (job_of run) = "error"
    | None =>
        exists dpiArg : string,
          commands (world_of run)
          = commands w ++ [autotrace_argv svgPath input;
                           ["svg2gcode"; "--on"; ToolOn job; "--off"; ToolOff job;
                            "--dpi"; dpiArg; svgPath; "-o"; gcodePath]]
    end in
  if UseAI job then
    match ai_stage s o w job jobDir inputPath apiKey aiPrompt with
    | Stop w1 job1 =>
        run = Finished w1 job1 /\ commands w1 = commands w /\ Status job1 = "error"
    | Continue _ _ input => traced input
    | Crash _ _ => False
    end
  else traced inputPath.
Proof.
  cbv zeta. unfold processJob. cbv zeta.
  assert (Conv : forall w1 job1 input,
    commands w1 = commands w -> ToolOn job1 = ToolOn job -> ToolOff job1 = ToolOff job ->
    let r := convert_stages o w1 job1 (Filepath.Join jobDir "output.svg")
               (Filepath.Join jobDir "output.gcode") input in
    match proc_err (autotrace o) with
    | Some _ =>
        commands (fst r) = commands w ++ [autotrace_argv (Filepath.Join jobDir "output.svg") input] /\
        Status (snd r) = "error"
    | None =>
        exists dpiArg : string,
          commands (fst r)
          = commands w ++ [autotrace_argv (Filepath.Join jobDir "output.svg") input;
                           ["svg2gcode"; "--on"; ToolOn job; "--off"; ToolOff job;
                            "--dpi"; dpiArg; Filepath.Join jobDir "output.svg"; "-o";
                            Filepath.Join jobDir "output.gcode"]]
    end).
  { intros w1 job1 input C T1 T2. cbv zeta.
    destruct (convert_stages_commands o w1 job1 (Filepath.Join jobDir "output.svg")
                (Filepath.Join jobDir "output.gcode") input) as [[A E]|[A [dpiArg E]]].
    - destruct (proc_err (autotrace o)) eqn:PA; [|congruence].
      rewrite E, C. split; [reflexivity|].
      destruct (convert_stages_status o w1 job1 (Filepath.Join jobDir "output.svg")
                  (Filepath.Join jobDir "output.gcode") input) as [(_ & _ & S3 & _)|(S1 & _)];
        [congruence | exact S1].
    - rewrite A. exists dpiArg. now rewrite E, C, T1, T2. }
  destruct (UseAI job).
  - pose proof (ai_stage_frame s o w job jobDir inputPath apiKey aiPrompt) as F.
    destruct (ai_stage s o w job jobDir inputPath apiKey aiPrompt) as [w1 job1 input|w1 job1|w1 job1].
    + destruct F as (_ & (_ & _ & _ & _ & _ & T1 & T2 & _) & C & _).
      cbn [world_of job_of]. apply Conv; assumption.
    + destruct F as (St & _ & C & _). auto.
    + destruct F.
  - cbn [world_of job_of]. apply Conv; reflexivity.
Qed.

(** X15: a run sends at most one request to the service, and when it sends
    one it is a POST to the endpoint of the prompt and of the bytes of the
    input file, with a credential that is not empty. With AI off it sends
    none, leaves the cache index as it is, does not name an AI image, and
    writes no file other than [output.svg] and [output.gcode] of the job
    directory. *)
Theorem X15_processJob_requests (s : Server) (o : Oracle) (w : World) (job : Job)
    (jobDir inputPath apiKey aiPrompt : string) :
  exists (w' : World) (job' : Job),
    processJob s o w job jobDir inputPath apiKey aiPrompt = Finished w' job' /\
    at_most_one_request w w' inputPath apiKey aiPrompt /\
    (UseAI job = false ->
     http_calls w' = http_calls w /\ index (disk w') = index (disk w) /\
     AIImageFilename job' = AIImageFilename job /\ AIImageCached job' = AIImageCached job /\
     forall path : string,
       path <> Filepath.Join jobDir "output.svg" -> path <> Filepath.Join jobDir "output.gcode" ->
       files (disk w') !! path = files (disk w) !! path).
Proof.
  unfold processJob. cbv zeta. destruct (UseAI job).
  - pose proof (ai_stage_frame s o w job jobDir inputPath apiKey aiPrompt) as F.
    destruct (ai_stage s o w job jobDir inputPath apiKey aiPrompt) as [w1 job1 input|w1 job1|w1 job1].
    + destruct F as (_ & _ & _ & H).
      eexists _, _. split; [reflexivity|]. split; [|discriminate]. cbn [fst].
      unfold at_most_one_request in *. now rewrite convert_stages_http.
    + destruct F as (_ & _ & _ & H). eexists _, _. split; [reflexivity|]. split; [exact H|discriminate].
    + destruct F.
  - eexists _, _. split; [reflexivity|]. cbn [fst snd].
    destruct (convert_stages_disk o w job (Filepath.Join jobDir "output.svg")
                (Filepath.Join jobDir "output.gcode") inputPath) as [DI DF].
    destruct (convert_stages_AIImage o w job (Filepath.Join jobDir "output.svg")
                (Filepath.Join jobDir "output.gcode") inputPath) as [A1 A2].
    split; [left; apply convert_stages_http|]. intros _.
    split; [apply convert_stages_http|]. split; [exact DI|]. split; [exact A2|].
    split; [exact A1|]. exact DF.
Qed.


(** X16: a run whose lookup finds a cached result feeds the cached file to
    the tracer: the first command it runs is the tracer on the path of the
    cached result; it sends no request, leaves the cache index as the
    lookup left it, removes no file, and records the cached image in the
    job. *)
Theorem X16_cache_hit_feeds_tracer (s : Server) (o : Oracle) (w : World) (job : Job)
    (jobDir inputPath apiKey aiPrompt inputHash : string) (c : CachedResult) :
  UseAI job = true ->
  HashFile (disk w) inputPath = Done inputHash ->
  snd (Lookup (AICache s) (lookup_query_err o) (disk w) inputHash aiPrompt) = Done (Some c) ->
  exists (w' : World) (job' : Job) (rest : list (list string)),
    processJob s o w job jobDir inputPath apiKey aiPrompt = Finished w' job' /\
    commands w' = commands w ++ autotrace_argv (Filepath.Join jobDir "output.svg") (FullPath c) :: rest /\
    http_calls w' = http_calls w /\
    index (disk w') = index (disk w) /\
    (forall path, is_Some (files (disk w) !! path) -> is_Some (files (disk w') !! path)) /\
    is_Some (files (disk w') !! FullPath c) /\
    AIImageCached job' = true /\ AIImageFilename job' = Filename c.
Proof.
  intros HAI HH L.
  destruct (Lookup (AICache s) (lookup_query_err o) (disk w) inputHash aiPrompt) as [d looked] eqn:E.
  cbn [snd] in L. subst looked.
  assert (Q : lookup_query_err o = None).
  { destruct (lookup_query_err o) eqn:Q; [|reflexivity]. unfold Lookup in E. discriminate. }
  rewrite Q in E. pose proof E as E'. apply Lookup_hit_inv in E' as (-> & row & R & -> & F).
  rewrite <- Q in E.
  destruct (processJob_hit s o w job jobDir inputPath apiKey aiPrompt inputHash _ _ HAI HH E)
    as (w' & job' & rest & P & HT & A1 & A2 & C & DI & K).
  exists w', job', rest. cbn [FullPath Filename] in *. repeat split; auto.
Qed.

(** X17: when the result cannot be cached the job goes on without the
    cache. After a lookup that finds nothing, a service answer with an
    image and a failing [Store], the image is written in the job directory
    as [ai_generated.jpg] for [image/jpeg] and [ai_generated.png] for every
    other media type, the tracer is run on that file, the job names no AI
    image and the cache index is not changed; when this write fails too,
    the job ends with status [error] and no command is run. *)
Theorem X17_cache_failure_falls_back (s : Server) (o : Oracle) (w : World) (job : Job)
    (jobDir inputPath apiKey aiPrompt inputHash img mime err : string) :
  let looked := Lookup (AICache s) (lookup_query_err o) (disk w) inputHash aiPrompt in
  let aiPath := Filepath.Join jobDir
                  ("ai_generated" +:+ (if String.eqb mime "image/jpeg" then ".jpg" else ".png")) in
  UseAI job = true ->
  HashFile (disk w) inputPath = Done inputHash ->
  (forall c, snd looked <> Done (Some c)) ->
  apiKey <> EmptyString ->
  snd (callGeminiAPI s o (set_disk w (fst looked)) inputPath apiKey aiPrompt) = Done (img, mime) ->
  snd (Store (AICache s) (clock o) (store_write_err o) (store_insert_err o) (fst looked)
             inputHash aiPrompt img mime) = Fail err ->
  exists (w' : World) (job' : Job),
    processJob s o w job jobDir inputPath apiKey aiPrompt = Finished w' job' /\
    index (disk w') = index (fst looked) /\
    AIImageFilename job' = AIImageFilename job /\ AIImageCached job' = AIImageCached job /\
    match job_write_err o with
    | Some _ => Status job' = "error" /\ commands w' = commands w
    | None =>
        (exists rest : list (list string),
           commands w' = commands w ++ autotrace_argv (Filepath.Join jobDir "output.svg") aiPath :: rest) /\
        is_Some (files (disk w') !! aiPath) /\
        (aiPath <> Filepath.Join jobDir "output.svg" ->
         aiPath <> Filepath.Join jobDir "output.gcode" ->
         files (disk w') !! aiPath = Some img)
    end.
Proof.
  cbv zeta. intros HAI HH Hmiss Hkey Hcall Hstore.
  unfold processJob. rewrite HAI. unfold ai_stage.
  rewrite HH, (slice_to_hash _ _ _ HH).
  pose proof (Lookup_never_panics (AICache s) (lookup_query_err o) (disk w) inputHash aiPrompt) as NP.
  destruct (Lookup (AICache s) (lookup_query_err o) (disk w) inputHash aiPrompt) as [d1 looked].
  cbn [fst snd] in *. cbv beta iota zeta.
  apply String.eqb_neq in Hkey. rewrite Hkey.
  destruct (callGeminiAPI_frame s o (set_disk w d1) inputPath apiKey aiPrompt) as (D & C & _ & _).
  cbv zeta in D, C.
  destruct (callGeminiAPI s o (set_disk w d1) inputPath apiKey aiPrompt) as [w0 called].
  cbn [fst snd set_disk disk commands] in *. subst called.
  pose proof (Store_Fail_index (AICache s) (clock o) (store_write_err o) (store_insert_err o)
                d1 inputHash aiPrompt img mime err Hstore) as SI.
  rewrite <- D in Hstore, SI at 1.
  destruct (Store (AICache s) (clock o) (store_write_err o) (store_insert_err o) (disk w0)
              inputHash aiPrompt img mime) as [d3 stored].
  cbn [fst snd] in *. subst stored.
  assert (Goal : forall job1 : Job,
    AIImageFilename job1 = AIImageFilename job -> AIImageCached job1 = AIImageCached job ->
    exists (w' : World) (job' : Job),
      match
        match job_write_err o with
        | Some err0 =>
            Stop (set_disk w0 d3)
              (set_Status
                 (log_write
                    (log_write (log_write job1 ("Cache MISS - calling Gemini API..." +:+ Text.NL))
                       ("Warning: failed to cache result: " +:+ err +:+ Text.NL))
                    ("Error saving AI image: " +:+ err0 +:+ Text.NL)) "error")
        | None =>
            Continue
              (write_file (set_disk w0 d3)
                 (Filepath.Join jobDir
                    ("ai_generated" +:+ (if String.eqb mime "image/jpeg" then ".jpg" else ".png")))
                 img)
              (log_write
                 (log_write
                    (log_write (log_write job1 ("Cache MISS - calling Gemini API..." +:+ Text.NL))
                       ("Warning: failed to cache result: " +:+ err +:+ Text.NL))
                    ("AI transformation complete, saved as: " +:+
                     Filepath.Base
                       (Filepath.Join jobDir
                          ("ai_generated" +:+ (if String.eqb mime "image/jpeg" then ".jpg" else ".png")))
                     +:+ Text.NL))
                 Text.NL)
              (Filepath.Join jobDir
                 ("ai_generated" +:+ (if String.eqb mime "image/jpeg" then ".jpg" else ".png")))
        end
      with
      | Continue w1 job2 inputPath0 =>
          Finished
            (fst (convert_stages o w1 job2 (Filepath.Join jobDir "output.svg")
                    (Filepath.Join jobDir "output.gcode") inputPath0))
            (snd (convert_stages o w1 job2 (Filepath.Join jobDir "output.svg")
                    (Filepath.Join jobDir "output.gcode") inputPath0))
      | Stop w1 job2 => Finished w1 job2
      | Crash w1 job2 => Crashed w1 job2
      end = Finished w' job' /\
      index (disk w') = index d1 /\
      AIImageFilename job' = AIImageFilename job /\ AIImageCached job' = AIImageCached job /\
      match job_write_err o with
      | Some _ => Status job' = "error" /\ commands w' = commands w
      | None =>
          (exists rest : list (list string),
             commands w'
             = commands w ++ autotrace_argv (Filepath.Join jobDir "output.svg")
                 (Filepath.Join jobDir
                    ("ai_generated" +:+ (if String.eqb mime "image/jpeg" then ".jpg" else ".png")))
                 :: rest) /\
          is_Some (files (disk w') !! Filepath.Join jobDir
                     ("ai_generated" +:+ (if String.eqb mime "image/jpeg" then ".jpg" else ".png"))) /\
          (Filepath.Join jobDir
             ("ai_generated" +:+ (if String.eqb mime "image/jpeg" then ".jpg" else ".png"))
           <> Filepath.Join jobDir "output.svg" ->
           Filepath.Join jobDir
             ("ai_generated" +:+ (if String.eqb mime "image/jpeg" then ".jpg" else ".png"))
           <> Filepath.Join jobDir "output.gcode" ->
           files (disk w') !! Filepath.Join jobDir
             ("ai_generated" +:+ (if String.eqb mime "image/jpeg" then ".jpg" else ".png"))
           = Some img)
      end).
  { intros job1 A1 A2. destruct (job_write_err o).
    - eexists _, _. split; [reflexivity|]. cbn. auto.
    - match goal with |- context [convert_stages o ?w1 ?j1 ?p1 ?p2 ?p3] =>
        destruct (convert_stages_first_command o w1 j1 p1 p2 p3) as [rest CC];
        destruct (convert_stages_disk o w1 j1 p1 p2 p3) as [DI DF];
        pose proof (convert_stages_keeps o w1 j1 p1 p2 p3 p3) as K;
        destruct (convert_stages_AIImage o w1 j1 p1 p2 p3) as [B1 B2]
      end.
      eexists _, _. split; [reflexivity|].
      split; [rewrite DI; cbn; exact SI|].
      split; [rewrite B2; exact A1|]. split; [rewrite B1; exact A2|].
      split; [exists rest; rewrite CC; cbn; now rewrite C|].
      split.
      + apply K. cbn. rewrite lookup_insert_eq. eauto.
      + intros N1 N2. rewrite DF by assumption. cbn. apply lookup_insert_eq. }
  destruct looked as [[c|]|e|].
  - now destruct (Hmiss c).
  - apply Goal; reflexivity.
  - apply Goal; reflexivity.
  - now destruct NP.
Qed.

(** X18: a stored result is reused. After a lookup that finds nothing, a
    service answer with an image and a successful [Store], the job names
    the stored file and the tracer is run on it; on the disk that the run
    leaves, a lookup for the same fingerprint and prompt finds the stored
    result, and a later AI-enabled run on an input with the same
    fingerprint and the same prompt sends no request, whatever its
    credential, and names the same file as served from the cache. *)
Theorem X18_stored_result_is_reused (s : Server) (o : Oracle) (w : World) (job : Job)
    (jobDir inputPath apiKey aiPrompt inputHash img mime : string) (result : CachedResult) :
  let looked := Lookup (AICache s) (lookup_query_err o) (disk w) inputHash aiPrompt in
  UseAI job = true ->
  HashFile (disk w) inputPath = Done inputHash ->
  (forall c, snd looked <> Done (Some c)) ->
  apiKey <> EmptyString ->
  snd (callGeminiAPI s o (set_disk w (fst looked)) inputPath apiKey aiPrompt) = Done (img, mime) ->
  snd (Store (AICache s) (clock o) (store_write_err o) (store_insert_err o) (fst looked)
             inputHash aiPrompt img mime) = Done result ->
  exists (w' : World) (job' : Job),
    processJob s o w job jobDir inputPath apiKey aiPrompt = Finished w' job' /\
    AIImageFilename job' = Filename result /\ AIImageCached job' = AIImageCached job /\
    (exists rest : list (list string),
       commands w'
       = commands w ++ autotrace_argv (Filepath.Join jobDir "output.svg") (FullPath result) :: rest) /\
    Lookup (AICache s) None (disk w') inputHash aiPrompt = (disk w', Done (Some result)) /\
    forall (o2 : Oracle) (job2 : Job) (jobDir2 inputPath2 apiKey2 : string),
      UseAI job2 = true -> lookup_query_err o2 = None ->
      HashFile (disk w') inputPath2 = Done inputHash ->
      exists (w2 : World) (job2' : Job),
        processJob s o2 w' job2 jobDir2 inputPath2 apiKey2 aiPrompt = Finished w2 job2' /\
        http_calls w2 = http_calls w' /\
        AIImageCached job2' = true /\ AIImageFilename job2' = Filename result.
Proof.
  cbv zeta. intros HAI HH Hmiss Hkey Hcall Hstore.
  unfold processJob at 1. rewrite HAI. unfold ai_stage.
  rewrite HH, (slice_to_hash _ _ _ HH).
  pose proof (Lookup_never_panics (AICache s) (lookup_query_err o) (disk w) inputHash aiPrompt) as NP.
  destruct (Lookup (AICache s) (lookup_query_err o) (disk w) inputHash aiPrompt) as [d1 looked].
  cbn [fst snd] in *. cbv beta iota zeta.
  apply String.eqb_neq in Hkey. rewrite Hkey.
  destruct (callGeminiAPI_frame s o (set_disk w d1) inputPath apiKey aiPrompt) as (D & C & _ & _).
  cbv zeta in D, C.
  destruct (callGeminiAPI s o (set_disk w d1) inputPath apiKey aiPrompt) as [w0 called].
  cbn [fst snd set_disk disk commands] in *. subst called.
  rewrite <- D in Hstore.
  destruct (Store (AICache s) (clock o) (store_write_err o) (store_insert_err o) (disk w0)
              inputHash aiPrompt img mime) as [d3 stored] eqn:St.
  cbn [fst snd] in *. subst stored.
  destruct (Store_Done (AICache s) _ _ _ _ _ _ _ _ _ _ St) as (rows & filename & T & Hf & -> & ->).
  cbn [FullPath Filename].
  set (path := Filepath.Join (cacheDir (AICache s)) filename).
  set (row := mkCacheRow inputHash aiPrompt filename mime (current_timestamp (clock o))).
  set (d3 := set_rows (set_files (disk w0) (<[path := img]> (files (disk w0))))
               (<[MakeCacheKey inputHash aiPrompt := row]> rows)).
  assert (Goal : forall job1 : Job,
    AIImageCached job1 = AIImageCached job ->
    exists (w' : World) (job' : Job),
      Finished
        (fst (convert_stages o (set_disk w0 d3)
                (log_write
                   (log_write
                      (set_AIImage (log_write job1 ("Cache MISS - calling Gemini API..." +:+ Text.NL))
                         filename
                         (AIImageCached (log_write job1 ("Cache MISS - calling Gemini API..." +:+ Text.NL))))
                      ("AI transformation complete, saved as: " +:+ Filepath.Base path +:+ Text.NL))
                   Text.NL)
                (Filepath.Join jobDir "output.svg") (Filepath.Join jobDir "output.gcode") path))
        (snd (convert_stages o (set_disk w0 d3)
                (log_write
                   (log_write
                      (set_AIImage (log_write job1 ("Cache MISS - calling Gemini API..." +:+ Text.NL))
                         filename
                         (AIImageCached (log_write job1 ("Cache MISS - calling Gemini API..." +:+ Text.NL))))
                      ("AI transformation complete, saved as: " +:+ Filepath.Base path +:+ Text.NL))
                   Text.NL)
                (Filepath.Join jobDir "output.svg") (Filepath.Join jobDir "output.gcode") path))
      = Finished w' job' /\
      AIImageFilename job' = filename /\ AIImageCached job' = AIImageCached job /\
      (exists rest : list (list string),
         commands w' = commands w ++ autotrace_argv (Filepath.Join jobDir "output.svg") path :: rest) /\
      Lookup (AICache s) None (disk w') inputHash aiPrompt
        = (disk w', Done (Some (mkCachedResult filename mime path aiPrompt))) /\
      forall (o2 : Oracle) (job2 : Job) (jobDir2 inputPath2 apiKey2 : string),
        UseAI job2 = true -> lookup_query_err o2 = None ->
        HashFile (disk w') inputPath2 = Done inputHash ->
        exists (w2 : World) (job2' : Job),
          processJob s o2 w' job2 jobDir2 inputPath2 apiKey2 aiPrompt = Finished w2 job2' /\
          http_calls w2 = http_calls w' /\
          AIImageCached job2' = true /\ AIImageFilename job2' = filename).
  { intros job1 A.
    match goal with |- context [convert_stages o ?w1 ?j1 ?p1 ?p2 ?p3] =>
      destruct (convert_stages_first_command o w1 j1 p1 p2 p3) as [rest CC];
      destruct (convert_stages_disk o w1 j1 p1 p2 p3) as [DI _];
      pose proof (convert_stages_keeps o w1 j1 p1 p2 p3 path) as K;
      destruct (convert_stages_AIImage o w1 j1 p1 p2 p3) as [B1 B2];
      set (r := convert_stages o w1 j1 p1 p2 p3) in *
    end.
    assert (HL : Lookup (AICache s) None (disk (fst r)) inputHash aiPrompt
                 = (disk (fst r), Done (Some (mkCachedResult filename mime path aiPrompt)))).
    { apply (Lookup_row (AICache s) (disk (fst r)) inputHash aiPrompt row).
      - unfold index_row. rewrite DI. cbn. apply lookup_insert_eq.
      - apply K. cbn. rewrite lookup_insert_eq. eauto. }
    exists (fst r), (snd r). split; [reflexivity|].
    split; [rewrite B2; reflexivity|]. split; [rewrite B1; exact A|].
    split; [exists rest; rewrite CC; cbn; now rewrite C|].
    split; [exact HL|].
    intros o2 job2 jobDir2 inputPath2 apiKey2 HAI2 Q2 HH2.
    rewrite <- Q2 in HL.
    destruct (processJob_hit s o2 (fst r) job2 jobDir2 inputPath2 apiKey2 aiPrompt inputHash
                _ _ HAI2 HH2 HL) as (w2 & job2' & rest2 & P & HT & A1 & A2 & _).
    exists w2, job2'. auto. }
  destruct looked as [[c|]|e|].
  - now destruct (Hmiss c).
  - apply Goal; reflexivity.
  - apply Goal; reflexivity.
  - now destruct NP.
Qed.

Lemma X16_cache_hit_feeds_tracer_witness :
  let w := mkWorld (mkDisk {[ Scenario.inputPath := "PNG image bytes";
                              "/data/ai_cache/5f3e7a2b9c1d4e60_1700000000123456789.png" := "PNG line art" ]}
                      (mkDatabase (Some (CurrentSchema
                         {[ MakeCacheKey (Sha256.EncodeToString (Sha256.Sum256 "PNG image bytes"))
                                         DefaultAIPrompt
                            := mkCacheRow (Sha256.EncodeToString (Sha256.Sum256 "PNG image bytes"))
                                 DefaultAIPrompt "5f3e7a2b9c1d4e60_1700000000123456789.png"
                                 "image/png" "2023-11-14 22:13:20" ]})) None)) [] [] in
  exists (w' : World) (job' : Job) (rest : list (list string)),
    processJob Scenario.server (Scenario.oracle_for Scenario.traced_document Scenario.offline) w
               (Scenario.job0 true) Scenario.jobDir Scenario.inputPath EmptyString DefaultAIPrompt
    = Finished w' job' /\
    commands w'
    = autotrace_argv "/data/uploads/1700000000000000000/output.svg"
        "/data/ai_cache/5f3e7a2b9c1d4e60_1700000000123456789.png" :: rest /\
    http_calls w' = [].
Proof.
  cbv zeta.
  destruct (X16_cache_hit_feeds_tracer Scenario.server
              (Scenario.oracle_for Scenario.traced_document Scenario.offline)
              (mkWorld (mkDisk {[ Scenario.inputPath := "PNG image bytes";
                              "/data/ai_cache/5f3e7a2b9c1d4e60_1700000000123456789.png" := "PNG line art" ]}
                      (mkDatabase (Some (CurrentSchema
                         {[ MakeCacheKey (Sha256.EncodeToString (Sha256.Sum256 "PNG image bytes"))
                                         DefaultAIPrompt
                            := mkCacheRow (Sha256.EncodeToString (Sha256.Sum256 "PNG image bytes"))
                                 DefaultAIPrompt "5f3e7a2b9c1d4e60_1700000000123456789.png"
                                 "image/png" "2023-11-14 22:13:20" ]})) None)) [] [])
              (Scenario.job0 true) Scenario.jobDir Scenario.inputPath EmptyString DefaultAIPrompt
              (Sha256.EncodeToString (Sha256.Sum256 "PNG image bytes"))
              (mkCachedResult "5f3e7a2b9c1d4e60_1700000000123456789.png" "image/png"
                 "/data/ai_cache/5f3e7a2b9c1d4e60_1700000000123456789.png" DefaultAIPrompt))
    as (w' & job' & rest & P & C & H & _).
  - reflexivity.
  - vm_compute. reflexivity.
  - vm_compute. reflexivity.
  - exists w', job', rest. auto.
Defined.

Lemma X17_cache_failure_falls_back_witness :
  exists (w' : World) (job' : Job) (rest : list (list string)),
    processJob Scenario.server (oracle_answering (Some "database is locked")) Scenario.world0
               (Scenario.job0 true) Scenario.jobDir Scenario.inputPath "AIzaSy-secret-1"
               DefaultAIPrompt
    = Finished w' job' /\
    AIImageFilename job' = EmptyString /\
    index (disk w') = Scenario.empty_index /\
    commands w'
    = autotrace_argv "/data/uploads/1700000000000000000/output.svg"
        "/data/uploads/1700000000000000000/ai_generated.png" :: rest.
Proof.
  destruct (X17_cache_failure_falls_back Scenario.server
              (oracle_answering (Some "database is locked")) Scenario.world0
              (Scenario.job0 true) Scenario.jobDir Scenario.inputPath "AIzaSy-secret-1"
              DefaultAIPrompt (Sha256.EncodeToString (Sha256.Sum256 "PNG image bytes"))
              "PNG line art" "image/png" "insert cache record: database is locked")
    as (w' & job' & P & I & A & _ & (rest & C) & _).
  - reflexivity.
  - vm_compute. reflexivity.
  - intros c. vm_compute. discriminate.
  - discriminate.
  - vm_compute. reflexivity.
  - vm_compute. reflexivity.
  - exists w', job', rest. split; [exact P|]. split; [exact A|]. split; [|exact C].
    rewrite I. vm_compute. reflexivity.
Defined.

Lemma X18_stored_result_is_reused_witness :
  exists (w' : World) (job' : Job),
    processJob Scenario.server (oracle_answering None) Scenario.world0
               (Scenario.job0 true) Scenario.jobDir Scenario.inputPath "AIzaSy-secret-1"
               DefaultAIPrompt
    = Finished w' job' /\
    AIImageFilename job' = "c9b4b9d43e814526_1700000000123456789.png" /\
    exists (w2 : World) (job2' : Job),
      processJob Scenario.server (oracle_answering None) w' (Scenario.job0 true)
                 "/data/uploads/1700000000999999999" Scenario.inputPath EmptyString DefaultAIPrompt
      = Finished w2 job2' /\
      http_calls w2 = http_calls w' /\ AIImageCached job2' = true.
Proof.
  destruct (X18_stored_result_is_reused Scenario.server (oracle_answering None) Scenario.world0
              (Scenario.job0 true) Scenario.jobDir Scenario.inputPath "AIzaSy-secret-1"
              DefaultAIPrompt (Sha256.EncodeToString (Sha256.Sum256 "PNG image bytes"))
              "PNG line art" "image/png"
              (mkCachedResult "c9b4b9d43e814526_1700000000123456789.png" "image/png"
                 "/data/ai_cache/c9b4b9d43e814526_1700000000123456789.png" DefaultAIPrompt))
    as (w' & job' & P & A & _ & _ & _ & Again).
  - reflexivity.
  - vm_compute. reflexivity.
  - intros c. vm_compute. discriminate.
  - discriminate.
  - vm_compute. reflexivity.
  - vm_compute. reflexivity.
  - exists w', job'. split; [exact P|]. split; [exact A|].
    destruct (Again (oracle_answering None) (Scenario.job0 true)
                "/data/uploads/1700000000999999999" Scenario.inputPath EmptyString)
      as (w2 & job2' & P2 & H2 & C2 & _).
    + reflexivity.
    + reflexivity.
    + assert (E : w' = match processJob Scenario.server (oracle_answering None) Scenario.world0
                                (Scenario.job0 true) Scenario.jobDir Scenario.inputPath
                                "AIzaSy-secret-1" DefaultAIPrompt with
                         | Finished x _ | Crashed x _ => x
                         end) by now rewrite P.
      rewrite E. vm_compute. reflexivity.
    + exists w2, job2'. auto.
Defined.

(** X19: what [callGeminiAPI] returns for an answer of the service does not
    depend on the credential. For two credentials that both give a
    well-formed URL, when the request is answered (the transport does not
    fail), the returned image or error is the same: the errors built from
    the response, its status and its body carry no part of the URL. The
    same holds when the input file cannot be read, and then no request is
    sent. *)
Theorem X19_answers_do_not_carry_the_key (s : Server) (o : Oracle) (w : World)
    (inputPath key1 key2 prompt : string) :
  Net.parse_error (gemini_endpoint +:+ key1) = None ->
  Net.parse_error (gemini_endpoint +:+ key2) = None ->
  (forall cause, http o <> TransportError cause) ->
  snd (callGeminiAPI s o w inputPath key1 prompt) = snd (callGeminiAPI s o w inputPath key2 prompt) /\
  (files (disk w) !! inputPath = None ->
   fst (callGeminiAPI s o w inputPath key1 prompt) = w /\
   snd (callGeminiAPI s o w inputPath key1 prompt)
   = Fail ("read input image: " +:+ not_exist_error "open" inputPath)).
Proof.
  intros P1 P2 HT. unfold callGeminiAPI.
  destruct (files (disk w) !! inputPath) as [data|]; [|split; [reflexivity | now split]].
  split; [|discriminate]. cbv zeta. rewrite P1, P2.
  destruct (http o) as [cause|cause|status errMessage candidates].
  - now destruct (HT cause).
  - reflexivity.
  - destruct (negb (status =? 200)).
    + destruct errMessage as [[|c m]|]; reflexivity.
    + destruct candidates as [cands|e]; [|reflexivity].
      destruct (first_inline cands) as [inline|]; [|reflexivity].
      destruct (inline_data inline); reflexivity.
Qed.

Lemma X19_answers_do_not_carry_the_key_witness :
  snd (callGeminiAPI Scenario.server
         (Scenario.oracle_for Scenario.traced_document
            (Response 403 (Some "API key not valid. Please pass a valid API key.") (inl [])))
         Scenario.world0 Scenario.inputPath "AIzaSy-secret-1" DefaultAIPrompt)
  = Fail "API error: API key not valid. Please pass a valid API key." /\
  snd (callGeminiAPI Scenario.server
         (Scenario.oracle_for Scenario.traced_document
            (Response 403 (Some "API key not valid. Please pass a valid API key.") (inl [])))
         Scenario.world0 Scenario.inputPath "AIzaSy-secret-2" DefaultAIPrompt)
  = Fail "API error: API key not valid. Please pass a valid API key.".
Proof.
  destruct (X19_answers_do_not_carry_the_key Scenario.server
              (Scenario.oracle_for Scenario.traced_document
                 (Response 403 (Some "API key not valid. Please pass a valid API key.") (inl [])))
              Scenario.world0 Scenario.inputPath "AIzaSy-secret-1" "AIzaSy-secret-2"
              DefaultAIPrompt) as [E _].
  - vm_compute. reflexivity.
  - vm_compute. reflexivity.
  - intros cause. discriminate.
  - split; [|rewrite <- E]; vm_compute; reflexivity.
Defined.

Section KeyIndependence.

Lemma run_command_requests (w1 w2 : World) (argv : list string) (p : ProcOutcome) (out : string) :
  same_but_requests w1 w2 ->
  same_but_requests (run_command w1 argv p out) (run_command w2 argv p out).
Proof.
  intros [D C]. unfold run_command, same_but_requests, write_file, set_disk.
  destruct (proc_output p); cbn [disk commands]; now rewrite D, C.
Qed.

Lemma filterWhitePaths_requests (w1 w2 : World) (e : option string) (path : string) :
  same_but_requests w1 w2 ->
  same_but_requests (fst (filterWhitePaths w1 e path)) (fst (filterWhitePaths w2 e path)) /\
  snd (filterWhitePaths w1 e path) = snd (filterWhitePaths w2 e path).
Proof.
  intros [D C]. unfold filterWhitePaths, same_but_requests, write_file, set_disk. rewrite D.
  destruct (files (disk w2) !! path); [|cbn [fst snd]; now rewrite D].
  destruct e; cbn [fst snd disk commands]; now rewrite ?D, C.
Qed.

(** The later stages do not look at the requests sent. *)
Lemma convert_stages_requests (o : Oracle) (w1 w2 : World) (job : Job)
    (svgPath gcodePath inputPath : string) :
  same_but_requests w1 w2 ->
  same_but_requests (fst (convert_stages o w1 job svgPath gcodePath inputPath))
                    (fst (convert_stages o w2 job svgPath gcodePath inputPath)) /\
  snd (convert_stages o w1 job svgPath gcodePath inputPath)
  = snd (convert_stages o w2 job svgPath gcodePath inputPath).
Proof.
  intros H. unfold convert_stages. cbv zeta.
  pose proof (run_command_requests w1 w2 (autotrace_argv svgPath inputPath) (autotrace o)
                svgPath H) as H1.
  destruct (proc_err (autotrace o)); [cbn [fst snd]; now split|].
  destruct (filterWhitePaths_requests _ _ (filter_write_err o) svgPath H1) as [H2 E2].
  destruct (filterWhitePaths (run_command w1 (autotrace_argv svgPath inputPath) (autotrace o) svgPath)
              (filter_write_err o) svgPath) as [wa fa].
  destruct (filterWhitePaths (run_command w2 (autotrace_argv svgPath inputPath) (autotrace o) svgPath)
              (filter_write_err o) svgPath) as [wb fb].
  cbn [fst snd] in H2, E2. subst fb. destruct H2 as [D2 C2]. rewrite D2.
  destruct (getSVGDimensions (files (disk wb) !! svgPath)) as [svgWidth svgHeight].
  destruct (scaleToFit svgWidth svgHeight _ _) as [scaledWidth scaledHeight].
  destruct (proc_err (svg2gcode o)); cbn [fst snd];
    (split; [apply run_command_requests; now split | reflexivity]).
Qed.

Lemma callGeminiAPI_keys (s : Server) (o : Oracle) (w : World)
    (inputPath key1 key2 prompt : string) :
  Net.parse_error (gemini_endpoint +:+ key1) = None ->
  Net.parse_error (gemini_endpoint +:+ key2) = None ->
  (forall cause, http o <> TransportError cause) ->
  snd (callGeminiAPI s o w inputPath key1 prompt) = snd (callGeminiAPI s o w inputPath key2 prompt).
Proof.
  intros P1 P2 HT. unfold callGeminiAPI.
  destruct (files (disk w) !! inputPath) as [data|]; [|reflexivity].
  cbv zeta. rewrite P1, P2.
  destruct (http o) as [cause|cause|status errMessage candidates].
  - now destruct (HT cause).
  - reflexivity.
  - destruct (negb (status =? 200)).
    + destruct errMessage as [[|c m]|]; reflexivity.
    + destruct candidates as [cands|e]; [|reflexivity].
      destruct (first_inline cands) as [inline|]; [|reflexivity].
      destruct (inline_data inline); reflexivity.
Qed.

End KeyIndependence.

Section KeyIndependentRuns.
Variables (s : Server) (o : Oracle) (w : World) (job : Job).
Variables (jobDir inputPath key1 key2 aiPrompt : string).
Hypothesis K1 : key1 <> EmptyString.
Hypothesis K2 : key2 <> EmptyString.
Hypothesis P1 : Net.parse_error (gemini_endpoint +:+ key1) = None.
Hypothesis P2 : Net.parse_error (gemini_endpoint +:+ key2) = None.
Hypothesis HT : forall cause, http o <> TransportError cause.

Lemma ai_stage_keys :
  match ai_stage s o w job jobDir inputPath key1 aiPrompt,
        ai_stage s o w job jobDir inputPath key2 aiPrompt with
  | Continue w1 j1 p1, Continue w2 j2 p2 => same_but_requests w1 w2 /\ j1 = j2 /\ p1 = p2
  | Stop w1 j1, Stop w2 j2 => same_but_requests w1 w2 /\ j1 = j2
  | Crash w1 j1, Crash w2 j2 => same_but_requests w1 w2 /\ j1 = j2
  | _, _ => False
  end.
Proof.
  unfold ai_stage.
  destruct (HashFile (disk w) inputPath) as [hh|e|];
    [| split; [split|]; reflexivity | split; [split|]; reflexivity].
  destruct (Text.slice_to 16 hh); [|split; [split|]; reflexivity].
  destruct (Lookup (AICache s) (lookup_query_err o) (disk w) hh aiPrompt) as [d1 looked].
  cbv beta iota zeta.
  apply String.eqb_neq in K1, K2. rewrite K1, K2.
  destruct (callGeminiAPI_frame s o (set_disk w d1) inputPath key1 aiPrompt) as (D1 & C1 & _ & _).
  destruct (callGeminiAPI_frame s o (set_disk w d1) inputPath key2 aiPrompt) as (D2 & C2 & _ & _).
  pose proof (callGeminiAPI_keys s o (set_disk w d1) inputPath key1 key2 aiPrompt P1 P2 HT) as E.
  cbv zeta in D1, C1, D2, C2.
  destruct (callGeminiAPI s o (set_disk w d1) inputPath key1 aiPrompt) as [wa ca].
  destruct (callGeminiAPI s o (set_disk w d1) inputPath key2 aiPrompt) as [wb cb].
  cbn [fst snd] in *. subst cb.
  assert (R : same_but_requests wa wb) by (split; congruence).
  assert (RS : forall d, same_but_requests (set_disk wa d) (set_disk wb d)).
  { intros d. destruct R as [_ C]. split; [reflexivity | exact C]. }
  assert (RW : forall d p x, same_but_requests (write_file (set_disk wa d) p x)
                                                (write_file (set_disk wb d) p x)).
  { intros d p x. destruct R as [_ C]. split; [reflexivity | exact C]. }
  rewrite D1, D2.
  assert (Rr : forall x : World, same_but_requests x x) by (intros x; split; reflexivity).
  assert (Miss : forall job1 : Job,
    match
      match ca with
      | Done (imageData, mimeType) =>
          let '(d, stored) :=
            Store (AICache s) (clock o) (store_write_err o) (store_insert_err o)
                  (disk (set_disk w d1)) hh aiPrompt imageData mimeType in
          match stored with
          | Done result =>
              Continue (set_disk wa d)
                (log_write
                   (log_write
                      (set_AIImage (log_write job1 ("Cache MISS - calling Gemini API..." +:+ Text.NL))
                         (Filename result)
                         (AIImageCached (log_write job1 ("Cache MISS - calling Gemini API..." +:+ Text.NL))))
                      ("AI transformation complete, saved as: " +:+ Filepath.Base (FullPath result) +:+ Text.NL))
                   Text.NL)
                (FullPath result)
          | Fail err =>
              match job_write_err o with
              | Some err0 =>
                  Stop (set_disk wa d)
                    (set_Status
                       (log_write
                          (log_write (log_write job1 ("Cache MISS - calling Gemini API..." +:+ Text.NL))
                             ("Warning: failed to cache result: " +:+ err +:+ Text.NL))
                          ("Error saving AI image: " +:+ err0 +:+ Text.NL)) "error")
              | None =>
                  Continue
                    (write_file (set_disk wa d)
                       (Filepath.Join jobDir
                          ("ai_generated" +:+ (if String.eqb mimeType "image/jpeg" then ".jpg" else ".png")))
                       imageData)
                    (log_write
                       (log_write
                          (log_write (log_write job1 ("Cache MISS - calling Gemini API..." +:+ Text.NL))
                             ("Warning: failed to cache result: " +:+ err +:+ Text.NL))
                          ("AI transformation complete, saved as: " +:+
                           Filepath.Base
                             (Filepath.Join jobDir
                                ("ai_generated" +:+
                                 (if String.eqb mimeType "image/jpeg" then ".jpg" else ".png"))) +:+ Text.NL))
                       Text.NL)
                    (Filepath.Join jobDir
                       ("ai_generated" +:+ (if String.eqb mimeType "image/jpeg" then ".jpg" else ".png")))
              end
          | Panics => Crash (set_disk wa d) (log_write job1 ("Cache MISS - calling Gemini API..." +:+ Text.NL))
          end
      | Fail err =>
          Stop wa
            (set_Status (log_write (log_write job1 ("Cache MISS - calling Gemini API..." +:+ Text.NL))
               ("AI transformation error: " +:+ err +:+ Text.NL)) "error")
      | Panics => Crash wa (log_write job1 ("Cache MISS - calling Gemini API..." +:+ Text.NL))
      end,
      match ca with
      | Done (imageData, mimeType) =>
          let '(d, stored) :=
            Store (AICache s) (clock o) (store_write_err o) (store_insert_err o)
                  (disk (set_disk w d1)) hh aiPrompt imageData mimeType in
          match stored with
          | Done result =>
              Continue (set_disk wb d)
                (log_write
                   (log_write
                      (set_AIImage (log_write job1 ("Cache MISS - calling Gemini API..." +:+ Text.NL))
                         (Filename result)
                         (AIImageCached (log_write job1 ("Cache MISS - calling Gemini API..." +:+ Text.NL))))
                      ("AI transformation complete, saved as: " +:+ Filepath.Base (FullPath result) +:+ Text.NL))
                   Text.NL)
                (FullPath result)
          | Fail err =>
              match job_write_err o with
              | Some err0 =>
                  Stop (set_disk wb d)
                    (set_Status
                       (log_write
                          (log_write (log_write job1 ("Cache MISS - calling Gemini API..." +:+ Text.NL))
                             ("Warning: failed to cache result: " +:+ err +:+ Text.NL))
                          ("Error saving AI image: " +:+ err0 +:+ Text.NL)) "error")
              | None =>
                  Continue
                    (write_file (set_disk wb d)
                       (Filepath.Join jobDir
                          ("ai_generated" +:+ (if String.eqb mimeType "image/jpeg" then ".jpg" else ".png")))
                       imageData)
                    (log_write
                       (log_write
                          (log_write (log_write job1 ("Cache MISS - calling Gemini API..." +:+ Text.NL))
                             ("Warning: failed to cache result: " +:+ err +:+ Text.NL))
                          ("AI transformation complete, saved as: " +:+
                           Filepath.Base
                             (Filepath.Join jobDir
                                ("ai_generated" +:+
                                 (if String.eqb mimeType "image/jpeg" then ".jpg" else ".png"))) +:+ Text.NL))
                       Text.NL)
                    (Filepath.Join jobDir
                       ("ai_generated" +:+ (if String.eqb mimeType "image/jpeg" then ".jpg" else ".png")))
              end
          | Panics => Crash (set_disk wb d) (log_write job1 ("Cache MISS - calling Gemini API..." +:+ Text.NL))
          end
      | Fail err =>
          Stop wb
            (set_Status (log_write (log_write job1 ("Cache MISS - calling Gemini API..." +:+ Text.NL))
               ("AI transformation error: " +:+ err +:+ Text.NL)) "error")
      | Panics => Crash wb (log_write job1 ("Cache MISS - calling Gemini API..." +:+ Text.NL))
      end
    with
    | Continue w1 j1 p1, Continue w2 j2 p2 => same_but_requests w1 w2 /\ j1 = j2 /\ p1 = p2
    | Stop w1 j1, Stop w2 j2 => same_but_requests w1 w2 /\ j1 = j2
    | Crash w1 j1, Crash w2 j2 => same_but_requests w1 w2 /\ j1 = j2
    | _, _ => False
    end).
  { intros job1. destruct ca as [[imageData mimeType]|err|].
    - destruct (Store (AICache s) (clock o) (store_write_err o) (store_insert_err o)
                  (disk (set_disk w d1)) hh aiPrompt imageData mimeType) as [d3 stored].
      destruct stored as [result|err|].
      + split; [apply RS | split; reflexivity].
      + destruct (job_write_err o).
        * split; [apply RS | reflexivity].
        * split; [apply RW | split; reflexivity].
      + split; [apply RS | reflexivity].
    - split; [exact R | reflexivity].
    - split; [exact R | reflexivity]. }
  destruct looked as [[c|]|e|]; cbv beta iota zeta.
  - split; [apply Rr | split; reflexivity].
  - apply Miss.
  - apply Miss.
  - split; [apply Rr | reflexivity].
Qed.

Lemma processJob_keys :
  job_of (processJob s o w job jobDir inputPath key1 aiPrompt)
  = job_of (processJob s o w job jobDir inputPath key2 aiPrompt) /\
  same_but_requests (world_of (processJob s o w job jobDir inputPath key1 aiPrompt))
                    (world_of (processJob s o w job jobDir inputPath key2 aiPrompt)).
Proof.
  unfold processJob. cbv zeta. destruct (UseAI job); [|now repeat split].
  pose proof ai_stage_keys as A.
  destruct (ai_stage s o w job jobDir inputPath key1 aiPrompt) as [w1 j1 p1|w1 j1|w1 j1],
           (ai_stage s o w job jobDir inputPath key2 aiPrompt) as [w2 j2 p2|w2 j2|w2 j2];
    try now destruct A.
  - destruct A as (R & -> & ->).
    destruct (convert_stages_requests o w1 w2 j2 (Filepath.Join jobDir "output.svg")
                (Filepath.Join jobDir "output.gcode") p2 R) as [R' E].
    cbn [job_of world_of]. now split.
Qed.

End KeyIndependentRuns.

(* ===================================================================== *)
(** * Properties of the HTTP handlers *)
(* ===================================================================== *)

Section PathFacts.

Lemma rev_acc_app (s acc : string) :
  Text.string_rev_acc s acc = Text.string_rev_acc s EmptyString +:+ acc.
Proof.
  revert acc. induction s as [|c s IH]; intros acc; cbn [Text.string_rev_acc].
  - now rewrite app_nil_l.
  - rewrite (IH (String c acc)), (IH (String c EmptyString)).
    now rewrite app_assoc', app_cons, app_nil_l.
Qed.

Lemma rev_acc_snoc (s t acc : string) :
  Text.string_rev_acc (s +:+ t) acc = Text.string_rev_acc t (Text.string_rev_acc s acc).
Proof.
  revert acc. induction s as [|c s IH]; intros acc.
  - now rewrite app_nil_l.
  - rewrite app_cons. cbn [Text.string_rev_acc]. apply IH.
Qed.

Lemma rev_acc_involutive (s : string) :
  Text.string_rev_acc (Text.string_rev_acc s EmptyString) EmptyString = s.
Proof.
  induction s as [|c s IH]; [reflexivity|].
  cbn [Text.string_rev_acc]. rewrite (rev_acc_app s), rev_acc_snoc, IH. reflexivity.
Qed.

(** A character of a plain file name: neither a slash nor a dot. *)
Lemma ext_rev_shape (r acc : string) :
  all_chars plain_char acc = true ->
  (Filepath.ext_rev r acc = EmptyString \/
   exists e, Filepath.ext_rev r acc = String "." e /\ all_chars plain_char e = true) /\
  exists stem, Text.string_rev_acc r acc = stem +:+ Filepath.ext_rev r acc.
Proof.
  revert acc. induction r as [|c r IH]; intros acc Hacc; cbn [Filepath.ext_rev Text.string_rev_acc].
  - split; [now left|]. exists acc. clear. induction acc as [|x a IH]; [reflexivity|].
    now rewrite app_cons, <- IH.
  - destruct (Ascii.eqb_spec c "/") as [->|Hs].
    + split; [now left|]. eexists. rewrite rev_acc_app.
      instantiate (1 := Text.string_rev_acc r EmptyString +:+ String "/" acc).
      clear. generalize (Text.string_rev_acc r EmptyString +:+ String "/" acc).
      induction s as [|x a IH]; [reflexivity|]. now rewrite app_cons, <- IH.
    + destruct (Ascii.eqb_spec c ".") as [->|Hd].
      * split; [right; eauto|]. exists (Text.string_rev_acc r EmptyString). apply rev_acc_app.
      * apply IH. cbn [all_chars]. rewrite Hacc, andb_true_r.
        unfold plain_char, Text.is_not. apply andb_true_intro. split; apply negb_true_iff.
        -- now apply Ascii.eqb_neq.
        -- now apply Ascii.eqb_neq.
Qed.

Lemma Ext_shape (path : string) :
  (Filepath.Ext path = EmptyString \/
   exists e, Filepath.Ext path = String "." e /\ all_chars plain_char e = true) /\
  exists stem, path = stem +:+ Filepath.Ext path.
Proof.
  unfold Filepath.Ext.
  destruct (ext_rev_shape (Text.string_rev_acc path EmptyString) EmptyString eq_refl) as [H [stem E]].
  split; [exact H|]. exists stem. now rewrite rev_acc_involutive in E.
Qed.


Lemma split_on_nonempty (sep : ascii) (s : string) : Text.split_on sep s <> [].
Proof.
  destruct s as [|c s]; cbn [Text.split_on]; [discriminate|].
  destruct (Ascii.eqb c sep); [discriminate|]. now destruct (Text.split_on sep s).
Qed.

Lemma split_on_plain (e : string) :
  all_chars (Text.is_not "/") e = true -> Text.split_on "/" e = [e].
Proof.
  induction e as [|c e IH]; [reflexivity|].
  cbn [all_chars Text.split_on]. intros H. apply andb_prop in H as [Hc He].
  unfold Text.is_not in Hc. apply negb_true_iff in Hc. rewrite Hc, (IH He). reflexivity.
Qed.

Lemma split_on_snoc (a e : string) :
  all_chars (Text.is_not "/") e = true ->
  Text.split_on "/" (a +:+ "/" +:+ e) = Text.split_on "/" a ++ [e].
Proof.
  intros He. induction a as [|c a IH].
  - rewrite app_nil_l, app_cons, app_nil_l. cbn [Text.split_on Ascii.eqb Bool.eqb].
    now rewrite (split_on_plain e He).
  - rewrite app_cons. cbn [Text.split_on]. rewrite IH.
    destruct (Ascii.eqb c "/"); [reflexivity|].
    pose proof (split_on_nonempty "/" a) as N.
    destruct (Text.split_on "/" a) as [|x xs]; [now destruct N | reflexivity].
Qed.

(** A path element that [Clean] keeps as it is. *)
Lemma clean_go_snoc (rooted : bool) (comps out : list string) (e : string) :
  plain_element e = true ->
  Filepath.clean_go rooted (comps ++ [e]) out = Filepath.clean_go rooted comps out ++ [e].
Proof.
  intros He. unfold plain_element in He.
  apply andb_prop in He as [He1 He]. apply andb_prop in He1 as [He1 He2].
  apply andb_prop in He1 as [He0 He1].
  apply negb_true_iff in He0, He1, He2.
  revert out. induction comps as [|c comps IH]; intros out.
  - cbn [app Filepath.clean_go]. rewrite He0, He1, He2. cbn [orb rev]. reflexivity.
  - cbn [app Filepath.clean_go].
    destruct (String.eqb c EmptyString || String.eqb c "."); [apply IH|].
    destruct (String.eqb c ".."); [|apply IH].
    destruct out as [|top out']; [destruct rooted; apply IH|].
    destruct (String.eqb top ".."); apply IH.
Qed.

Lemma join_with_snoc (l : list string) (e : string) :
  Text.join_with "/" (l ++ [e])
  = match l with [] => e | _ => Text.join_with "/" l +:+ "/" +:+ e end.
Proof.
  induction l as [|x l IH]; [reflexivity|].
  cbn [app]. destruct l as [|y l].
  - reflexivity.
  - change (Text.join_with "/" (x :: (y :: l) ++ [e]))
      with (x +:+ "/" +:+ Text.join_with "/" ((y :: l) ++ [e])).
    rewrite IH. change (Text.join_with "/" (x :: y :: l))
      with (x +:+ "/" +:+ Text.join_with "/" (y :: l)).
    now rewrite !app_assoc'.
Qed.

Lemma plain_element_chars (e : string) :
  plain_element e = true -> all_chars (Text.is_not "/") e = true /\ e <> EmptyString.
Proof.
  unfold plain_element. intros H. apply andb_prop in H as [H1 H]. split; [exact H|].
  apply andb_prop in H1 as [H1 _]. apply andb_prop in H1 as [H1 _].
  apply negb_true_iff in H1. now apply String.eqb_neq in H1.
Qed.

(** [Join] of a directory and a plain element: a prefix that is empty or
    ends with a slash, then the element. *)
Lemma Join_plain (dir e : string) :
  plain_element e = true ->
  exists prefix : string,
    Filepath.Join dir e = prefix +:+ e /\
    (prefix = EmptyString \/ exists p, prefix = p +:+ "/").
Proof.
  intros He. destruct (plain_element_chars e He) as [Hs Hn].
  destruct dir as [|c dir].
  - exists EmptyString. split; [|now left]. rewrite app_nil_l.
    unfold Filepath.Join. destruct e as [|x e]; [now destruct Hn|].
    unfold Filepath.Clean. rewrite (split_on_plain _ Hs).
    change [String x e] with ([] ++ [String x e]). rewrite clean_go_snoc by exact He.
    cbn [Filepath.clean_go rev app Text.join_with].
    cbn [all_chars] in Hs. apply andb_prop in Hs as [Hx _].
    unfold Text.is_not in Hx. apply negb_true_iff in Hx. now rewrite Hx.
  - unfold Filepath.Join.
    destruct e as [|x e]; [now destruct Hn|].
    unfold Filepath.Clean. rewrite app_cons.
    rewrite <- (app_cons c dir), split_on_snoc by exact Hs.
    rewrite clean_go_snoc by exact He. rewrite join_with_snoc.
    destruct (Filepath.clean_go (Ascii.eqb c "/") (Text.split_on "/" (String c dir)) []) as [|y l].
    + destruct (Ascii.eqb c "/").
      * exists "/". split; [reflexivity | right; now exists EmptyString].
      * exists EmptyString. split; [reflexivity | now left].
    + destruct (Ascii.eqb c "/").
      * exists ("/" +:+ Text.join_with "/" (y :: l) +:+ "/"). split.
        -- now rewrite !app_assoc'.
        -- right. exists ("/" +:+ Text.join_with "/" (y :: l)). now rewrite !app_assoc'.
      * exists (Text.join_with "/" (y :: l) +:+ "/"). split.
        -- destruct (Text.join_with "/" (y :: l) +:+ "/" +:+ String x e) eqn:E.
           ++ apply (f_equal String.length) in E. rewrite !string_length_app in E.
              cbn [String.length] in E. lia.
           ++ now rewrite !app_assoc', E.
        -- right. now exists (Text.join_with "/" (y :: l)).
Qed.

Lemma take_until_slash_app (a b : string) :
  all_chars (Text.is_not "/") a = true ->
  (b = EmptyString \/ exists b', b = String "/" b') ->
  Filepath.take_until_slash (a +:+ b) = a.
Proof.
  intros Ha Hb. induction a as [|c a IH].
  - rewrite app_nil_l. destruct Hb as [->|[b' ->]]; reflexivity.
  - cbn [all_chars] in Ha. apply andb_prop in Ha as [Hc Ha].
    unfold Text.is_not in Hc. apply negb_true_iff in Hc.
    rewrite app_cons. cbn [Filepath.take_until_slash]. now rewrite Hc, IH.
Qed.

Lemma all_chars_rev_acc (cls : ascii -> bool) (s acc : string) :
  all_chars cls s = true -> all_chars cls acc = true ->
  all_chars cls (Text.string_rev_acc s acc) = true.
Proof.
  revert acc. induction s as [|c s IH]; intros acc Hs Ha; [exact Ha|].
  cbn [all_chars] in Hs. apply andb_prop in Hs as [Hc Hs].
  cbn [Text.string_rev_acc]. apply IH; [exact Hs|]. cbn [all_chars]. now rewrite Hc, Ha.
Qed.

Lemma Base_plain (prefix e : string) :
  all_chars (Text.is_not "/") e = true -> e <> EmptyString ->
  (prefix = EmptyString \/ exists p, prefix = p +:+ "/") ->
  Filepath.Base (prefix +:+ e) = e.
Proof.
  intros Hs Hn Hp. unfold Filepath.Base.
  destruct (prefix +:+ e) eqn:E.
  { apply (f_equal String.length) in E. rewrite string_length_app in E.
    destruct e; [now destruct Hn | cbn [String.length] in E; lia]. }
  rewrite <- E. clear E.
  rewrite rev_acc_snoc, rev_acc_app.
  set (re := Text.string_rev_acc e EmptyString).
  assert (Hre : all_chars (Text.is_not "/") re = true) by now apply all_chars_rev_acc.
  assert (Nre : re <> EmptyString).
  { intros Z. apply Hn. rewrite <- (rev_acc_involutive e). fold re. now rewrite Z. }
  destruct re as [|x re'] eqn:R; [now destruct Nre|].
  cbn [all_chars] in Hre. apply andb_prop in Hre as [Hx Hre].
  assert (Hx' : Ascii.eqb x "/" = false) by (unfold Text.is_not in Hx; now apply negb_true_iff in Hx).
  rewrite app_cons.
  assert (St : forall t, Filepath.strip_trailing_slashes_rev (String x t) = String x t).
  { intros t. cbn [Filepath.strip_trailing_slashes_rev].
    destruct x as [[] [] [] [] [] [] [] []]; try reflexivity. discriminate Hx'. }
  rewrite St. rewrite <- app_cons.
  rewrite take_until_slash_app.
  - rewrite <- R. apply rev_acc_involutive.
  - cbn [all_chars]. now rewrite Hx, Hre.
  - destruct Hp as [->|[p ->]]; [now left | right].
    rewrite rev_acc_snoc. cbn [Text.string_rev_acc]. eexists; reflexivity.
Qed.

End PathFacts.

Section DownloadName.

Lemma substring_app_l (a b : string) : substring 0 (String.length a) (a +:+ b) = a.
Proof.
  induction a as [|c a IH].
  - rewrite app_nil_l. now destruct b.
  - rewrite app_cons. cbn [String.length substring]. now rewrite IH.
Qed.

Lemma substring_all (b : string) : substring 0 (String.length b) b = b.
Proof. induction b as [|c b IH]; [reflexivity|]. cbn [String.length substring]. now rewrite IH. Qed.

Lemma substring_app_r (a b : string) :
  substring (String.length a) (String.length b) (a +:+ b) = b.
Proof.
  induction a as [|c a IH].
  - rewrite app_nil_l. apply substring_all.
  - rewrite app_cons. cbn [String.length substring]. exact IH.
Qed.

Lemma TrimSuffix_app (stem ext : string) : Str.TrimSuffix (stem +:+ ext) ext = stem.
Proof.
  unfold Str.TrimSuffix, Str.HasSuffix. rewrite string_length_app.
  replace (String.length stem + String.length ext - String.length ext)%nat
    with (String.length stem) by lia.
  rewrite substring_app_r, String.eqb_refl, substring_app_l.
  destruct (Nat.leb_spec (String.length ext) (String.length stem + String.length ext)); [reflexivity | lia].
Qed.

Lemma Ext_gcode (stem : string) : Filepath.Ext (stem +:+ ".gcode") = ".gcode".
Proof. unfold Filepath.Ext. rewrite rev_acc_snoc. reflexivity. Qed.

Lemma quote_byte_no_ctl (c : ascii) : Net.has_ctl (Net.quote_byte c) = false.
Proof. destruct c as [[] [] [] [] [] [] [] []]; vm_compute; reflexivity. Qed.

Lemma has_ctl_app (a b : string) : Net.has_ctl (a +:+ b) = Net.has_ctl a || Net.has_ctl b.
Proof.
  induction a as [|c a IH]; [reflexivity|].
  rewrite app_cons. cbn [Net.has_ctl]. now rewrite IH, !orb_assoc.
Qed.

Lemma Quote_no_ctl (s : string) : Net.has_ctl (Net.Quote s) = false.
Proof.
  unfold Net.Quote. rewrite !has_ctl_app.
  assert (B : Net.has_ctl (Net.quote_body s) = false).
  { induction s as [|c s IH]; [reflexivity|].
    cbn [Net.quote_body]. now rewrite has_ctl_app, quote_byte_no_ctl, IH. }
  rewrite B. reflexivity.
Qed.

Lemma quote_byte_copied (c : ascii) :
  copied_byte c = true -> Net.quote_byte c = String c EmptyString.
Proof. destruct c as [[] [] [] [] [] [] [] []]; vm_compute; congruence. Qed.

Lemma Quote_copied (s : string) :
  all_chars copied_byte s = true -> Net.Quote s = Text.DQ +:+ s +:+ Text.DQ.
Proof.
  intros A. unfold Net.Quote. f_equal. f_equal.
  induction s as [|c s IH]; [reflexivity|].
  cbn [all_chars] in A. apply andb_true_iff in A. destruct A as [A1 A2].
  cbn [Net.quote_body]. now rewrite (quote_byte_copied c A1), (IH A2).
Qed.

End DownloadName.

(** X24: the name that [HandleDownload] offers. The original name is a stem
    followed by its extension, the text from the last dot of its last
    element, or nothing; the offered name is the stem followed by [.gcode],
    so the original name followed by [.gcode] when there is no extension;
    its own extension is [.gcode]. For an original name of ASCII bytes the
    offered name has ASCII bytes only and the value of the
    [Content-Disposition] header, where the name is quoted with [%q],
    contains no control character. For an original name of printable
    ASCII without a double quote or a backslash the header value is
    [attachment; filename=] followed by the offered name between double
    quotes. *)
Theorem X24_download_name (originalName : string) :
  exists stem : string,
    originalName = stem +:+ Filepath.Ext originalName /\
    downloadName originalName = stem +:+ ".gcode" /\
    (Filepath.Ext originalName = EmptyString ->
     downloadName originalName = originalName +:+ ".gcode") /\
    Filepath.Ext (downloadName originalName) = ".gcode" /\
    (all_chars ascii_byte originalName = true ->
     all_chars ascii_byte (downloadName originalName) = true /\
     Net.has_ctl ("attachment; filename=" +:+ Net.Quote (downloadName originalName)) = false) /\
    (all_chars copied_byte originalName = true ->
     "attachment; filename=" +:+ Net.Quote (downloadName originalName)
     = "attachment; filename=" +:+ Text.DQ +:+ stem +:+ ".gcode" +:+ Text.DQ).
Proof.
  destruct (Ext_shape originalName) as [_ [stem E]]. exists stem.
  assert (D : downloadName originalName = stem +:+ ".gcode").
  { unfold downloadName. rewrite E at 1. now rewrite TrimSuffix_app. }
  split; [exact E|]. split; [exact D|]. split; [|split; [|split]].
  - intros Z. rewrite D. rewrite Z in E. rewrite E.
    now rewrite app_assoc', app_nil_l.
  - rewrite D. apply Ext_gcode.
  - intros A. split.
    + rewrite D. rewrite E in A. rewrite all_chars_app in A |- *.
      apply andb_true_iff in A. destruct A as [A _]. now rewrite A.
    + rewrite has_ctl_app, Quote_no_ctl. reflexivity.
  - intros A. rewrite D. rewrite Quote_copied.
    + now rewrite !app_assoc'.
    + rewrite E in A. rewrite all_chars_app in A |- *.
      apply andb_true_iff in A. destruct A as [A _]. now rewrite A.
Qed.

Section HandlerFacts.

Lemma log_streams_name (job : Job) (p : ProcOutcome) :
  OriginalName (log_streams job p) = OriginalName job /\ ID (log_streams job p) = ID job.
Proof. unfold log_streams. now destruct (proc_stdout p), (proc_stderr p). Qed.

Lemma convert_stages_name (o : Oracle) (w : World) (job : Job)
    (svgPath gcodePath inputPath : string) :
  OriginalName (snd (convert_stages o w job svgPath gcodePath inputPath)) = OriginalName job /\
  ID (snd (convert_stages o w job svgPath gcodePath inputPath)) = ID job.
Proof.
  unfold convert_stages. cbv zeta.
  destruct (proc_err (autotrace o)); [|
    destruct (filterWhitePaths _ _ _) as [w2 fe];
    destruct (getSVGDimensions _) as [svgWidth svgHeight];
    destruct (scaleToFit _ _ _ _) as [scaledWidth scaledHeight];
    destruct (proc_err (svg2gcode o)), fe ];
  repeat first [ progress cbn [snd set_Status set_GCodePath log_write OriginalName ID]
               | rewrite (proj1 (log_streams_name _ _))
               | rewrite (proj2 (log_streams_name _ _)) ];
  split; reflexivity.
Qed.

(** A run keeps the name and the ID of its job, and ends as the later
    stages say. *)
Lemma processJob_job (s : Server) (o : Oracle) (w : World) (job : Job)
    (jobDir inputPath apiKey aiPrompt : string) :
  let job' := job_of (processJob s o w job jobDir inputPath apiKey aiPrompt) in
  OriginalName job' = OriginalName job /\ ID job' = ID job /\
  ((Status job' = "done" /\ GCodePath job' = Filepath.Join jobDir "output.gcode" /\
    proc_err (autotrace o) = None /\ proc_err (svg2gcode o) = None) \/
   (Status job' = "error" /\ GCodePath job' = GCodePath job)).
Proof.
  cbv zeta. unfold processJob. cbv zeta. destruct (UseAI job).
  - pose proof (ai_stage_frame s o w job jobDir inputPath apiKey aiPrompt) as F.
    destruct (ai_stage s o w job jobDir inputPath apiKey aiPrompt) as [w1 job1 input|w1 job1|w1 job1].
    + destruct F as (_ & (I & G & N & _) & _). cbn [job_of fst snd].
      destruct (convert_stages_name o w1 job1 (Filepath.Join jobDir "output.svg")
                  (Filepath.Join jobDir "output.gcode") input) as [N' I'].
      split; [congruence|]. split; [congruence|].
      destruct (convert_stages_status o w1 job1 (Filepath.Join jobDir "output.svg")
                  (Filepath.Join jobDir "output.gcode") input) as [(S1 & S2 & S3 & S4)|(S1 & S2 & _)].
      * left. auto.
      * right. split; [exact S1 | congruence].
    + destruct F as (St & (I & G & N & _) & _). cbn [job_of]. auto.
    + destruct F.
  - cbn [job_of fst snd].
    destruct (convert_stages_name o w job (Filepath.Join jobDir "output.svg")
                (Filepath.Join jobDir "output.gcode") inputPath) as [N' I'].
    split; [exact N'|]. split; [exact I'|].
    destruct (convert_stages_status o w job (Filepath.Join jobDir "output.svg")
                (Filepath.Join jobDir "output.gcode") inputPath) as [(S1 & S2 & S3 & S4)|(S1 & S2 & _)].
    + left. auto.
    + right. auto.
Qed.

Lemma Clean_nonempty (path : string) : Filepath.Clean path <> EmptyString.
Proof.
  unfold Filepath.Clean. destruct path as [|c p]; [discriminate|].
  cbv zeta. destruct (Ascii.eqb c "/"); [discriminate|].
  now destruct (Text.join_with "/" _).
Qed.

Lemma Join_nonempty (a b : string) : b <> EmptyString -> Filepath.Join a b <> EmptyString.
Proof.
  intros Hb. unfold Filepath.Join. destruct a, b; try apply Clean_nonempty. now destruct Hb.
Qed.

Lemma HandleDownload_registered (st : Site) (jobID : string) (j : Job) :
  HandleDownload (register st jobID j) jobID
  = if negb (String.eqb (Status j) "done") || String.eqb (GCodePath j) EmptyString
    then HttpError "File not available" 404
    else HttpServeFile
           [("Content-Disposition",
             "attachment; filename=" +:+ Net.Quote (downloadName (OriginalName j)));
            ("Content-Type", "application/octet-stream")]
           (GCodePath j).
Proof. unfold HandleDownload, register. cbn [jobs]. now rewrite lookup_insert_eq. Qed.

End HandlerFacts.

(** X23: a download is served exactly for a job whose run ended with status
    [done]. After a run of [processJob] on a registered job,
    [HandleDownload] serves [output.gcode] of the job directory, under the
    name made from the original name, when the status is [done], which
    requires that the tracer and the generator both returned without an
    error; for every other outcome of the run, and for a job that is
    still [processing], it answers 404. *)
Theorem X23_download_after_run (st : Site) (o : Oracle) (w : World) (job : Job)
    (jobID jobDir inputPath apiKey aiPrompt : string) :
  let job' := job_of (processJob (site_server st) o w job jobDir inputPath apiKey aiPrompt) in
  (Status job' = "done" ->
   proc_err (autotrace o) = None /\ proc_err (svg2gcode o) = None /\
   HandleDownload (register st jobID job') jobID
   = HttpServeFile
       [("Content-Disposition",
         "attachment; filename=" +:+ Net.Quote (downloadName (OriginalName job)));
        ("Content-Type", "application/octet-stream")]
       (Filepath.Join jobDir "output.gcode")) /\
  (Status job' <> "done" ->
   HandleDownload (register st jobID job') jobID = HttpError "File not available" 404) /\
  (Status job <> "done" ->
   HandleDownload (register st jobID job) jobID = HttpError "File not available" 404).
Proof.
  cbv zeta.
  destruct (processJob_job (site_server st) o w job jobDir inputPath apiKey aiPrompt)
    as (N & _ & R). cbv zeta in N, R.
  set (job' := job_of (processJob (site_server st) o w job jobDir inputPath apiKey aiPrompt)) in *.
  assert (Miss : forall j, Status j <> "done" ->
            HandleDownload (register st jobID j) jobID = HttpError "File not available" 404).
  { intros j H. unfold HandleDownload, register. cbn [jobs]. rewrite lookup_insert_eq.
    apply String.eqb_neq in H. now rewrite H. }
  split; [|split; [apply Miss | apply Miss]].
  intros D. destruct R as [(S1 & S2 & S3 & S4)|(S1 & _)]; [|congruence].
  split; [exact S3|]. split; [exact S4|].
  unfold HandleDownload, register. cbn [jobs]. rewrite lookup_insert_eq.
  rewrite S1, S2, N. cbn [String.eqb Ascii.eqb Bool.eqb negb orb].
  destruct (String.eqb_spec (Filepath.Join jobDir "output.gcode") EmptyString) as [Z|_];
    [|reflexivity].
  now apply Join_nonempty in Z.
Qed.

Section UploadFacts.
Variable parse : string -> F64.float64 * bool.

Lemma form_dimension_positive (raw : string) :
  F64.ltb F64.zero (form_dimension parse raw) = true.
Proof.
  unfold form_dimension. destruct (String.eqb raw EmptyString); [reflexivity|].
  destruct (parse raw) as [v ok]. destruct ok; [|reflexivity].
  cbn [andb]. now destruct (F64.ltb F64.zero v) eqn:E.
Qed.

Lemma input_name_plain (filename : string) :
  plain_element ("input" +:+ Filepath.Ext filename) = true.
Proof.
  destruct (Ext_shape filename) as [[->|(e & -> & He)] _]; [reflexivity|].
  change ("input" +:+ String "." e)
    with (String "i" (String "n" (String "p" (String "u" (String "t" (String "." e)))))).
  unfold plain_element. cbn.
  apply (all_chars_impl plain_char); [|exact He].
  intros c H. unfold plain_char in H. now apply andb_prop in H as [H _].
Qed.

(** What a successful upload has done. *)
Lemma HandleUpload_spawned (st : Site) (d : Disk) (o : UploadOracle) (r : UploadRequest)
    (sp : Spawn) :
  spawned (HandleUpload parse st d o r) = Some sp ->
  exists filename content : string,
    FormFile_image r = inl (filename, content) /\
    let jobID := Text.dec_of_Z (id_UnixNano o) in
    let jobDir := Filepath.Join (UploadsDir st) jobID in
    let inputPath := Filepath.Join jobDir ("input" +:+ Filepath.Ext filename) in
    let orDefault (v dflt : string) := if String.eqb v EmptyString then dflt else v in
    let job := mkJob jobID "processing" EmptyString EmptyString filename (created_at o)
                     (form_dimension parse (FormValue r "maxWidth"))
                     (form_dimension parse (FormValue r "maxHeight"))
                     (orDefault (FormValue r "toolOn") "S4 M0")
                     (orDefault (FormValue r "toolOff") "S4 M100")
                     (String.eqb (FormValue r "useAI") "on" || String.eqb (FormValue r "useAI") "true")
                     EmptyString false in
    sp = mkSpawn job jobDir inputPath (FormValue r "apiKey")
                 (orDefault (FormValue r "aiPrompt") DefaultAIPrompt) /\
    HandleUpload parse st d o r
    = mkHandled (HttpRedirect ("/job/" +:+ jobID) 303) (register st jobID job)
                (set_files d (<[inputPath := content]> (files d))) (Some sp).
Proof.
  unfold HandleUpload. destruct (FormFile_image r) as [[filename content]|err]; [|discriminate].
  cbv zeta. destruct (MkdirAll_err o); [discriminate|].
  destruct (Create_err o); [discriminate|].
  destruct (Copy_err o) as [[err written]|]; [discriminate|].
  cbn [spawned]. intros E. exists filename, content. split; [reflexivity|].
  split; [congruence|]. now rewrite <- E.
Qed.

End UploadFacts.

(** X20: the settings of every job that [HandleUpload] starts, whatever the
    form holds and whatever [strconv.ParseFloat] makes of it: the maximum
    width and height compare above zero (200 takes the place of a value
    that is missing, unparsable, zero, negative or NaN), the two tool
    commands and the prompt are not empty, the job is [processing] with an
    empty log, no artifact path and no AI image, AI is on exactly for the
    form values [on] and [true], and the credential is handed to the run
    as the form gave it. *)
Theorem X20_upload_settings (parse : string -> F64.float64 * bool) (st : Site) (d : Disk)
    (o : UploadOracle) (r : UploadRequest) (sp : Spawn) :
  spawned (HandleUpload parse st d o r) = Some sp ->
  F64.ltb F64.zero (MaxWidth (go_job sp)) = true /\
  F64.ltb F64.zero (MaxHeight (go_job sp)) = true /\
  ToolOn (go_job sp) <> EmptyString /\ ToolOff (go_job sp) <> EmptyString /\
  go_aiPrompt sp <> EmptyString /\
  Status (go_job sp) = "processing" /\ Log (go_job sp) = EmptyString /\
  GCodePath (go_job sp) = EmptyString /\
  AIImageFilename (go_job sp) = EmptyString /\ AIImageCached (go_job sp) = false /\
  (UseAI (go_job sp) = true <-> FormValue r "useAI" = "on" \/ FormValue r "useAI" = "true") /\
  go_apiKey sp = FormValue r "apiKey".
Proof.
  intros H. destruct (HandleUpload_spawned parse st d o r sp H) as (filename & content & _ & -> & _).
  cbn [go_job go_aiPrompt go_apiKey MaxWidth MaxHeight ToolOn ToolOff Status Log GCodePath
       AIImageFilename AIImageCached UseAI].
  split; [apply form_dimension_positive|]. split; [apply form_dimension_positive|].
  assert (D : forall v dflt : string, dflt <> EmptyString ->
            (if String.eqb v EmptyString then dflt else v) <> EmptyString).
  { intros v dflt Hd. destruct (String.eqb_spec v EmptyString); assumption. }
  split; [apply D; discriminate|]. split; [apply D; discriminate|].
  split; [apply D; discriminate|].
  repeat (split; [reflexivity|]). split; [|reflexivity].
  rewrite orb_true_iff, !String.eqb_eq. reflexivity.
Qed.

Lemma X20_upload_settings_witness :
  exists sp : Spawn,
    spawned (HandleUpload F64.ParseFloat site0 Scenario.disk0 upload_oracle0
               (upload_of "drawing.png" "0" "50")) = Some sp /\
    MaxWidth (go_job sp) = F64.const "200" /\ MaxHeight (go_job sp) = F64.const "50" /\
    F64.ltb F64.zero (MaxWidth (go_job sp)) = true.
Proof.
  eexists. split; [reflexivity|]. split; [vm_compute; reflexivity|].
  split; [vm_compute; reflexivity|].
  exact (proj1 (X20_upload_settings F64.ParseFloat site0 Scenario.disk0 upload_oracle0
                  (upload_of "drawing.png" "0" "50") _ eq_refl)).
Defined.

(** X21: the uploaded file cannot leave its job directory. The job
    directory is the uploads directory joined with the decimal job ID; the
    input path is the job directory joined with [input] and the extension
    of the uploaded name, an element without a slash that is neither [.]
    nor [..]: the path ends with that element, after nothing or after a
    prefix that ends with a slash, and its base name is that element,
    whatever the uploaded name is. The file written there holds the
    uploaded bytes, no other file is written and the index is not
    touched, so the run that is started finds its input. *)
Theorem X21_upload_path (parse : string -> F64.float64 * bool) (st : Site) (d : Disk)
    (o : UploadOracle) (r : UploadRequest) (sp : Spawn) :
  spawned (HandleUpload parse st d o r) = Some sp ->
  exists filename content : string,
    FormFile_image r = inl (filename, content) /\
    ID (go_job sp) = Text.dec_of_Z (id_UnixNano o) /\
    OriginalName (go_job sp) = filename /\
    go_jobDir sp = Filepath.Join (UploadsDir st) (ID (go_job sp)) /\
    go_inputPath sp = Filepath.Join (go_jobDir sp) ("input" +:+ Filepath.Ext filename) /\
    all_chars (Text.is_not "/") ("input" +:+ Filepath.Ext filename) = true /\
    (exists prefix : string,
       go_inputPath sp = prefix +:+ "input" +:+ Filepath.Ext filename /\
       (prefix = EmptyString \/ exists p, prefix = p +:+ "/")) /\
    Filepath.Base (go_inputPath sp) = "input" +:+ Filepath.Ext filename /\
    let d' := disk_after (HandleUpload parse st d o r) in
    files d' !! go_inputPath sp = Some content /\
    (forall path, path <> go_inputPath sp -> files d' !! path = files d !! path) /\
    index d' = index d /\
    HashFile d' (go_inputPath sp) = Done (Sha256.EncodeToString (Sha256.Sum256 content)).
Proof.
  intros H. destruct (HandleUpload_spawned parse st d o r sp H)
    as (filename & content & F & -> & E).
  cbv zeta in E. rewrite E. clear E H.
  exists filename, content. cbn [go_job go_jobDir go_inputPath ID OriginalName disk_after].
  pose proof (input_name_plain filename) as P.
  destruct (plain_element_chars _ P) as [Hs Hn].
  destruct (Join_plain (Filepath.Join (UploadsDir st) (Text.dec_of_Z (id_UnixNano o)))
              ("input" +:+ Filepath.Ext filename) P) as (prefix & J & Hp).
  split; [exact F|]. repeat (split; [reflexivity|]). split; [exact Hs|].
  split; [exists prefix; split; [exact J | exact Hp]|].
  split; [rewrite J; now apply Base_plain|].
  cbv zeta. cbn [files index set_files].
  split; [apply lookup_insert_eq|]. split; [intros path N; now apply lookup_insert_ne|].
  split; [reflexivity|]. unfold HashFile. cbn [files set_files]. now rewrite lookup_insert_eq.
Qed.

Lemma X21_upload_path_witness :
  exists sp : Spawn,
    spawned (HandleUpload F64.ParseFloat site0 Scenario.disk0 upload_oracle0
               (upload_of "../../etc/passwd.d/x.tar.gz" "50" "50")) = Some sp /\
    go_inputPath sp = "/data/uploads/1700000000000000000/input.gz" /\
    Filepath.Base (go_inputPath sp) = "input.gz".
Proof.
  eexists. split; [reflexivity|]. split; [vm_compute; reflexivity|].
  destruct (X21_upload_path F64.ParseFloat site0 Scenario.disk0 upload_oracle0
              (upload_of "../../etc/passwd.d/x.tar.gz" "50" "50") _ eq_refl)
    as (filename & content & F & _ & _ & _ & _ & _ & _ & B & _).
  rewrite B. cbn [FormFile_image upload_of] in F.
  assert (filename = "../../etc/passwd.d/x.tar.gz") as -> by congruence.
  vm_compute. reflexivity.
Defined.

(** X22: what an upload registers. A successful upload answers with a
    redirect (303) to the status page of the new job, registers the job
    under its ID and no other, and leaves the other jobs as they were;
    right after it the status page of the job exists, with no drawing and
    no AI image yet, and a download of it is answered with 404. A failed
    upload (no file in the form: 400; the directory or the file cannot be
    written: 500) registers nothing, starts no run and leaves the index
    as it was. *)
Theorem X22_upload_registers (parse : string -> F64.float64 * bool) (st : Site) (d : Disk)
    (o : UploadOracle) (r : UploadRequest) :
  let h := HandleUpload parse st d o r in
  match spawned h with
  | Some sp =>
      let jobID := ID (go_job sp) in
      reply h = HttpRedirect ("/job/" +:+ jobID) 303 /\
      jobs (site_after h) !! jobID = Some (go_job sp) /\
      (forall other, other <> jobID -> jobs (site_after h) !! other = jobs st !! other) /\
      (forall other, other <> jobID ->
         HandleDownload (site_after h) other = HandleDownload st other) /\
      HandleDownload (site_after h) jobID = HttpError "File not available" 404 /\
      HandleJobStatus (site_after h) (disk_after h) jobID
      = RenderTemplate [("Content-Type", "text/html; charset=utf-8")] "job.html"
          (mkJobPage (go_job sp) EmptyString (Hostname st) EmptyString EmptyString)
  | None =>
      site_after h = st /\ index (disk_after h) = index d /\
      exists msg code, reply h = HttpError msg code /\ (code = 400 \/ code = 500) /\
        (code = 400 <-> exists err, FormFile_image r = inr err)
  end.
Proof.
  cbv zeta. destruct (spawned (HandleUpload parse st d o r)) as [sp|] eqn:S.
  - destruct (HandleUpload_spawned parse st d o r sp S) as (filename & content & F & -> & E).
    cbv zeta in E. rewrite E. clear E S.
    cbn [reply site_after disk_after go_job ID].
    split; [reflexivity|]. split; [apply lookup_insert_eq|].
    split; [intros other N; unfold register; cbn [jobs]; now apply lookup_insert_ne|].
    split; [intros other N; unfold HandleDownload, register; cbn [jobs];
            now rewrite lookup_insert_ne by congruence|].
    split.
    + unfold HandleDownload, register. cbn [jobs]. now rewrite lookup_insert_eq.
    + unfold HandleJobStatus, register. cbn [jobs]. rewrite lookup_insert_eq. reflexivity.
  - unfold HandleUpload in *. destruct (FormFile_image r) as [[filename content]|err].
    + cbv zeta in *. destruct (MkdirAll_err o).
      { cbn. repeat split. eexists _, _. split; [reflexivity|]. split; [now right|].
        split; [discriminate | intros [e He]; discriminate]. }
      destruct (Create_err o).
      { cbn. repeat split. eexists _, _. split; [reflexivity|]. split; [now right|].
        split; [discriminate | intros [e He]; discriminate]. }
      destruct (Copy_err o) as [[err written]|]; [|discriminate].
      cbn. repeat split. eexists _, _. split; [reflexivity|]. split; [now right|].
      split; [discriminate | intros [e He]; discriminate].
    + cbn. repeat split. eexists _, _. split; [reflexivity|]. split; [now left|].
      split; [eauto | reflexivity].
Qed.

(** X25: where the credential can show. For two credentials that are not
    empty and give a well-formed URL, when the transport does not fail, the
    two runs of [processJob] leave the same job, so the same log, status
    and artifact path, the same disk and the same commands: they differ at
    most in the request sent. The log on the status page depends on the
    credential only through a transport error, a malformed URL, or the
    credential being empty. *)
Theorem X25_job_depends_on_key_only_via_failures (s : Server) (o : Oracle) (w : World)
    (job : Job) (jobDir inputPath key1 key2 aiPrompt : string) :
  key1 <> EmptyString -> key2 <> EmptyString ->
  Net.parse_error (gemini_endpoint +:+ key1) = None ->
  Net.parse_error (gemini_endpoint +:+ key2) = None ->
  (forall cause, http o <> TransportError cause) ->
  let run1 := processJob s o w job jobDir inputPath key1 aiPrompt in
  let run2 := processJob s o w job jobDir inputPath key2 aiPrompt in
  job_of run1 = job_of run2 /\
  Log (job_of run1) = Log (job_of run2) /\
  disk (world_of run1) = disk (world_of run2) /\
  commands (world_of run1) = commands (world_of run2).
Proof.
  intros K1 K2 P1 P2 HT. cbv zeta.
  destruct (processJob_keys s o w job jobDir inputPath key1 key2 aiPrompt K1 K2 P1 P2 HT)
    as [E [D C]].
  rewrite E. auto.
Qed.

Lemma X25_job_depends_on_key_only_via_failures_witness :
  Log (job_of (processJob Scenario.server (oracle_answering None) Scenario.world0
                 (Scenario.job0 true) Scenario.jobDir Scenario.inputPath "AIzaSy-secret-1"
                 DefaultAIPrompt))
  = Log (job_of (processJob Scenario.server (oracle_answering None) Scenario.world0
                   (Scenario.job0 true) Scenario.jobDir Scenario.inputPath "AIzaSy-secret-2"
                   DefaultAIPrompt)).
Proof.
  destruct (X25_job_depends_on_key_only_via_failures Scenario.server (oracle_answering None)
              Scenario.world0 (Scenario.job0 true) Scenario.jobDir Scenario.inputPath
              "AIzaSy-secret-1" "AIzaSy-secret-2" DefaultAIPrompt) as (_ & L & _).
  - discriminate.
  - discriminate.
  - vm_compute. reflexivity.
  - vm_compute. reflexivity.
  - intros cause. discriminate.
  - exact L.
Defined.


(** X26: from the upload to the download, with AI off. For an upload that
    is accepted without the AI option, the run that [HandleUpload] starts,
    once its commands have returned, has run the tracer on the uploaded
    file and, when the tracer succeeded, the generator with the tool
    commands of the form; when both succeeded, [HandleDownload] then
    serves [output.gcode] of the job directory under the uploaded name
    with the extension [.gcode]; when one of them failed, it answers 404.
    No request is sent to the service in either case. *)
Theorem X26_upload_to_download (parse : string -> F64.float64 * bool) (st : Site) (d : Disk)
    (ou : UploadOracle) (r : UploadRequest) (sp : Spawn) (o : Oracle) :
  spawned (HandleUpload parse st d ou r) = Some sp ->
  UseAI (go_job sp) = false ->
  let h := HandleUpload parse st d ou r in
  let run := run_spawned (site_after h) o (disk_after h) sp in
  let after := register (site_after h) (ID (go_job sp)) (job_of run) in
  let svgPath := Filepath.Join (go_jobDir sp) "output.svg" in
  let gcodePath := Filepath.Join (go_jobDir sp) "output.gcode" in
  http_calls (world_of run) = [] /\
  (exists rest, commands (world_of run) = autotrace_argv svgPath (go_inputPath sp) :: rest) /\
  (proc_err (autotrace o) = None -> proc_err (svg2gcode o) = None ->
   Status (job_of run) = "done" /\
   (exists dpiArg,
      commands (world_of run)
      = [autotrace_argv svgPath (go_inputPath sp);
         ["svg2gcode"; "--on"; ToolOn (go_job sp); "--off"; ToolOff (go_job sp); "--dpi"; dpiArg;
          svgPath; "-o"; gcodePath]]) /\
   HandleDownload after (ID (go_job sp))
   = HttpServeFile
       [("Content-Disposition",
         "attachment; filename=" +:+ Net.Quote (downloadName (OriginalName (go_job sp))));
        ("Content-Type", "application/octet-stream")]
       gcodePath) /\
  ((proc_err (autotrace o) <> None \/ proc_err (svg2gcode o) <> None) ->
   Status (job_of run) = "error" /\
   HandleDownload after (ID (go_job sp)) = HttpError "File not available" 404).
Proof.
  intros S AI. cbv zeta. unfold run_spawned, processJob. rewrite AI. cbv zeta.
  set (srv := site_server (site_after (HandleUpload parse st d ou r))).
  set (w0 := mkWorld (disk_after (HandleUpload parse st d ou r)) [] []).
  set (svgPath := Filepath.Join (go_jobDir sp) "output.svg").
  set (gcodePath := Filepath.Join (go_jobDir sp) "output.gcode").
  cbn [job_of world_of fst snd].
  pose proof (convert_stages_http o w0 (go_job sp) svgPath gcodePath (go_inputPath sp)) as HT.
  destruct (convert_stages_first_command o w0 (go_job sp) svgPath gcodePath (go_inputPath sp))
    as [rest CR].
  destruct (convert_stages_name o w0 (go_job sp) svgPath gcodePath (go_inputPath sp)) as [N _].
  pose proof (convert_stages_status o w0 (go_job sp) svgPath gcodePath (go_inputPath sp)) as ST.
  pose proof (convert_stages_commands o w0 (go_job sp) svgPath gcodePath (go_inputPath sp)) as CC.
  cbv zeta in ST, CC.
  set (cv := convert_stages o w0 (go_job sp) svgPath gcodePath (go_inputPath sp)) in *.
  split; [exact HT|]. split; [exists rest; exact CR|]. split.
  - intros A G. destruct ST as [(S1 & S2 & _)|(_ & _ & [X|X])]; [|congruence|congruence].
    split; [exact S1|]. split.
    + destruct CC as [[X _]|[_ [dpiArg E]]]; [congruence|]. exists dpiArg. exact E.
    + rewrite HandleDownload_registered, S1, S2, N.
      cbn [String.eqb Ascii.eqb Bool.eqb negb orb].
      destruct (String.eqb_spec gcodePath EmptyString) as [Z|_]; [|reflexivity].
      now apply Join_nonempty in Z.
  - intros F. destruct ST as [(_ & _ & A & G)|(S1 & _)]; [destruct F; congruence|].
    split; [exact S1|]. rewrite HandleDownload_registered, S1. reflexivity.
Qed.

Lemma X26_upload_to_download_witness :
  let h := HandleUpload F64.ParseFloat site0 Scenario.disk0 upload_oracle0
             (upload_of "drawing.png" "50" "50") in
  exists sp : Spawn,
    spawned h = Some sp /\
    HandleDownload
      (register (site_after h) (ID (go_job sp))
         (job_of (run_spawned (site_after h)
                    (Scenario.oracle_for Scenario.traced_document Scenario.offline)
                    (disk_after h) sp)))
      (ID (go_job sp))
    = HttpServeFile
        [("Content-Disposition", "attachment; filename=" +:+ Text.DQ +:+ "drawing.gcode" +:+ Text.DQ);
         ("Content-Type", "application/octet-stream")]
        "/data/uploads/1700000000000000000/output.gcode".
Proof.
  cbv zeta. eexists. split; [reflexivity|].
  destruct (X26_upload_to_download F64.ParseFloat site0 Scenario.disk0 upload_oracle0
              (upload_of "drawing.png" "50" "50") _
              (Scenario.oracle_for Scenario.traced_document Scenario.offline) eq_refl eq_refl)
    as (_ & _ & D & _).
  destruct (D eq_refl eq_refl) as (_ & _ & E).
  rewrite E. vm_compute. reflexivity.
Defined.

(* ===================================================================== *)
(** * Properties across the cache and the pipeline *)
(* ===================================================================== *)

(** X27: a migrated row is served. After [NewAIImageCache] has migrated a
    legacy table, a [Lookup] with the fingerprint of a legacy row and the
    default prompt returns the file of that row, with its media type and
    the default prompt, when the file is still in the cache directory; with
    a prompt whose truncated hash is another one, the lookup finds
    nothing. *)
Theorem X27_migrated_rows_are_served (legacy : gmap string LegacyRow) (fs : gmap string string)
    (dbPath dir h : string) (old : LegacyRow) :
  legacy !! h = Some old ->
  is_Some (fs !! Filepath.Join dir (legacy_output_filename old)) ->
  let d' := fst (NewAIImageCache (mkDisk fs (mkDatabase (Some (LegacySchema legacy)) None))
                   dbPath dir) in
  Lookup (mkAIImageCache dir) None d' h DefaultAIPrompt
  = (d', Done (Some (mkCachedResult (legacy_output_filename old) (legacy_mime_type old)
                       (Filepath.Join dir (legacy_output_filename old)) DefaultAIPrompt))) /\
  forall prompt : string,
    hashString prompt <> hashString DefaultAIPrompt ->
    Lookup (mkAIImageCache dir) None d' h prompt = (d', Done None).
Proof.
  intros Hl Hf. cbv zeta. unfold NewAIImageCache.
  cbn [Sql.create_if_not_exists index ai_image_cache]. rewrite migrateOldSchema_legacy.
  unfold set_index. cbn [fst files index].
  assert (R : migrated legacy !! MakeCacheKey h DefaultAIPrompt
              = Some (mkCacheRow h DefaultAIPrompt (legacy_output_filename old)
                        (legacy_mime_type old) (legacy_created_at old))).
  { apply migrated_lookup. exists h, old. auto. }
  split.
  - apply (Lookup_row (mkAIImageCache dir) _ h DefaultAIPrompt
             (mkCacheRow h DefaultAIPrompt (legacy_output_filename old)
                (legacy_mime_type old) (legacy_created_at old))); [exact R | exact Hf].
  - intros prompt Hp. unfold Lookup. cbn [index ai_image_cache].
    destruct (migrated legacy !! MakeCacheKey h prompt) as [row|] eqn:E; [exfalso|reflexivity].
    apply migrated_lookup in E as (h' & old' & _ & K & _).
    apply (MakeCacheKey_eq h h' prompt DefaultAIPrompt) in K as [_ K]. now destruct Hp.
Qed.

Lemma X27_migrated_rows_are_served_witness :
  let fs : gmap string string :=
    {[ "/data/ai_cache/c9b4b9d43e814526_1690000000000000000.png" := "PNG line art" ]} in
  let d' := fst (NewAIImageCache (mkDisk fs (mkDatabase (Some (LegacySchema Scenario.legacy_rows)) None))
                   "/data/ai_cache.db" "/data/ai_cache") in
  Lookup (mkAIImageCache "/data/ai_cache") None d' Scenario.fingerprint DefaultAIPrompt
  = (d', Done (Some (mkCachedResult "c9b4b9d43e814526_1690000000000000000.png" "image/png"
                       "/data/ai_cache/c9b4b9d43e814526_1690000000000000000.png" DefaultAIPrompt))).
Proof.
  cbv zeta.
  destruct (X27_migrated_rows_are_served Scenario.legacy_rows
              {[ "/data/ai_cache/c9b4b9d43e814526_1690000000000000000.png" := "PNG line art" ]}
              "/data/ai_cache.db" "/data/ai_cache" Scenario.fingerprint
              (mkLegacyRow "c9b4b9d43e814526_1690000000000000000.png" "image/png"
                 "2023-07-22 04:26:40")) as [H _].
  - vm_compute. reflexivity.
  - vm_compute. eauto.
  - exact H.
Defined.

(** X28: the cache is keyed on the truncated hash of the prompt, not on the
    prompt. After a successful [Store] for a fingerprint and a prompt, a
    [Lookup] with the same fingerprint and any prompt that has the same
    truncated hash returns the stored result, whose prompt is the stored
    one: the prompt asked for is not compared with it. With a prompt whose
    truncated hash differs, and no row of its own, the lookup finds
    nothing. *)
Theorem X28_lookup_keys_on_prompt_hash (c : AIImageCache) (clk : Clock) (we ie : option string)
    (d d' : Disk) (h p data m : string) (r : CachedResult) :
  Store c clk we ie d h p data m = (d', Done r) ->
  Prompt r = p /\
  forall p' : string,
    (hashString p' = hashString p -> Lookup c None d' h p' = (d', Done (Some r))) /\
    (hashString p' <> hashString p -> index_row d (MakeCacheKey h p') = None ->
     Lookup c None d' h p' = (d', Done None)).
Proof.
  intros S.
  pose proof (fun key => Store_other_key c clk we ie d h p data m key) as O.
  rewrite S in O. cbn [fst] in O.
  destruct (Store_Done c _ _ _ _ _ _ _ _ _ _ S) as (rows & filename & T & Hf & -> & ->).
  split; [reflexivity|]. intros p'. split.
  - intros E.
    assert (K : MakeCacheKey h p' = MakeCacheKey h p) by (unfold MakeCacheKey; now rewrite E).
    apply (Lookup_row c _ h p' (mkCacheRow h p filename m (current_timestamp clk))).
    + rewrite K. unfold index_row. cbn. apply lookup_insert_eq.
    + cbn. rewrite lookup_insert_eq. eauto.
  - intros N Z.
    assert (K : MakeCacheKey h p <> MakeCacheKey h p').
    { intros K. apply MakeCacheKey_eq in K as [_ K]. now destruct N. }
    specialize (O _ K). rewrite Z in O. unfold index_row in O. unfold Lookup.
    cbn [index set_rows set_index ai_image_cache] in *. now rewrite O.
Qed.

Lemma X28_lookup_keys_on_prompt_hash_witness :
  let c := mkAIImageCache "/data/ai_cache" in
  let s1 := Store c Scenario.clock0 None None Scenario.disk0 Scenario.fingerprint
                  DefaultAIPrompt "PNG line art" "image/png" in
  Lookup c None (fst s1) Scenario.fingerprint "Draw the outline only." = (fst s1, Done None).
Proof.
  cbv zeta.
  destruct (X28_lookup_keys_on_prompt_hash (mkAIImageCache "/data/ai_cache") Scenario.clock0
              None None Scenario.disk0
              (fst (Store (mkAIImageCache "/data/ai_cache") Scenario.clock0 None None
                      Scenario.disk0 Scenario.fingerprint DefaultAIPrompt "PNG line art"
                      "image/png"))
              Scenario.fingerprint DefaultAIPrompt "PNG line art" "image/png"
              (mkCachedResult "c9b4b9d43e814526_1700000000123456789.png" "image/png"
                 "/data/ai_cache/c9b4b9d43e814526_1700000000123456789.png" DefaultAIPrompt)
              eq_refl) as [_ H].
  destruct (H "Draw the outline only.") as [_ M].
  apply M.
  - vm_compute. discriminate.
  - vm_compute. reflexivity.
Defined.

Section TracedDocument.

Lemma Join_Base (dir e : string) :
  plain_element e = true -> Filepath.Base (Filepath.Join dir e) = e.
Proof.
  intros He. destruct (Join_plain dir e He) as (prefix & J & Hp).
  destruct (plain_element_chars e He) as [Hs Hn]. rewrite J. now apply Base_plain.
Qed.

Lemma output_paths_differ (jobDir : string) :
  Filepath.Join jobDir "output.svg" <> Filepath.Join jobDir "output.gcode".
Proof.
  intros E. apply (f_equal Filepath.Base) in E.
  rewrite !Join_Base in E by reflexivity. discriminate.
Qed.

(** The drawing that the later stages leave is the one the filter left. *)
Lemma convert_stages_drawing (o : Oracle) (w : World) (job : Job)
    (svgPath gcodePath inputPath : string) :
  proc_err (autotrace o) = None -> svgPath <> gcodePath ->
  files (disk (fst (convert_stages o w job svgPath gcodePath inputPath))) !! svgPath
  = files (disk (fst (filterWhitePaths
                        (run_command w (autotrace_argv svgPath inputPath) (autotrace o) svgPath)
                        (filter_write_err o) svgPath))) !! svgPath.
Proof.
  intros A N. unfold convert_stages. cbv zeta. rewrite A.
  destruct (filterWhitePaths _ _ _) as [w2 fe]. cbn [fst].
  destruct (getSVGDimensions _) as [svgWidth svgHeight].
  destruct (scaleToFit _ _ _ _) as [scaledWidth scaledHeight].
  destruct (proc_err (svg2gcode o)); cbn [fst]; now apply run_command_files.
Qed.

Lemma filterWhitePaths_written (w : World) (argv : list string) (p : ProcOutcome)
    (svgPath data : string) :
  proc_output p = Some data ->
  files (disk (fst (filterWhitePaths (run_command w argv p svgPath) None svgPath))) !! svgPath
  = Some (filterWhitePaths_data data).
Proof.
  intros O. unfold filterWhitePaths, run_command. rewrite O.
  cbn [write_file set_disk set_files disk files]. rewrite lookup_insert_eq.
  cbn [fst write_file set_disk set_files disk files]. apply lookup_insert_eq.
Qed.

End TracedDocument.

(** X29: the pipeline on a traced document, with AI off. When the tracer
    writes a document of stroked paths that declares a width and a height,
    and the filter can write the file back, [processJob] leaves in
    [output.svg] the same document without its near-white paths, and runs
    the generator with the resolution [width / fitted * 25.4] printed with
    four decimals, where [width] is the declared width and [fitted] the
    width that [scaleToFit] gives for the declared size and the maximum
    size of the job. *)
Theorem X29_traced_document_pipeline (s : Server) (o : Oracle) (w : World) (job : Job)
    (jobDir inputPath apiKey aiPrompt wd ht : string) (paths : list (string * string)) :
  UseAI job = false ->
  proc_err (autotrace o) = None ->
  proc_output (autotrace o) = Some (Scenario.svg_document wd ht (map written paths)) ->
  filter_write_err o = None ->
  number_text wd = true -> number_text ht = true -> Forall well_formed paths ->
  let svgPath := Filepath.Join jobDir "output.svg" in
  let gcodePath := Filepath.Join jobDir "output.gcode" in
  let fitted := fst (scaleToFit (declared wd) (declared ht) (MaxWidth job) (MaxHeight job)) in
  let resolution := F64.mul (F64.div (declared wd) fitted) (F64.const "25.4") in
  exists (w' : World) (job' : Job),
    processJob s o w job jobDir inputPath apiKey aiPrompt = Finished w' job' /\
    files (disk w') !! svgPath = Some (Scenario.svg_document wd ht (map filtered paths)) /\
    commands w'
    = commands w ++ [autotrace_argv svgPath inputPath;
                     ["svg2gcode"; "--on"; ToolOn job; "--off"; ToolOff job; "--dpi";
                      F64.FormatFloat 4 resolution; svgPath; "-o"; gcodePath]].
Proof.
  intros AI A O FW Hw Hh Hp. cbv zeta. unfold processJob. rewrite AI. cbv zeta.
  eexists _, _. split; [reflexivity|]. cbn [fst snd].
  pose proof (convert_stages_generate o w job (Filepath.Join jobDir "output.svg")
                (Filepath.Join jobDir "output.gcode") inputPath A) as G.
  cbv zeta in G.
  pose proof (convert_stages_drawing o w job (Filepath.Join jobDir "output.svg")
                (Filepath.Join jobDir "output.gcode") inputPath A (output_paths_differ jobDir)) as D.
  rewrite FW in G, D.
  rewrite (filterWhitePaths_written w _ (autotrace o) _ _ O) in G, D.
  rewrite (filter_document wd ht paths (number_text_no_lt wd Hw) (number_text_no_lt ht Hh) Hp)
    in G, D.
  rewrite getSVGDimensions_document in G by assumption. cbn [fst snd] in G.
  split; [exact D | exact G].
Qed.

Lemma X29_traced_document_pipeline_witness :
  exists (w' : World) (job' : Job),
    Scenario.run_plain (Scenario.svg_document "832" "416"
                          (map written [("fefefe", "M0 0L9 9"); ("000000", "M1 1L8 8")]))
    = Finished w' job' /\
    files (disk w') !! "/data/uploads/1700000000000000000/output.svg"
    = Some (Scenario.svg_document "832" "416" [EmptyString; written ("000000", "M1 1L8 8")]) /\
    Scenario.dpi_argument (Finished w' job') = "422.6560".
Proof.
  destruct (X29_traced_document_pipeline Scenario.server
              (Scenario.oracle_for
                 (Scenario.svg_document "832" "416"
                    (map written [("fefefe", "M0 0L9 9"); ("000000", "M1 1L8 8")]))
                 Scenario.offline)
              Scenario.world0 (Scenario.job0 false) Scenario.jobDir Scenario.inputPath
              EmptyString DefaultAIPrompt "832" "416"
              [("fefefe", "M0 0L9 9"); ("000000", "M1 1L8 8")])
    as (w' & job' & P & F & C); try reflexivity.
  - repeat constructor; cbn [fst]; unfold hex6;
      (eexists _, _, _, _, _, _; split; [reflexivity|]; repeat split; reflexivity).
  - exists w', job'. split; [exact P|]. split.
    + exact F.
    + unfold Scenario.dpi_argument. rewrite C. vm_compute. reflexivity.
Defined.
